(** * SkillScape agent service: quiz store, scorer, organizer, generator

    A shallow embedding of the Python tool functions
    [app/tools/score_quiz.py], [app/tools/generate_quiz.py],
    [app/tools/organize_content.py] and of the error handling of the
    [/assess] and [/assess/answers] endpoints of [app/main.py].

    Python values that travel as JSON are kept as JSON trees; dictionaries
    are insertion-ordered association lists, as Python's [dict] is; floats
    are IEEE binary64 numbers computed with the executable specification
    of the Standard Library ([SpecFloat], precision 53, [emax] 1024);
    a raised exception is an explicit [Raise] outcome. *)

From Stdlib Require Import ZArith List String Ascii Bool Lia.
From Stdlib Require Import Sorting.Permutation.
From Stdlib Require Import Floats.SpecFloat.
Import ListNotations.

Local Open Scope Z_scope.
Local Open Scope list_scope.

(* ================================================================= *)
(** ** Outcomes of Python code *)

Inductive exn : Type :=
| KeyError
| TypeError
| AttributeError
| ValueError
| OverflowError
| JSONDecodeError
| UpstreamError.

Inductive result (A : Type) : Type :=
| Ret (a : A)
| Raise (e : exn).

Arguments Ret {A} a.
Arguments Raise {A} e.

Definition bind {A B : Type} (m : result A) (k : A -> result B) : result B :=
  match m with
  | Ret a => k a
  | Raise e => Raise e
  end.

Notation "x <- m ;; k" := (bind m (fun x => k))
  (at level 61, m at next level, right associativity).

Fixpoint foldM {A B : Type} (f : A -> B -> result A) (a : A) (l : list B)
  : result A :=
  match l with
  | [] => Ret a
  | b :: l' => a' <- f a b ;; foldM f a' l'
  end.

Fixpoint mapM {A B : Type} (f : A -> result B) (l : list A) : result (list B) :=
  match l with
  | [] => Ret []
  | a :: l' => b <- f a ;; bs <- mapM f l' ;; Ret (b :: bs)
  end.

(* ================================================================= *)
(** ** Insertion-ordered dictionaries *)

Section Dict.
Context {K V : Type}.
Variable eqb : K -> K -> bool.

Fixpoint dict_get (k : K) (d : list (K * V)) : option V :=
  match d with
  | [] => None
  | (k', v) :: d' => if eqb k k' then Some v else dict_get k d'
  end.

Definition dict_mem (k : K) (d : list (K * V)) : bool :=
  match dict_get k d with Some _ => true | None => false end.

(** [d[k] = v]: an existing key keeps its position, a new one goes last. *)
Fixpoint dict_set (k : K) (v : V) (d : list (K * V)) : list (K * V) :=
  match d with
  | [] => [(k, v)]
  | (k', v') :: d' =>
      if eqb k k' then (k', v) :: d' else (k', v') :: dict_set k v d'
  end.

(** [d[k] = f(d[k])] on the entry that the lookup of [k] finds. *)
Fixpoint dict_update (k : K) (f : V -> V) (d : list (K * V)) : list (K * V) :=
  match d with
  | [] => []
  | (k', v') :: d' =>
      if eqb k k' then (k', f v') :: d' else (k', v') :: dict_update k f d'
  end.

Definition dict_remove (k : K) (d : list (K * V)) : list (K * V) :=
  filter (fun kv => negb (eqb k (fst kv))) d.

Definition dict_keys (d : list (K * V)) : list K := map fst d.
End Dict.

(* ================================================================= *)
(** ** JSON values and the Python operations used on them *)

Definition prec : Z := 53.
Definition emax : Z := 1024.

#[warnings="-register-all"]
Inductive json : Type :=
| JNull
| JBool (b : bool)
| JInt (z : Z)
| JFloat (f : spec_float)
| JStr (s : string)
| JArr (l : list json)
| JObj (d : list (string * json)).

Definition sdict := list (string * json).

Definition sget (k : string) (d : sdict) : option json := dict_get String.eqb k d.
Definition smem (k : string) (d : sdict) : bool := dict_mem String.eqb k d.
Definition sset (k : string) (v : json) (d : sdict) : sdict := dict_set String.eqb k v d.
Definition sremove (k : string) (d : sdict) : sdict := dict_remove String.eqb k d.

(** [bool(x)]. *)
Definition truthy (j : json) : bool :=
  match j with
  | JNull => false
  | JBool b => b
  | JInt z => negb (z =? 0)
  | JFloat f => negb (SFeqb f (S754_zero false))
  | JStr s => negb (String.eqb s EmptyString)
  | JArr l => match l with [] => false | _ => true end
  | JObj d => match d with [] => false | _ => true end
  end.

Definition hashable (j : json) : bool :=
  match j with
  | JArr _ | JObj _ => false
  | _ => true
  end.

Definition is_nan (f : spec_float) : bool :=
  match f with S754_nan => true | _ => false end.

(** The integer a finite float with a non-negative exponent stands for is
    [m * 2^e]; an int equals a float when it equals its exact value. *)
Definition SF_eqb_Z (f : spec_float) (z : Z) : bool :=
  match f with
  | S754_zero _ => z =? 0
  | S754_finite s m e =>
      let v := if s then Z.neg m else Z.pos m in
      if 0 <=? e then z =? v * 2 ^ e else z * 2 ^ (- e) =? v
  | _ => false
  end.

(** [z >= f], compared exactly as Python compares an int with a float. *)
Definition Z_geb_SF (z : Z) (f : spec_float) : bool :=
  match f with
  | S754_zero _ => 0 <=? z
  | S754_finite s m e =>
      let v := if s then Z.neg m else Z.pos m in
      if 0 <=? e then v * 2 ^ e <=? z else v <=? z * 2 ^ (- e)
  | S754_infinity s => s
  | S754_nan => false
  end.

Inductive number : Type :=
| NInt (z : Z)
| NFloat (f : spec_float).

(** Numbers in the sense of [==]: [True] is [1], [False] is [0]. *)
Definition as_number (j : json) : option number :=
  match j with
  | JBool b => Some (NInt (if b then 1 else 0))
  | JInt z => Some (NInt z)
  | JFloat f => Some (NFloat f)
  | _ => None
  end.

Definition number_eqb (ident : bool) (a b : number) : bool :=
  match a, b with
  | NInt x, NInt y => x =? y
  | NInt x, NFloat f | NFloat f, NInt x => SF_eqb_Z f x
  | NFloat f, NFloat g => (ident && is_nan f && is_nan g) || SFeqb f g
  end.

(** Equality of two JSON-born Python values.  With [ident = false] this is
    [a == b]; with [ident = true] it is the comparison that dictionary
    lookup and container comparison use, [a is b or a == b]: the decoder
    hands out one shared NaN object, so there NaN matches NaN. *)
Fixpoint py_cmp (ident : bool) (a b : json) {struct a} : bool :=
  match a, b with
  | JNull, JNull => true
  | JStr s, JStr t => String.eqb s t
  | JArr l, JArr m =>
      (fix go (l m : list json) {struct l} : bool :=
         match l, m with
         | [], [] => true
         | x :: l', y :: m' => py_cmp true x y && go l' m'
         | _, _ => false
         end) l m
  | JObj d, JObj e =>
      Nat.eqb (List.length d) (List.length e) &&
      (fix go (d : list (string * json)) {struct d} : bool :=
         match d with
         | [] => true
         | (k, v) :: d' =>
             match sget k e with
             | Some w => py_cmp true v w
             | None => false
             end && go d'
         end) d
  | _, _ =>
      match as_number a, as_number b with
      | Some x, Some y => number_eqb ident x y
      | _, _ => false
      end
  end.

Definition py_eqb : json -> json -> bool := py_cmp false.
Definition key_eqb : json -> json -> bool := py_cmp true.

(** [obj.get(key, default)]: only dictionaries have the method. *)
Definition py_get (obj : json) (key : string) (default : json) : result json :=
  match obj with
  | JObj d => Ret (match sget key d with Some v => v | None => default end)
  | _ => Raise AttributeError
  end.

(** [obj[key]] for a string [key]. *)
Definition py_getitem (obj : json) (key : string) : result json :=
  match obj with
  | JObj d => match sget key d with Some v => Ret v | None => Raise KeyError end
  | _ => Raise TypeError
  end.

(** [d.get(k)] on a dictionary decoded from JSON, whose keys are strings,
    for an arbitrary key object [k]. *)
Definition py_get_key (d : sdict) (k : json) : result json :=
  match k with
  | JStr s => Ret (match sget s d with Some v => v | None => JNull end)
  | JArr _ | JObj _ => Raise TypeError
  | _ => Ret JNull
  end.

Definition chars (s : string) : list json :=
  map (fun c => JStr (String c EmptyString)) (list_ascii_of_string s).

(** The items a [for] loop draws from a value. *)
Definition py_iter (j : json) : result (list json) :=
  match j with
  | JArr l => Ret l
  | JObj d => Ret (map JStr (dict_keys d))
  | JStr s => Ret (chars s)
  | _ => Raise TypeError
  end.

(** [int / int] is the correctly rounded quotient; below 2^53 both operands
    convert exactly and the quotient is the binary64 division. *)
Definition Z2SF (z : Z) : spec_float := binary_normalize prec emax z 0 false.

Definition py_truediv (a b : Z) : spec_float := SFdiv prec emax (Z2SF a) (Z2SF b).

(** The literal [0.7]: the binary64 number nearest to 7/10. *)
Definition c07 : spec_float := S754_finite false 6305039478318694 (-53).

(** [x >= 0.7] for a score [x], which is a float or the int [0]. *)
Definition ge_07 (x : json) : bool :=
  match x with
  | JFloat f => SFleb c07 f
  | JInt z => Z_geb_SF z c07
  | _ => false
  end.

(* ================================================================= *)
(** ** The quiz store and the scorer ([app/tools/score_quiz.py]) *)

(** Modelled from the spec: the module [app/tools/state.py], from which
    both tools import [quiz_store], is not among the sources.  It is the
    process-wide keyed storage of generated quizzes: a dictionary from
    session id to stored quiz, used with [in], item lookup and assignment,
    [keys()] and [len]. *)
Definition store := list (string * json).

(** One value of the local [topics_scores] dictionary. *)
Record tally : Type := mkTally { correct : Z; total : Z }.

Definition topics_scores := list (json * tally).

Definition tget (k : json) (ts : topics_scores) : option tally := dict_get key_eqb k ts.
Definition tmem (k : json) (ts : topics_scores) : bool := dict_mem key_eqb k ts.

Definition bump_total (t : tally) : tally := mkTally (correct t) (total t + 1).
Definition bump_correct (t : tally) : tally := mkTally (correct t + 1) (total t).

(** One entry of [topics_assessed]. *)
Record topic_assessment : Type := mkTopic {
  topic : json;
  score : json;
  status : string;
  questions_correct : Z;
  questions_total : Z
}.

Record assessment : Type := mkAssessment {
  session_id : string;
  title : json;
  topics_assessed : list topic_assessment;
  overall_knowledge : json;
  focus_areas : list json;
  skip_areas : list json
}.

Definition topic_to_json (t : topic_assessment) : json :=
  JObj [("topic", topic t);
        ("score", score t);
        ("status", JStr (status t));
        ("questions_correct", JInt (questions_correct t));
        ("questions_total", JInt (questions_total t))]%string.

Definition assessment_to_json (a : assessment) : json :=
  JObj [("session_id", JStr (session_id a));
        ("title", title a);
        ("topics_assessed", JArr (map topic_to_json (topics_assessed a)));
        ("overall_knowledge", overall_knowledge a);
        ("focus_areas", JArr (focus_areas a));
        ("skip_areas", JArr (skip_areas a))]%string.

(** The body of the first loop, lines 31-36, for one question [q]. *)
Definition tally_question (user_answers : json) (ts : topics_scores) (q : json)
  : result topics_scores :=
  topic <- py_get q "topic" (JStr "General") ;;
  if negb (hashable topic) then Raise TypeError else
  let ts1 := if tmem topic ts then ts else ts ++ [(topic, mkTally 0 0)] in
  let ts2 := dict_update key_eqb topic bump_total ts1 in
  match user_answers with
  | JObj ua =>
      qid <- py_getitem q "id" ;;
      given <- py_get_key ua qid ;;
      expected <- py_get q "correct" JNull ;;
      if py_eqb given expected
      then Ret (dict_update key_eqb topic bump_correct ts2)
      else Ret ts2
  | _ => Raise AttributeError
  end.

(** [score = correct / total if total > 0 else 0]. *)
Definition ratio (c t : Z) : json :=
  if 0 <? t then JFloat (py_truediv c t) else JInt 0.

(** The body of the second loop, lines 43-55, for one item of
    [topics_scores]; the accumulator holds [topics_assessed],
    [focus_areas] and [skip_areas]. *)
Definition assess_topic
  (acc : list topic_assessment * list json * list json) (item : json * tally)
  : list topic_assessment * list json * list json :=
  let '(assessed, focus, skip) := acc in
  let '(topic, scores) := item in
  let score := ratio (correct scores) (total scores) in
  let status := if ge_07 score then "proficient"%string else "needs_review"%string in
  let assessed' :=
    assessed ++ [mkTopic topic score status (correct scores) (total scores)] in
  if ge_07 score
  then (assessed', focus, skip ++ [topic])
  else (assessed', focus ++ [topic], skip).

Definition sumZ (l : list Z) : Z := fold_left Z.add l 0.

(** Lines 63-64 taken together: the two item assignments on the stored
    quiz. *)
Definition mark_scored (quiz : json) (r : json) : json :=
  match quiz with
  | JObj d => JObj (sset "_score_result" r (sset "_scored" (JBool true) d))
  | _ => quiz
  end.

Definition not_found (sid : string) (quiz_store : store) : json :=
  JObj [("error", JStr ("Quiz session " ++ sid ++ " not found"));
        ("available_sessions", JArr (map JStr (dict_keys quiz_store)))]%string.

(** Lines 23-25: the cached result, when the quiz has already been
    scored. *)
Definition cached_result (quiz : json) : result (option json) :=
  scored <- py_get quiz "_scored" JNull ;;
  if truthy scored then
    cached <- py_get quiz "_score_result" JNull ;;
    if truthy cached then
      r <- py_getitem quiz "_score_result" ;;
      Ret (Some r)
    else Ret None
  else Ret None.

(** What lines 29-59 compute. *)
Record scoring : Type := mkScoring {
  sc_assessed : list topic_assessment;
  sc_overall : json;
  sc_focus : list json;
  sc_skip : list json
}.

(** The dictionary literal of lines 64-71 and 75-82. *)
Definition result_of (sid : string) (quiz_title : json) (s : scoring) : assessment :=
  mkAssessment sid quiz_title (sc_assessed s) (sc_overall s) (sc_focus s) (sc_skip s).

(** Code that reads and writes the quiz store and may raise: the outcome
    and the store afterwards. *)
Definition M (A : Type) : Type := store -> result A * store.

Definition mret {A : Type} (a : A) : M A := fun st => (Ret a, st).

Definition mbind {A B : Type} (m : M A) (k : A -> M B) : M B :=
  fun st =>
    match m st with
    | (Ret a, st') => k a st'
    | (Raise e, st') => (Raise e, st')
    end.

Definition pure {A : Type} (r : result A) : M A := fun st => (r, st).

Notation "x <~ m ;; k" := (mbind m (fun x => k))
  (at level 61, m at next level, right associativity).

(** [quiz[key] = value], on the quiz object that the store holds under
    [sid]: the local name [quiz] is an alias of that object. *)
Definition set_item (sid key : string) (value : json) : M unit :=
  fun st =>
    match dict_get String.eqb sid st with
    | Some (JObj d) => (Ret tt, dict_set String.eqb sid (JObj (sset key value d)) st)
    | Some _ => (Raise TypeError, st)
    | None => (Raise KeyError, st)
    end.

(** [quiz.get(key, default)] on the same object. *)
Definition get_item (sid key : string) (default : json) : M json :=
  fun st =>
    match dict_get String.eqb sid st with
    | Some quiz => (py_get quiz key default, st)
    | None => (Raise KeyError, st)
    end.

Section Scorer.
(** [json.loads]: the decoded value, or [Raise JSONDecodeError]. *)
Variable json_loads : string -> result json.

(** Lines 27-59: the scores of a stored [quiz] for the submitted
    [answers]. *)
Definition score_topics (quiz : json) (answers : string) : result scoring :=
  user_answers <- json_loads answers ;;
  questions_field <- py_get quiz "questions" (JArr []) ;;
  questions <- py_iter questions_field ;;
  ts <- foldM (tally_question user_answers) [] questions ;;
  let '(assessed, focus, skip) := fold_left assess_topic ts ([], [], []) in
  let total_correct := sumZ (map questions_correct assessed) in
  let total_questions := sumZ (map questions_total assessed) in
  let overall := ratio total_correct total_questions in
  Ret (mkScoring assessed overall focus skip).

(** [score_quiz(session_id, answers)]: the value handed to [json.dumps]
    and the quiz store afterwards. *)
Definition score_quiz (sid : string) (answers : string) : M json :=
  fun quiz_store =>
    match dict_get String.eqb sid quiz_store with
    | None => (Ret (not_found sid quiz_store), quiz_store)
    | Some quiz =>
        (cached <~ pure (cached_result quiz) ;;
         match cached with
         | Some r => mret r
         | None =>
             s <~ pure (score_topics quiz answers) ;;
             _ <~ set_item sid "_scored" (JBool true) ;;
             quiz_title <~ get_item sid "title" (JStr "Quiz") ;;
             _ <~ set_item sid "_score_result"
                    (assessment_to_json (result_of sid quiz_title s)) ;;
             quiz_title' <~ get_item sid "title" (JStr "Quiz") ;;
             mret (assessment_to_json (result_of sid quiz_title' s))
         end) quiz_store
    end.

(** The assessment that a first scoring of [quiz] produces. *)
Definition compute_assessment (sid : string) (quiz : json) (answers : string)
  : result assessment :=
  s <- score_topics quiz answers ;;
  quiz_title <- py_get quiz "title" (JStr "Quiz") ;;
  Ret (result_of sid quiz_title s).
End Scorer.

(* ================================================================= *)
(** ** The quiz generator ([app/tools/generate_quiz.py]) *)

Fixpoint is_prefix (p s : string) : bool :=
  match p, s with
  | EmptyString, _ => true
  | String a p', String b s' => Ascii.eqb a b && is_prefix p' s'
  | String _ _, EmptyString => false
  end.

(** [p in s] for two strings. *)
Fixpoint contains (p s : string) : bool :=
  is_prefix p s ||
  match s with
  | EmptyString => false
  | String _ s' => contains p s'
  end.

(** [key in obj] for a string [key]. *)
Definition py_in (key : string) (obj : json) : result bool :=
  match obj with
  | JObj d => Ret (smem key d)
  | JArr l => Ret (existsb (key_eqb (JStr key)) l)
  | JStr s => Ret (contains key s)
  | _ => Raise TypeError
  end.

(** Lines 84-85, for one element [q] of the questions:
    [if "correct_answer" in q: q["correct"] = q.pop("correct_answer")]. *)
Definition normalize_question (q : json) : result json :=
  present <- py_in "correct_answer" q ;;
  if present then
    match q with
    | JObj d =>
        match sget "correct_answer" d with
        | Some v => Ret (JObj (sset "correct" v (sremove "correct_answer" d)))
        | None => Raise KeyError
        end
    | JArr _ => Raise TypeError
    | _ => Raise AttributeError
    end
  else Ret q.

(** Lines 83-85: the loop mutates the question objects of the decoded
    reply in place; afterwards the reply holds the normalized questions. *)
Definition normalize_quiz (reply : json) : result json :=
  questions_field <- py_get reply "questions" (JArr []) ;;
  questions <- py_iter questions_field ;;
  questions' <- mapM normalize_question questions ;;
  match reply, questions_field with
  | JObj d, JArr _ =>
      if smem "questions" d
      then Ret (JObj (sset "questions" (JArr questions') d))
      else Ret reply
  | _, _ => Ret reply
  end.

(** Line 91: [{k: v for k, v in q.items() if k != "correct"}]. *)
Definition sanitize_question (q : json) : result json :=
  match q with
  | JObj d => Ret (JObj (sremove "correct" d))
  | _ => Raise AttributeError
  end.

(** Lines 91-98: the value handed to [json.dumps]. *)
Definition quiz_view (sid : string) (quiz : json) : result json :=
  questions_field <- py_get quiz "questions" (JArr []) ;;
  qs <- py_iter questions_field ;;
  questions <- mapM sanitize_question qs ;;
  quiz_title <- py_get quiz "title" (JStr "Quiz") ;;
  quiz_topics <- py_get quiz "topics" (JArr []) ;;
  Ret (JObj [("session_id", JStr sid);
             ("title", quiz_title);
             ("topics", quiz_topics);
             ("questions", JArr questions)]%string).

Section Generator.
Variable json_loads : string -> result json.

(** Lines 20-77: the request to the hosted model for [content],
    [content_type] and [num_questions], and the text of its reply;
    [Raise] when the request (or the base64 decoding of a PDF) fails. *)
Variable ask_quiz : string -> string -> Z -> result string.

(** [generate_quiz(content, content_type, num_questions)], with the
    identifier [sid] that [uuid.uuid4()] draws. *)
Definition generate_quiz (content content_type : string) (num_questions : Z)
  (sid : string) (quiz_store : store) : result json * store :=
  match (text <- ask_quiz content content_type num_questions ;;
         reply <- json_loads text ;;
         normalize_quiz reply) with
  | Raise e => (Raise e, quiz_store)
  | Ret quiz =>
      let quiz_store' := dict_set String.eqb sid quiz quiz_store in
      (quiz_view sid quiz, quiz_store')
  end.
End Generator.

(* ================================================================= *)
(** ** The organizer ([app/tools/organize_content.py]) *)

Fixpoint repeat_string (n : nat) (s : string) : string :=
  match n with
  | O => EmptyString
  | S n' => (s ++ repeat_string n' s)%string
  end.

(** [x * 100]. *)
Definition py_mul100 (x : json) : result json :=
  match x with
  | JInt z => Ret (JInt (z * 100))
  | JBool b => Ret (JInt ((if b then 1 else 0) * 100))
  | JFloat f => Ret (JFloat (SFmul prec emax f (Z2SF 100)))
  | JStr s => Ret (JStr (repeat_string 100 s))
  | JArr l => Ret (JArr (List.concat (List.repeat l 100)))
  | JNull | JObj _ => Raise TypeError
  end.

(** [int(f)] for a float: the integer part, towards zero. *)
Definition SF_trunc (f : spec_float) : result Z :=
  match f with
  | S754_zero _ => Ret 0
  | S754_finite s m e =>
      let a := if 0 <=? e then Z.pos m * 2 ^ e else Z.pos m / 2 ^ (- e) in
      Ret (if s then - a else a)
  | S754_infinity _ => Raise OverflowError
  | S754_nan => Raise ValueError
  end.

(** [", ".join(x)]: every item must be a string. *)
Definition py_join (x : json) : result string :=
  items <- py_iter x ;;
  strs <- mapM (fun j => match j with JStr s => Ret s | _ => Raise TypeError end) items ;;
  Ret (String.concat ", " strs).

(** Lines 33 and 74: the status for a progress percentage. *)
Definition status_of (progress : Z) : string :=
  if 100 <=? progress then "completed"%string
  else if 0 <? progress then "in_progress"%string
  else "not_started"%string.

(** The variable parts of the assessment section of the prompt. *)
Record assessment_section : Type := mkSection {
  sec_progress : Z;
  sec_focus : string;
  sec_skip : string;
  sec_status : string
}.

Section Organizer.
Variable json_loads : string -> result json.

(** [int(s)] for a string: the builtin's parser of integer literals. *)
Variable int_of_str : string -> result Z.

(** Lines 38-62: the request to the hosted model, built from the
    content, its type, the URL, the existing subjects and the assessment
    section (absent without assessment data), and the text of the reply. *)
Variable ask_organizer :
  string -> string -> string -> string -> option assessment_section -> result string.

(** [int(x)]. *)
Definition py_int (x : json) : result Z :=
  match x with
  | JInt z => Ret z
  | JBool b => Ret (if b then 1 else 0)
  | JFloat f => SF_trunc f
  | JStr s => int_of_str s
  | _ => Raise TypeError
  end.

(** Line 24. *)
Definition progress_of (assessment : json) : result Z :=
  ok <- py_get assessment "overall_knowledge" (JInt 0) ;;
  scaled <- py_mul100 ok ;;
  py_int scaled.

(** Lines 72-74: the two item assignments on [content_node]. *)
Definition set_progress (content_node : json) (progress : Z) : result json :=
  match content_node with
  | JObj d =>
      Ret (JObj (sset "status" (JStr (status_of progress))
                   (sset "progressPercent" (JInt progress) d)))
  | _ => Raise TypeError
  end.

Definition organize_content
  (content content_type url assessment_json existing_subjects : string)
  : result json :=
  assessment <- (if String.eqb assessment_json "" then Ret (JObj [])
                 else json_loads assessment_json) ;;
  progress <- progress_of assessment ;;
  section <- (if truthy assessment then
                focus_field <- py_get assessment "focus_areas" (JArr []) ;;
                focus <- py_join focus_field ;;
                skip_field <- py_get assessment "skip_areas" (JArr []) ;;
                skip <- py_join skip_field ;;
                Ret (Some (mkSection progress focus skip (status_of progress)))
              else Ret None) ;;
  text <- ask_organizer content content_type url existing_subjects section ;;
  reply <- json_loads text ;;
  nested <- py_in "content_node" reply ;;
  if nested then
    content_node <- py_getitem reply "content_node" ;;
    content_node' <- set_progress content_node progress ;;
    match reply with
    | JObj d => Ret (JObj (sset "content_node" content_node' d))
    | _ => Raise TypeError
    end
  else set_progress reply progress.
End Organizer.

(** The content node of an organizer result, as [main.py] line 207 reads
    it: [org_data.get("content_node", org_data)]. *)
Definition node_of (org : json) : json :=
  match org with
  | JObj d => match sget "content_node" d with Some n => n | None => org end
  | _ => org
  end.

Definition field (k : string) (j : json) : option json :=
  match j with
  | JObj d => sget k d
  | _ => None
  end.

(* ================================================================= *)
(** ** The HTTP boundary ([app/main.py]) *)

(** What a [try] block can throw: a Python exception, or the framework's
    [HTTPException], which derives from [Exception] and from nothing else. *)
Inductive thrown : Type :=
| Exc (e : exn)
| HTTPExc (status_code : Z).

Inductive tried (A : Type) : Type :=
| Done (a : A)
| Thrown (t : thrown).

Arguments Done {A} a.
Arguments Thrown {A} t.

(** What the endpoint hands to the framework. *)
Inductive http (A : Type) : Type :=
| Respond (body : A)
| HTTPException (status_code : Z).

Arguments Respond {A} body.
Arguments HTTPException {A} status_code.

Definition lift {A : Type} (r : result A) : tried A :=
  match r with
  | Ret a => Done a
  | Raise e => Thrown (Exc e)
  end.

(** [isinstance(e, ValueError)]: decoding and validation errors are
    subclasses of [ValueError]; [HTTPException] is not. *)
Definition is_value_error (t : thrown) : bool :=
  match t with
  | Exc ValueError | Exc JSONDecodeError => true
  | _ => false
  end.

Record QuizQuestion : Type := mkQuizQuestion {
  qq_id : string;
  qq_topic : string;
  qq_question : string;
  qq_options : list (string * string)
}.

Record QuizResponse : Type := mkQuizResponse {
  qr_session_id : string;
  qr_status : string;
  qr_content_title : string;
  qr_topics : list string;
  qr_questions : list QuizQuestion
}.

(** Validation of a [str] field. *)
Definition validate_str (j : json) : result string :=
  match j with
  | JStr s => Ret s
  | _ => Raise ValueError
  end.

(** Validation of a [list[str]] field. *)
Definition validate_strs (j : json) : result (list string) :=
  match j with
  | JArr l => mapM validate_str l
  | _ => Raise ValueError
  end.

(** Validation of a [dict[str, str]] field. *)
Definition validate_options (j : json) : result (list (string * string)) :=
  match j with
  | JObj d => mapM (fun kv => v <- validate_str (snd kv) ;; Ret (fst kv, v)) d
  | _ => Raise ValueError
  end.

(** Lines 137-142: the [QuizQuestion] built for one question [q]. *)
Definition quiz_question (q : json) : result QuizQuestion :=
  id_field <- py_getitem q "id" ;;
  topic_field <- py_get q "topic" (JStr "General") ;;
  question_field <- py_getitem q "question" ;;
  options_field <- py_get q "options" (JObj []) ;;
  id <- validate_str id_field ;;
  topic <- validate_str topic_field ;;
  question <- validate_str question_field ;;
  options <- validate_options options_field ;;
  Ret (mkQuizQuestion id topic question options).

(** Lines 131-145: the [QuizResponse] built from the result of
    [run_assess]. *)
Definition quiz_response (res : json) : result QuizResponse :=
  sid_field <- py_get res "session_id" (JStr "") ;;
  title_field <- py_get res "title" (JStr "Untitled") ;;
  topics_field <- py_get res "topics" (JArr []) ;;
  questions_field <- py_get res "questions" (JArr []) ;;
  qs <- py_iter questions_field ;;
  questions <- mapM quiz_question qs ;;
  sid <- validate_str sid_field ;;
  content_title <- validate_str title_field ;;
  topics <- validate_strs topics_field ;;
  Ret (mkQuizResponse sid "awaiting_answers" content_title topics questions).

(** [POST /assess], lines 121-148; [assessed] is the outcome of
    [run_assess]. *)
Definition assess_content (configured : bool) (assessed : result json)
  : http QuizResponse :=
  if negb configured then HTTPException 503 else
  match (res <- assessed ;; quiz_response res) with
  | Ret response => Respond response
  | Raise _ => HTTPException 500
  end.

Section Triage.
Context {TriageResponse : Type}.

(** Lines 186-245: the response models built from the assessment and
    the organization data. *)
Variable build_response : json -> json -> result TriageResponse.

(** The [try] block of [POST /assess/answers], lines 165-245; [triaged]
    is the outcome of [run_triage]. *)
Definition triage_body (triaged : result json) : tried TriageResponse :=
  match
    (res <- triaged ;;
     assessment_data <- py_get res "assessment" (JObj []) ;;
     org_data <- py_get res "organization" (JObj []) ;;
     failed <- py_in "error" assessment_data ;;
     Ret (assessment_data, org_data, failed))
  with
  | Raise e => Thrown (Exc e)
  | Ret (assessment_data, org_data, failed) =>
      if failed : bool then Thrown (HTTPExc 400)
      else lift (build_response assessment_data org_data)
  end.

(** [POST /assess/answers], lines 161-251, with its two handlers:
    [except ValueError] and [except Exception]. *)
Definition submit_assessment_answers (configured : bool) (triaged : result json)
  : http TriageResponse :=
  if negb configured then HTTPException 503 else
  match triage_body triaged with
  | Done response => Respond response
  | Thrown t => if is_value_error t then HTTPException 404 else HTTPException 500
  end.
End Triage.

(* ================================================================= *)
(** ** Well-formed data and reference functions *)

Definition is_str (j : json) : bool :=
  match j with JStr _ => true | _ => false end.

Definition opt_str (o : option json) : bool :=
  match o with Some j => is_str j | None => true end.

Definition req_str (o : option json) : bool :=
  match o with Some j => is_str j | None => false end.

(** A stored question as the generation schema and the normalization leave
    it: required string [id] and [correct], optional string [topic]. *)
Definition stored_question (q : json) : bool :=
  match q with
  | JObj d => req_str (sget "id" d) && opt_str (sget "topic" d)
              && req_str (sget "correct" d)
  | _ => false
  end.

(** A stored quiz: a dictionary whose [questions] are stored questions. *)
Definition stored_quiz (quiz : json) : bool :=
  match quiz with
  | JObj d =>
      match sget "questions" d with
      | Some (JArr qs) => forallb stored_question qs
      | _ => false
      end
  | _ => false
  end.

Definition questions_of (quiz : json) : list json :=
  match field "questions" quiz with
  | Some (JArr qs) => qs
  | _ => []
  end.

(** The topic label a question is aggregated under. *)
Definition topic_of (q : json) : json :=
  match field "topic" q with
  | Some t => t
  | None => JStr "General"
  end.

(** Whether the submitted answers give the correct label of [q]. *)
Definition answered_correctly (ua : sdict) (q : json) : bool :=
  match field "id" q, field "correct" q with
  | Some (JStr id), Some (JStr c) =>
      match sget id ua with
      | Some (JStr a) => String.eqb a c
      | _ => false
      end
  | _, _ => false
  end.

(** The distinct labels of a list, in first-seen order; [seen] holds the
    labels met so far, compared as dictionary keys are. *)
Fixpoint first_seen (seen : list json) (l : list json) : list json :=
  match l with
  | [] => []
  | t :: l' =>
      if existsb (key_eqb t) seen then first_seen seen l'
      else t :: first_seen (seen ++ [t]) l'
  end.

Definition count_where {A : Type} (p : A -> bool) (l : list A) : Z :=
  Z.of_nat (List.length (filter p l)).

(** [round(f)] as the specification words it: the nearest integer, a tie
    going to the even neighbour. *)
Definition SF_round (f : spec_float) : result Z :=
  match f with
  | S754_zero _ => Ret 0
  | S754_finite s m e =>
      let a :=
        if 0 <=? e then Z.pos m * 2 ^ e
        else
          let d := 2 ^ (- e) in
          let q := Z.pos m / d in
          let r := Z.pos m mod d in
          match 2 * r ?= d with
          | Lt => q
          | Gt => q + 1
          | Eq => if Z.even q then q else q + 1
          end in
      Ret (if s then - a else a)
  | S754_infinity _ => Raise OverflowError
  | S754_nan => Raise ValueError
  end.

(** [q'] is the question [q] with its [correct_answer] moved to
    [correct]; every other field is as in [q]. *)
Definition normalizes (q q' : json) : Prop :=
  (forall v, field "correct_answer" q = Some v -> field "correct" q' = Some v) /\
  field "correct_answer" q' = None /\
  (forall k, k <> "correct"%string -> k <> "correct_answer"%string ->
             field k q' = field k q).

(** [v] is the question [q] without its [correct] field. *)
Definition hides_answer (q v : json) : Prop :=
  field "correct" v = None /\
  (forall k, k <> "correct"%string -> field k v = field k q).

Definition is_obj (j : json) : bool :=
  match j with JObj _ => true | _ => false end.

(** The progress as the specification words it:
    [round(overall_knowledge * 100)]. *)
Definition spec_progress (assessment : json) : result Z :=
  ok <- py_get assessment "overall_knowledge" (JInt 0) ;;
  scaled <- py_mul100 ok ;;
  match scaled with
  | JFloat f => SF_round f
  | JInt z => Ret z
  | _ => Raise TypeError
  end.

(** A field that [", ".join] accepts: absent, or a list of strings. *)
Definition joinable (o : option json) : bool :=
  match o with
  | None => true
  | Some (JArr l) => forallb is_str l
  | Some _ => false
  end.

(** The content node of a reply, when nested, is a dictionary. *)
Definition node_ok (o : option json) : bool :=
  match o with
  | None => true
  | Some j => is_obj j
  end.

(** [int(x * 100)] for the [overall_knowledge] field [o] of an
    assessment: a float is scaled and cut towards zero, an int is scaled,
    an absent field counts as 0. *)
Definition cut_percent (o : option json) (p : Z) : Prop :=
  match o with
  | Some (JFloat f) => SF_trunc (SFmul prec emax f (Z2SF 100)) = Ret p
  | Some (JInt z) => p = z * 100
  | None => p = 0
  | Some _ => False
  end.

(** The [options] field of a question of the view: absent, or a
    dictionary of strings. *)
Definition options_ok (o : option json) : bool :=
  match o with
  | None => true
  | Some (JObj d) => forallb (fun kv => is_str (snd kv)) d
  | Some _ => false
  end.

(** A question of the sanitized view that passes the validation of
    [QuizQuestion]. *)
Definition view_question (v : json) : bool :=
  match v with
  | JObj d => req_str (sget "id" d) && opt_str (sget "topic" d)
              && req_str (sget "question" d) && options_ok (sget "options" d)
  | _ => false
  end.

(** A result of [run_assess] that passes the validation of
    [QuizResponse]. *)
Definition assess_result (res : json) : bool :=
  match res with
  | JObj d =>
      opt_str (sget "session_id" d) && opt_str (sget "title" d)
      && joinable (sget "topics" d)
      && match sget "questions" d with
         | Some (JArr vs) => forallb view_question vs
         | _ => false
         end
  | _ => false
  end.

(** The topic the endpoint is to report for a question [v] of the view. *)
Definition reported_topic (v : json) : string :=
  match field "topic" v with
  | Some (JStr t) => t
  | _ => "General"
  end.

(** Whether the float comparison of [c / t] with [0.7] agrees with the
    comparison of the fractions, [7 * t <= 10 * c]. *)
Definition threshold_agrees (c t : Z) : bool :=
  Bool.eqb (ge_07 (ratio c t)) (7 * t <=? 10 * c).

(** The agreement for every total from 1 to [n] and every count of
    correct answers up to the total. *)
Definition threshold_table (n : nat) : bool :=
  forallb (fun t =>
             forallb (fun c => threshold_agrees (Z.of_nat c) (Z.of_nat t))
                     (seq 0 (S t)))
          (seq 1 n).

(** Scoring attempts in sequence: each is a session id and an answers
    payload; the store is threaded through. *)
Fixpoint score_all (json_loads : string -> result json)
  (attempts : list (string * string)) (quiz_store : store) : store :=
  match attempts with
  | [] => quiz_store
  | (sid, answers) :: rest =>
      score_all json_loads rest (snd (score_quiz json_loads sid answers quiz_store))
  end.

(** A quiz whose scored flag is set carries a cached result. *)
Definition quiz_consistent (quiz : json) : bool :=
  match quiz with
  | JObj d =>
      match sget "_scored" d with
      | Some flag =>
          if truthy flag then
            match sget "_score_result" d with
            | Some r => truthy r
            | None => false
            end
          else true
      | None => true
      end
  | _ => true
  end.

Definition store_consistent (quiz_store : store) : Prop :=
  Forall (fun entry => quiz_consistent (snd entry) = true) quiz_store.

(** The store holds, for [sid], a quiz with the cached result [r]. *)
Definition has_cached (sid : string) (r : json) (st : store) : Prop :=
  exists quiz, dict_get String.eqb sid st = Some quiz /\
               cached_result quiz = Ret (Some r).

(** A call fails when it raises or returns the error dictionary. *)
Definition is_failure (out : result json) : bool :=
  match out with
  | Raise _ => true
  | Ret r => match field "error" r with Some _ => true | None => false end
  end.

(** Whether question [q] is aggregated under the label [s]. *)
Definition on_topic (s : string) (q : json) : bool := key_eqb (JStr s) (topic_of q).

Definition total_for (k : json) (ts : topics_scores) : Z :=
  match tget k ts with Some t => total t | None => 0 end.

Definition correct_for (k : json) (ts : topics_scores) : Z :=
  match tget k ts with Some t => correct t | None => 0 end.

Definition sum_total (ts : topics_scores) : Z := sumZ (map (fun e => total (snd e)) ts).
Definition sum_correct (ts : topics_scores) : Z := sumZ (map (fun e => correct (snd e)) ts).

Definition indicator (b : bool) : Z := if b then 1 else 0.

(** The first loop on a stored question, without the checks that a
    stored question passes. *)
Definition step (ua : sdict) (ts : topics_scores) (q : json) : topics_scores :=
  let t := topic_of q in
  let ts1 := if tmem t ts then ts else ts ++ [(t, mkTally 0 0)] in
  let ts2 := dict_update key_eqb t bump_total ts1 in
  if answered_correctly ua q then dict_update key_eqb t bump_correct ts2 else ts2.

Definition proficient (item : json * tally) : bool :=
  ge_07 (ratio (correct (snd item)) (total (snd item))).

Definition entry_of (item : json * tally) : topic_assessment :=
  mkTopic (fst item) (ratio (correct (snd item)) (total (snd item)))
    (if proficient item then "proficient"%string else "needs_review"%string)
    (correct (snd item)) (total (snd item)).

Definition title_of (quiz : json) : json :=
  match field "title" quiz with
  | Some t => t
  | None => JStr "Quiz"
  end.

(** The assessment of a stored quiz for decoded answers [ua], in closed
    form. *)
Definition assessment_of (sid : string) (quiz : json) (ua : sdict) : assessment :=
  let ts := fold_left (step ua) (questions_of quiz) [] in
  mkAssessment sid (title_of quiz) (map entry_of ts)
    (ratio (sum_correct ts) (sum_total ts))
    (map fst (filter (fun e => negb (proficient e)) ts))
    (map fst (filter proficient ts)).

(* ================================================================= *)
(** ** Sample data *)

(** JSON texts are written with single quotes and converted. *)
Fixpoint qq (s : string) : string :=
  match s with
  | EmptyString => EmptyString
  | String c s' =>
      String (if Ascii.eqb c "'"%char then ascii_of_nat 34 else c) (qq s')
  end.

Definition options_abcd : json :=
  JObj [("A", JStr "first"); ("B", JStr "second");
        ("C", JStr "third"); ("D", JStr "fourth")]%string.

Definition raw_question (id : string) (t : option string) (c : string) : json :=
  JObj (app [("id", JStr id)]
          (app match t with Some l => [("topic", JStr l)] | None => [] end
               [("question", JStr "Which one?"); ("options", options_abcd);
                ("correct_answer", JStr c)]))%string.

Definition question (id : string) (t : option string) (c : string) : json :=
  JObj (app [("id", JStr id)]
          (app match t with Some l => [("topic", JStr l)] | None => [] end
               [("question", JStr "Which one?"); ("options", options_abcd);
                ("correct", JStr c)]))%string.

Definition quiz_dict (qs : list json) : sdict :=
  [("title", JStr "Sample"); ("topics", JArr [JStr "A"; JStr "B"]);
   ("questions", JArr qs)]%string.

Definition quiz_of (qs : list json) : json := JObj (quiz_dict qs).

(** Three questions, two on topic A and one on topic B. *)
Definition sample_quiz : json :=
  quiz_of [question "q1" (Some "A") "A"; question "q2" (Some "A") "B";
           question "q3" (Some "B") "C"]%string.

Definition sample_reply : json :=
  quiz_of [raw_question "q1" (Some "A") "A"; raw_question "q2" (Some "A") "B";
           raw_question "q3" (Some "B") "C"]%string.

(** Ten questions on one topic, the correct label always A. *)
Definition ten_quiz : json :=
  quiz_of (map (fun id => question id (Some "T") "A")
             ["t0"; "t1"; "t2"; "t3"; "t4"; "t5"; "t6"; "t7"; "t8"; "t9"])%string.

(** Two questions, the second without a topic. *)
Definition untopiced_quiz : json :=
  quiz_of [question "u1" (Some "A") "A"; question "u2" None "B"]%string.

Definition sample_store : store :=
  [("s-1", sample_quiz); ("s-10", ten_quiz); ("s-u", untopiced_quiz)]%string.

(** Both A questions right, the B question wrong. *)
Definition answers_text : string := qq "{'q1': 'A', 'q2': 'B', 'q3': 'D'}".
Definition answers_dict : sdict :=
  [("q1", JStr "A"); ("q2", JStr "B"); ("q3", JStr "D")]%string.
Definition answers_value : json := JObj answers_dict.

(** Other answers for the same quiz: only q3 is answered. *)
Definition other_text : string := qq "{'q3': 'C'}".
Definition other_dict : sdict := [("q3", JStr "C")]%string.
Definition other_value : json := JObj other_dict.

(** Seven of the ten questions right. *)
Definition seven_text : string :=
  qq "{'t0':'A','t1':'A','t2':'A','t3':'A','t4':'A','t5':'A','t6':'A','t7':'B'}".
Definition seven_dict : sdict :=
  [("t0", JStr "A"); ("t1", JStr "A"); ("t2", JStr "A"); ("t3", JStr "A");
   ("t4", JStr "A"); ("t5", JStr "A"); ("t6", JStr "A"); ("t7", JStr "B")]%string.
Definition seven_value : json := JObj seven_dict.

(** The float 2/3, as the scorer computes it. *)
Definition two_thirds : spec_float := S754_finite false 6004799503160661 (-53).

(** The assessment of the sample quiz for [answers_text]. *)
Definition sample_assessment_dict : sdict :=
  [("session_id", JStr "s-1"); ("title", JStr "Sample");
        ("topics_assessed",
         JArr [JObj [("topic", JStr "A"); ("score", JFloat (Z2SF 1));
                     ("status", JStr "proficient");
                     ("questions_correct", JInt 2); ("questions_total", JInt 2)];
               JObj [("topic", JStr "B"); ("score", JFloat (S754_zero false));
                     ("status", JStr "needs_review");
                     ("questions_correct", JInt 0); ("questions_total", JInt 1)]]);
        ("overall_knowledge", JFloat two_thirds);
        ("focus_areas", JArr [JStr "B"]); ("skip_areas", JArr [JStr "A"])]%string.
Definition sample_assessment : json := JObj sample_assessment_dict.

Definition assessment_text : string := "<the sample assessment, serialized>".
Definition quiz_reply_text : string := "<the model's quiz, serialized>".
Definition organizer_reply_text : string :=
  qq "{'content_node': {'title': 'Sample', 'status': 'completed', 'progressPercent': 67}}".
Definition organizer_reply_dict : sdict :=
  [("content_node",
    JObj [("title", JStr "Sample"); ("status", JStr "completed");
          ("progressPercent", JInt 67)])]%string.
Definition organizer_reply : json := JObj organizer_reply_dict.

(** The view of [untopiced_quiz] that the generator returns. *)
Definition viewed_question (id : string) (t : option string) : json :=
  JObj (app [("id", JStr id)]
          (app match t with Some l => [("topic", JStr l)] | None => [] end
               [("question", JStr "Which one?"); ("options", options_abcd)]))%string.

Definition untopiced_questions : list json :=
  [viewed_question "u1" (Some "A"); viewed_question "u2" None]%string.

Definition untopiced_view : json :=
  JObj [("session_id", JStr "s-u"); ("title", JStr "Sample");
        ("topics", JArr [JStr "A"; JStr "B"]);
        ("questions", JArr untopiced_questions)]%string.

(** A decoder defined on the sample texts; it rejects everything else. *)
Definition sample_loads (s : string) : result json :=
  if String.eqb s answers_text then Ret answers_value
  else if String.eqb s other_text then Ret other_value
  else if String.eqb s seven_text then Ret seven_value
  else if String.eqb s assessment_text then Ret sample_assessment
  else if String.eqb s quiz_reply_text then Ret sample_reply
  else if String.eqb s organizer_reply_text then Ret organizer_reply
  else Raise JSONDecodeError.

Definition sample_ask_quiz (content content_type : string) (n : Z) : result string :=
  Ret quiz_reply_text.

Definition sample_ask_organizer (content content_type url subjects : string)
  (section : option assessment_section) : result string :=
  Ret organizer_reply_text.

Definition sample_int_of_str (s : string) : result Z := Raise ValueError.


(* ================================================================= *)
(** ** Further reference functions and sample data *)

(** The counts of the questions that carry the label [k]. *)
Definition tally_of (ua : sdict) (qs : list json) (k : json) : tally :=
  match k with
  | JStr s =>
      mkTally (count_where (fun q => on_topic s q && answered_correctly ua q) qs)
              (count_where (on_topic s) qs)
  | _ => mkTally 0 0
  end.

(** Every question right, for the sample quiz. *)
Definition perfect_text : string := qq "{'q1': 'A', 'q2': 'B', 'q3': 'C'}".
Definition perfect_dict : sdict :=
  [("q1", JStr "A"); ("q2", JStr "B"); ("q3", JStr "C")]%string.

(** The answers of [answers_text] and one for an id the quiz does not
    have. *)
Definition stray_text : string := qq "{'q1': 'A', 'zz': 'A', 'q2': 'B', 'q3': 'D'}".
Definition stray_dict : sdict :=
  [("q1", JStr "A"); ("zz", JStr "A"); ("q2", JStr "B"); ("q3", JStr "D")]%string.

(** Payloads that decode, but not to a dictionary. *)
Definition list_text : string := qq "['A', 'B']".
Definition list_value : json := JArr [JStr "A"; JStr "B"]%string.

(** The empty payload. *)
Definition blank_text : string := "{}".

(** The sample decoder, extended to the further sample texts. *)
Definition more_loads (s : string) : result json :=
  if String.eqb s perfect_text then Ret (JObj perfect_dict)
  else if String.eqb s stray_text then Ret (JObj stray_dict)
  else if String.eqb s list_text then Ret list_value
  else if String.eqb s blank_text then Ret (JObj [])
  else sample_loads s.

(** What lines 27-59 compute for the sample quiz and [answers_text]. *)
Definition sample_scoring : scoring :=
  Eval vm_compute in
    match score_topics sample_loads sample_quiz answers_text with
    | Ret s => s
    | Raise _ => mkScoring [] JNull [] []
    end.

(** A question without a [correct] field, and a quiz made of it. *)
Definition keyless_question_dict : sdict :=
  [("id", JStr "k1"); ("question", JStr "Which one?"); ("options", options_abcd)]%string.

Definition keyless_quiz : json := quiz_of [JObj keyless_question_dict].

(** A store with a quiz without questions and the keyless quiz. *)
Definition edge_store : store :=
  [("s-0", quiz_of []); ("s-k", keyless_quiz)]%string.

(** The sample quiz with its questions in the opposite order. *)
Definition reversed_quiz : json :=
  quiz_of (rev [question "q1" (Some "A") "A"; question "q2" (Some "A") "B";
                question "q3" (Some "B") "C"])%string.

(** The scores an unscored quiz without questions gets. *)
Definition no_scores : scoring := mkScoring [] (JInt 0) [] [].

(** A question of the model's reply as the generation schema types it, as
    far as scoring needs it: string [id] and [correct_answer], and a
    [topic] that is a string when it is there. *)
Definition schema_raw_question (q : json) : bool :=
  match q with
  | JObj d => req_str (sget "id" d) && opt_str (sget "topic" d)
              && req_str (sget "correct_answer" d)
  | _ => false
  end.

(** An element of the questions that the normalization loop lets pass:
    an object, or a string in which ["correct_answer"] does not occur. *)
Definition passes_normalization (q : json) : bool :=
  match q with
  | JObj _ => true
  | JStr s => negb (contains "correct_answer" s)
  | _ => false
  end.

(** A reply whose questions hold a bare string beside a question. *)
Definition loose_questions : list json :=
  [JStr "What is X?"; raw_question "q1" (Some "A") "A"]%string.
Definition loose_reply_dict : sdict := quiz_dict loose_questions.
Definition loose_reply_text : string := "<a quiz with a bare string as a question>".

(** The decoder, extended once more. *)
Definition edge_loads (s : string) : result json :=
  if String.eqb s loose_reply_text then Ret (JObj loose_reply_dict)
  else more_loads s.

Definition loose_ask_quiz (content content_type : string) (n : Z) : result string :=
  Ret loose_reply_text.

(** Lines 64-78 of the organizer on the decoded reply: the content node is
    looked up and its two fields are assigned. *)
Definition override (reply : json) (progress : Z) : result json :=
  nested <- py_in "content_node" reply ;;
  if nested then
    content_node <- py_getitem reply "content_node" ;;
    content_node' <- set_progress content_node progress ;;
    match reply with
    | JObj d => Ret (JObj (sset "content_node" content_node' d))
    | _ => Raise TypeError
    end
  else set_progress reply progress.

(** [int(c / t * 100)], and whether it lies at most one below the exact
    percentage [100 * c / t], is 100 only for [c = t] and 0 only for
    [c = 0]. *)
Definition percent (c t : Z) : result Z :=
  SF_trunc (SFmul prec emax (py_truediv c t) (Z2SF 100)).

Definition percent_ok (c t : Z) : bool :=
  match percent c t with
  | Ret p => (100 * c / t - 1 <=? p) && (p <=? 100 * c / t)
             && Bool.eqb (p =? 100) (c =? t) && Bool.eqb (p =? 0) (c =? 0)
  | Raise _ => false
  end.

Definition percent_table (n : nat) : bool :=
  forallb (fun t =>
             forallb (fun c => percent_ok (Z.of_nat c) (Z.of_nat t)) (seq 0 (S t)))
          (seq 1 n).

Definition is_finite (f : spec_float) : bool :=
  match f with
  | S754_zero _ | S754_finite _ _ _ => true
  | _ => false
  end.

(** An assessment whose [overall_knowledge] is not a number. *)
Definition nan_assessment_dict : sdict :=
  [("overall_knowledge", JFloat S754_nan); ("focus_areas", JArr []);
   ("skip_areas", JArr [])]%string.
Definition nan_assessment_text : string :=
  qq "{'overall_knowledge': NaN, 'focus_areas': [], 'skip_areas': []}".

(** The organization for the sample assessment and the sample reply. *)
Definition sample_organization : json :=
  JObj [("content_node",
         JObj [("title", JStr "Sample"); ("status", JStr "in_progress");
               ("progressPercent", JInt 66)])]%string.

Definition organizer_loads (s : string) : result json :=
  if String.eqb s nan_assessment_text then Ret (JObj nan_assessment_dict)
  else edge_loads s.

(** A question of the model's reply as the generation schema types it, as
    far as the view of [/assess] needs it: string [id] and [question], a
    [topic] that is a string when it is there, and [options] that are a
    dictionary of strings. *)
Definition schema_view_question (q : json) : bool :=
  match q with
  | JObj d => req_str (sget "id" d) && opt_str (sget "topic" d)
              && req_str (sget "question" d) && options_ok (sget "options" d)
  | _ => false
  end.

(** What [/assess] is to show of a question [q] of the reply. *)
Definition shown_as (q : json) (qq : QuizQuestion) : Prop :=
  field "id" q = Some (JStr (qq_id qq)) /\
  field "question" q = Some (JStr (qq_question qq)) /\
  qq_topic qq = reported_topic q.

(** A result of [run_assess] with a question that has no [id]. *)
Definition idless_questions : list json :=
  [viewed_question "u1" (Some "A");
   JObj [("question", JStr "Which one?"); ("options", options_abcd)]]%string.
Definition idless_dict : sdict :=
  [("session_id", JStr "s-x"); ("title", JStr "Sample");
   ("topics", JArr []); ("questions", JArr idless_questions)]%string.
(* ================================================================= *)
(** * Properties *)

Local Open Scope string_scope.

(** ** Dictionaries with string keys *)

Lemma sget_sset_same (k : string) (v : json) (d : sdict) :
  sget k (sset k v d) = Some v.
Proof.
  unfold sget, sset.
  induction d as [|[k' v'] d IH]; simpl.
  - now rewrite String.eqb_refl.
  - destruct (String.eqb k k') eqn:E; simpl; rewrite E; auto.
Qed.

Lemma sget_sset_other (k k' : string) (v : json) (d : sdict) :
  k <> k' -> sget k (sset k' v d) = sget k d.
Proof.
  intros N. unfold sget, sset.
  induction d as [|[k0 v0] d IH]; simpl.
  - apply String.eqb_neq in N. now rewrite N.
  - destruct (String.eqb k' k0) eqn:E; simpl.
    + apply String.eqb_eq in E. subst k0.
      apply String.eqb_neq in N. now rewrite N.
    + now rewrite IH.
Qed.

Lemma sget_sremove_same (k : string) (d : sdict) : sget k (sremove k d) = None.
Proof.
  unfold sget, sremove, dict_remove.
  induction d as [|[k0 v0] d IH]; simpl; auto.
  destruct (String.eqb k k0) eqn:E; simpl; auto.
  now rewrite E.
Qed.

Lemma sget_sremove_other (k k' : string) (d : sdict) :
  k <> k' -> sget k (sremove k' d) = sget k d.
Proof.
  intros N. unfold sget, sremove, dict_remove.
  induction d as [|[k0 v0] d IH]; simpl; auto.
  destruct (String.eqb k' k0) eqn:E; simpl.
  - apply String.eqb_eq in E. subst k0.
    apply String.eqb_neq in N. now rewrite N.
  - now rewrite IH.
Qed.

Lemma store_get_set_same (sid : string) (quiz : json) (st : store) :
  dict_get String.eqb sid (dict_set String.eqb sid quiz st) = Some quiz.
Proof.
  induction st as [|[k v] st IH]; simpl.
  - now rewrite String.eqb_refl.
  - destruct (String.eqb sid k) eqn:E; simpl; rewrite E; auto.
Qed.

Lemma store_get_set_other (sid sid' : string) (quiz : json) (st : store) :
  sid <> sid' ->
  dict_get String.eqb sid (dict_set String.eqb sid' quiz st)
  = dict_get String.eqb sid st.
Proof.
  intros N.
  induction st as [|[k v] st IH]; simpl.
  - apply String.eqb_neq in N. now rewrite N.
  - destruct (String.eqb sid' k) eqn:E; simpl.
    + apply String.eqb_eq in E. subst k.
      apply String.eqb_neq in N. now rewrite N.
    + now rewrite IH.
Qed.

Lemma store_set_twice (sid : string) (q1 q2 : json) (st : store) :
  dict_set String.eqb sid q2 (dict_set String.eqb sid q1 st)
  = dict_set String.eqb sid q2 st.
Proof.
  induction st as [|[k v] st IH]; simpl.
  - now rewrite String.eqb_refl.
  - destruct (String.eqb sid k) eqn:E; simpl; rewrite E; congruence.
Qed.

Lemma store_set_keys (sid : string) (quiz : json) (st : store) :
  dict_mem String.eqb sid st = true ->
  dict_keys (dict_set String.eqb sid quiz st) = dict_keys st.
Proof.
  unfold dict_mem, dict_keys.
  induction st as [|[k v] st IH]; simpl; [discriminate|].
  destruct (String.eqb sid k) eqn:E; simpl; auto.
  intros H. now rewrite IH.
Qed.

Lemma store_set_entries (sid : string) (quiz : json) (st : store) (P : string * json -> Prop) :
  Forall P st -> (forall k, P (k, quiz)) -> Forall P (dict_set String.eqb sid quiz st).
Proof.
  intros HF HP.
  induction HF as [|[k v] st Hx HF IH]; simpl.
  - constructor; auto.
  - destruct (String.eqb sid k); constructor; auto.
Qed.

(** ** The cache of the scorer *)

Lemma cached_result_dict (quiz : json) (o : option json) :
  cached_result quiz = Ret o -> exists d, quiz = JObj d.
Proof.
  destruct quiz; simpl; try discriminate. eauto.
Qed.

Lemma cached_result_some (d : sdict) (r : json) :
  cached_result (JObj d) = Ret (Some r) <->
  exists flag, sget "_scored" d = Some flag /\ truthy flag = true /\
               sget "_score_result" d = Some r /\ truthy r = true.
Proof.
  unfold cached_result, py_get, py_getitem. simpl.
  split.
  - destruct (sget "_scored" d) as [flag|] eqn:Ef; simpl; [|discriminate].
    destruct (truthy flag) eqn:Et; [|discriminate].
    destruct (sget "_score_result" d) as [c|] eqn:Ec; simpl; [|discriminate].
    destruct (truthy c) eqn:Etc; [|discriminate].
    simpl. intros H. injection H as <-. eauto.
  - intros (flag & Ef & Et & Ec & Etc).
    rewrite Ef. simpl. rewrite Et, Ec. simpl. rewrite Etc. reflexivity.
Qed.

Lemma truthy_assessment (a : assessment) : truthy (assessment_to_json a) = true.
Proof. reflexivity. Qed.

Lemma cached_after_mark (d : sdict) (r : json) :
  truthy r = true -> cached_result (mark_scored (JObj d) r) = Ret (Some r).
Proof.
  intros Hr. simpl. apply cached_result_some.
  exists (JBool true). repeat split; auto.
  - rewrite sget_sset_other by discriminate. apply sget_sset_same.
  - apply sget_sset_same.
Qed.

Section ScorerFacts.
Variable json_loads : string -> result json.

Lemma score_quiz_cached (sid answers : string) (r : json) (st : store) :
  has_cached sid r st -> score_quiz json_loads sid answers st = (Ret r, st).
Proof.
  intros (quiz & Hq & Hc). unfold score_quiz, mbind, pure, mret.
  now rewrite Hq, Hc.
Qed.

Lemma score_quiz_unknown (sid answers : string) (st : store) :
  dict_get String.eqb sid st = None ->
  score_quiz json_loads sid answers st = (Ret (not_found sid st), st).
Proof.
  intros H. unfold score_quiz. now rewrite H.
Qed.

(** A first scoring: both item assignments happen, and the title read in
    between and afterwards is the title the quiz had. *)
Lemma score_quiz_first (sid answers : string) (st : store) (d : sdict) (s : scoring) :
  dict_get String.eqb sid st = Some (JObj d) ->
  cached_result (JObj d) = Ret None ->
  score_topics json_loads (JObj d) answers = Ret s ->
  let a := result_of sid (match sget "title" d with Some t => t | None => JStr "Quiz" end) s in
  compute_assessment json_loads sid (JObj d) answers = Ret a /\
  score_quiz json_loads sid answers st
  = (Ret (assessment_to_json a),
     dict_set String.eqb sid (mark_scored (JObj d) (assessment_to_json a)) st).
Proof.
  intros Hq Hc Hs a. split.
  - unfold compute_assessment. rewrite Hs. reflexivity.
  - unfold score_quiz, mbind, pure, mret. rewrite Hq, Hc, Hs.
    unfold set_item at 1. rewrite Hq.
    unfold get_item at 1. rewrite store_get_set_same.
    unfold py_get at 1. rewrite sget_sset_other by discriminate.
    unfold set_item at 1. rewrite store_get_set_same.
    unfold get_item at 1. rewrite store_get_set_same.
    unfold py_get at 1. rewrite !sget_sset_other by discriminate.
    rewrite store_set_twice. reflexivity.
Qed.

(** The four ways a call can end. *)
Lemma score_quiz_cases (sid answers : string) (st : store) :
  (dict_get String.eqb sid st = None /\
   score_quiz json_loads sid answers st = (Ret (not_found sid st), st))
  \/ (exists e, score_quiz json_loads sid answers st = (Raise e, st))
  \/ (exists r, has_cached sid r st /\
                score_quiz json_loads sid answers st = (Ret r, st))
  \/ (exists d a, dict_get String.eqb sid st = Some (JObj d) /\
                  cached_result (JObj d) = Ret None /\
                  compute_assessment json_loads sid (JObj d) answers = Ret a /\
                  score_quiz json_loads sid answers st
                  = (Ret (assessment_to_json a),
                     dict_set String.eqb sid
                       (mark_scored (JObj d) (assessment_to_json a)) st)).
Proof.
  destruct (dict_get String.eqb sid st) as [quiz|] eqn:Hq.
  2:{ left. split; auto. now apply score_quiz_unknown. }
  right.
  destruct (cached_result quiz) as [[r|]|e] eqn:Hc.
  - right; left. exists r. split; [exists quiz; auto|].
    apply score_quiz_cached. exists quiz. auto.
  - destruct (cached_result_dict _ _ Hc) as [d ->].
    destruct (score_topics json_loads (JObj d) answers) as [s|e] eqn:Hs.
    + right; right.
      destruct (score_quiz_first sid answers st d s Hq Hc Hs) as [H1 H2].
      eexists d, _. eauto.
    + left. exists e. unfold score_quiz, mbind, pure, mret. now rewrite Hq, Hc, Hs.
  - left. exists e. unfold score_quiz, mbind, pure, mret. now rewrite Hq, Hc.
Qed.

Lemma score_quiz_keeps_cached (sid : string) (r : json) (st : store)
      (sid' answers : string) :
  has_cached sid r st ->
  has_cached sid r (snd (score_quiz json_loads sid' answers st)).
Proof.
  intros Hc.
  destruct (score_quiz_cases sid' answers st)
    as [[_ E]|[[e E]|[(r' & _ & E)|(d & a & Hq & Hn & _ & E)]]];
    rewrite E; simpl; auto.
  destruct Hc as (quiz & Hq' & Hc).
  destruct (String.eqb sid sid') eqn:Es.
  - apply String.eqb_eq in Es. subst sid'. congruence.
  - apply String.eqb_neq in Es. exists quiz.
    now rewrite store_get_set_other.
Qed.

Lemma score_all_keeps_cached (sid : string) (r : json)
      (attempts : list (string * string)) (st : store) :
  has_cached sid r st -> has_cached sid r (score_all json_loads attempts st).
Proof.
  revert st. induction attempts as [|[sid' answers] rest IH]; intros st H; simpl; auto.
  apply IH. now apply score_quiz_keeps_cached.
Qed.

Lemma first_score_caches (sid answers : string) (r : json) (st st1 : store) :
  dict_mem String.eqb sid st = true ->
  score_quiz json_loads sid answers st = (Ret r, st1) ->
  has_cached sid r st1.
Proof.
  unfold dict_mem. intros Hm Hs.
  destruct (score_quiz_cases sid answers st)
    as [[Hn _]|[[e E]|[(r' & Hc & E)|(d & a & Hq & Hn & _ & E)]]].
  - now rewrite Hn in Hm.
  - congruence.
  - rewrite E in Hs. injection Hs as <- <-. exact Hc.
  - rewrite E in Hs. injection Hs as <- <-.
    exists (mark_scored (JObj d) (assessment_to_json a)). split.
    + apply store_get_set_same.
    + now apply cached_after_mark.
Qed.
End ScorerFacts.

(** C1. Once a session has been scored, every later call of [score_quiz]
    for it, whatever the answers (malformed ones included) and whatever
    scoring attempts came in between, returns the result of the first call
    and leaves the store as it is: nothing is computed again. *)
Theorem score_quiz_returns_cached
  (json_loads : string -> result json)
  (sid first_answers : string) (r : json) (st st1 : store)
  (later : list (string * string)) (answers : string) :
  dict_mem String.eqb sid st = true ->
  score_quiz json_loads sid first_answers st = (Ret r, st1) ->
  let st2 := score_all json_loads later st1 in
  has_cached sid r st2 /\
  score_quiz json_loads sid answers st2 = (Ret r, st2).
Proof.
  intros Hm Hs st2.
  assert (Hc : has_cached sid r st2).
  { apply score_all_keeps_cached. eapply first_score_caches; eauto. }
  split; [exact Hc|]. now apply score_quiz_cached.
Qed.

Lemma score_quiz_returns_cached_witness :
  dict_mem String.eqb "s-1" sample_store = true /\
  score_quiz sample_loads "s-1" answers_text sample_store
  = (Ret sample_assessment,
     snd (score_quiz sample_loads "s-1" answers_text sample_store)) /\
  let st2 := score_all sample_loads [("s-10", seven_text); ("s-1", "garbage")]
               (snd (score_quiz sample_loads "s-1" answers_text sample_store)) in
  has_cached "s-1" sample_assessment st2 /\
  score_quiz sample_loads "s-1" other_text st2 = (Ret sample_assessment, st2).
Proof.
  split; [reflexivity|]. split; [vm_compute; reflexivity|].
  apply (score_quiz_returns_cached sample_loads "s-1" answers_text
           sample_assessment sample_store).
  - reflexivity.
  - vm_compute. reflexivity.
Defined.

(** ** Failed attempts and the consistency of the store *)

Lemma mark_scored_consistent (d : sdict) (r : json) :
  truthy r = true -> quiz_consistent (mark_scored (JObj d) r) = true.
Proof.
  intros Hr. simpl.
  rewrite sget_sset_other by discriminate.
  rewrite !sget_sset_same. simpl. exact Hr.
Qed.

Lemma score_quiz_consistent (json_loads : string -> result json)
      (sid answers : string) (st : store) :
  store_consistent st ->
  store_consistent (snd (score_quiz json_loads sid answers st)).
Proof.
  intros Hst.
  destruct (score_quiz_cases json_loads sid answers st)
    as [[_ E]|[[e E]|[(r' & _ & E)|(d & a & _ & _ & _ & E)]]];
    rewrite E; simpl; auto.
  apply store_set_entries; auto.
  intros k. simpl. now apply mark_scored_consistent.
Qed.

(** C9. A call of [score_quiz] that raises or returns the error
    dictionary leaves the quiz store as it was; and from a store in which
    every scored quiz carries its cached result, every sequence of scoring
    attempts leads to such a store again. *)
Theorem failed_scoring_keeps_store
  (json_loads : string -> result json) (st : store) :
  store_consistent st ->
  (forall sid answers,
      is_failure (fst (score_quiz json_loads sid answers st)) = true ->
      snd (score_quiz json_loads sid answers st) = st) /\
  (forall attempts, store_consistent (score_all json_loads attempts st)).
Proof.
  intros Hst. split.
  - intros sid answers.
    destruct (score_quiz_cases json_loads sid answers st)
      as [[_ E]|[[e E]|[(r' & _ & E)|(d & a & _ & _ & _ & E)]]];
      rewrite E; simpl; auto.
    discriminate.
  - intros attempts. revert st Hst.
    induction attempts as [|[sid answers] rest IH]; intros st Hst; simpl; auto.
    apply IH. now apply score_quiz_consistent.
Qed.

Lemma failed_scoring_keeps_store_witness :
  store_consistent sample_store /\
  (forall sid answers,
      is_failure (fst (score_quiz sample_loads sid answers sample_store)) = true ->
      snd (score_quiz sample_loads sid answers sample_store) = sample_store) /\
  (forall attempts, store_consistent (score_all sample_loads attempts sample_store)).
Proof.
  assert (H : store_consistent sample_store) by (repeat constructor).
  split; [exact H|].
  exact (failed_scoring_keeps_store sample_loads sample_store H).
Defined.

(** ** Unknown sessions at the HTTP boundary *)

(** C5. For a session id that is not in the store, [score_quiz] returns
    the error dictionary and leaves the store unchanged; the endpoint
    raises its 400 for that result inside the [try] block, where
    [except Exception] catches it, and the client receives status 500. *)
Theorem unknown_session_reported_as_500
  {TriageResponse : Type} (build_response : json -> json -> result TriageResponse)
  (json_loads : string -> result json)
  (sid answers : string) (st : store) (org : json) :
  dict_get String.eqb sid st = None ->
  score_quiz json_loads sid answers st = (Ret (not_found sid st), st) /\
  triage_body build_response
    (Ret (JObj [("assessment", not_found sid st); ("organization", org)]))
  = Thrown (HTTPExc 400) /\
  submit_assessment_answers build_response true
    (Ret (JObj [("assessment", not_found sid st); ("organization", org)]))
  = HTTPException 500.
Proof.
  intros H. split; [now apply score_quiz_unknown|]. split; reflexivity.
Qed.

Lemma unknown_session_reported_as_500_witness :
  dict_get String.eqb "nope" sample_store = None /\
  score_quiz sample_loads "nope" answers_text sample_store
  = (Ret (not_found "nope" sample_store), sample_store) /\
  triage_body (fun a o => Ret (a, o))
    (Ret (JObj [("assessment", not_found "nope" sample_store);
                ("organization", JObj [])]))
  = Thrown (HTTPExc 400) /\
  submit_assessment_answers (fun a o => Ret (a, o)) true
    (Ret (JObj [("assessment", not_found "nope" sample_store);
                ("organization", JObj [])]))
  = HTTPException 500.
Proof.
  split; [reflexivity|].
  apply (unknown_session_reported_as_500 (fun a o => Ret (a, o)) sample_loads
           "nope" answers_text sample_store (JObj [])).
  reflexivity.
Defined.

(** ** Sums and counts *)

Lemma fold_add (l : list Z) (a : Z) : fold_left Z.add l a = a + fold_left Z.add l 0.
Proof.
  revert a. induction l as [|x l IH]; intros a; simpl; [lia|].
  rewrite (IH (a + x)), (IH x). lia.
Qed.

Lemma sumZ_cons (x : Z) (l : list Z) : sumZ (x :: l) = x + sumZ l.
Proof. unfold sumZ. simpl. apply fold_add. Qed.

Lemma sumZ_app (l l' : list Z) : sumZ (l ++ l')%list = sumZ l + sumZ l'.
Proof.
  induction l as [|x l IH]; simpl; [reflexivity|].
  rewrite !sumZ_cons, IH. lia.
Qed.

Lemma count_where_cons {A : Type} (p : A -> bool) (x : A) (l : list A) :
  count_where p (x :: l) = indicator (p x) + count_where p l.
Proof.
  unfold count_where, indicator. cbn [filter].
  destruct (p x); cbn [List.length]; lia.
Qed.

Lemma count_where_nonneg {A : Type} (p : A -> bool) (l : list A) :
  0 <= count_where p l.
Proof. unfold count_where. lia. Qed.

Lemma count_where_pos {A : Type} (p : A -> bool) (x : A) (l : list A) :
  In x l -> p x = true -> 1 <= count_where p l.
Proof.
  induction l as [|y l IH]; simpl; [tauto|].
  intros [->|H] Hp; rewrite count_where_cons.
  - rewrite Hp. pose proof (count_where_nonneg p l). unfold indicator. lia.
  - specialize (IH H Hp). unfold indicator. destruct (p y); lia.
Qed.

Lemma count_where_and_le {A : Type} (p r : A -> bool) (l : list A) :
  count_where (fun x => p x && r x) l <= count_where p l.
Proof.
  induction l as [|x l IH]; [unfold count_where; simpl; lia|].
  rewrite !count_where_cons. unfold indicator.
  destruct (p x), (r x); cbn [andb]; lia.
Qed.

Lemma count_where_and_lt {A : Type} (p r : A -> bool) (x : A) (l : list A) :
  In x l -> p x = true -> r x = false ->
  count_where (fun y => p y && r y) l + 1 <= count_where p l.
Proof.
  induction l as [|y l IH]; cbn [In]; [tauto|].
  intros [->|Hin] Hp Hr; rewrite !count_where_cons.
  - rewrite Hp, Hr. cbn [andb indicator].
    pose proof (count_where_and_le p r l). lia.
  - specialize (IH Hin Hp Hr). unfold indicator.
    destruct (p y), (r y); cbn [andb]; lia.
Qed.

(** ** The threshold on small topics *)

Lemma threshold_table_200 : threshold_table 200 = true.
Proof. vm_compute. reflexivity. Qed.

(** Up to 200 questions on a topic, the float score is at least the
    float 0.7 exactly when the fraction is at least 7/10. *)
Lemma threshold_small (c t : Z) :
  0 <= c <= t -> 0 < t <= 200 ->
  ge_07 (ratio c t) = (7 * t <=? 10 * c)%Z.
Proof.
  intros Hc Ht.
  pose proof threshold_table_200 as T. unfold threshold_table in T.
  rewrite forallb_forall in T.
  specialize (T (Z.to_nat t)).
  rewrite forallb_forall in T.
  assert (A : threshold_agrees (Z.of_nat (Z.to_nat c)) (Z.of_nat (Z.to_nat t)) = true).
  { apply T; apply in_seq; lia. }
  rewrite !Z2Nat.id in A by lia.
  unfold threshold_agrees in A. now apply Bool.eqb_prop in A.
Qed.

(** ** Equality of labels *)

Lemma py_eqb_str_r (x : json) (c : string) :
  py_eqb x (JStr c) = match x with JStr a => String.eqb a c | _ => false end.
Proof. destruct x; reflexivity. Qed.

Lemma key_eqb_str_inv (s : string) (k : json) :
  key_eqb (JStr s) k = true -> k = JStr s.
Proof.
  destruct k; try discriminate.
  unfold key_eqb. simpl. intros H. apply String.eqb_eq in H. now subst.
Qed.

Lemma key_eqb_str_refl (s : string) : key_eqb (JStr s) (JStr s) = true.
Proof. unfold key_eqb. simpl. apply String.eqb_refl. Qed.

Lemma key_eqb_str_neq (s t : string) : s <> t -> key_eqb (JStr s) (JStr t) = false.
Proof. intros N. unfold key_eqb. simpl. now apply String.eqb_neq. Qed.

(** ** The dictionary [topics_scores] *)

Lemma tmem_keys (k : json) (ts : topics_scores) :
  tmem k ts = existsb (key_eqb k) (map fst ts).
Proof.
  unfold tmem, dict_mem.
  induction ts as [|[k0 v0] ts IH]; simpl; auto.
  destruct (key_eqb k k0); auto.
Qed.

Lemma update_keys (k : json) (f : tally -> tally) (ts : topics_scores) :
  map fst (dict_update key_eqb k f ts) = map fst ts.
Proof.
  induction ts as [|[k0 v0] ts IH]; simpl; auto.
  destruct (key_eqb k k0); simpl; congruence.
Qed.

Lemma tget_update_same (k : json) (f : tally -> tally) (ts : topics_scores) :
  tget k (dict_update key_eqb k f ts) = option_map f (tget k ts).
Proof.
  unfold tget.
  induction ts as [|[k0 v0] ts IH]; simpl; auto.
  destruct (key_eqb k k0) eqn:E; simpl; rewrite E; auto.
Qed.

Lemma tget_update_other (s s' : string) (f : tally -> tally) (ts : topics_scores) :
  s <> s' ->
  tget (JStr s) (dict_update key_eqb (JStr s') f ts) = tget (JStr s) ts.
Proof.
  intros N. unfold tget.
  induction ts as [|[k0 v0] ts IH]; simpl; auto.
  destruct (key_eqb (JStr s') k0) eqn:E; simpl.
  - apply key_eqb_str_inv in E. subst k0.
    now rewrite key_eqb_str_neq.
  - now rewrite IH.
Qed.

Lemma tget_app (k k' : json) (v : tally) (ts : topics_scores) :
  tget k (ts ++ [(k', v)])%list
  = match tget k ts with
    | Some x => Some x
    | None => if key_eqb k k' then Some v else None
    end.
Proof.
  unfold tget.
  induction ts as [|[k0 v0] ts IH]; simpl; auto.
  destruct (key_eqb k k0); auto.
Qed.

Lemma tget_in (s : string) (v : tally) (ts : topics_scores) :
  NoDup (map fst ts) -> In (JStr s, v) ts -> tget (JStr s) ts = Some v.
Proof.
  unfold tget.
  induction ts as [|[k0 v0] ts IH]; simpl; [tauto|].
  intros Hnd [E|Hin]; inversion Hnd as [|? ? Hni Hnd']; subst.
  - injection E as -> ->. now rewrite key_eqb_str_refl.
  - destruct (key_eqb (JStr s) k0) eqn:E.
    + apply key_eqb_str_inv in E. subst k0.
      exfalso. apply Hni. change (JStr s) with (fst (JStr s, v)).
      now apply in_map.
    + auto.
Qed.

Lemma sum_total_update_total (k : json) (ts : topics_scores) :
  tmem k ts = true ->
  sum_total (dict_update key_eqb k bump_total ts) = sum_total ts + 1.
Proof.
  unfold tmem, dict_mem, sum_total.
  induction ts as [|[k0 v0] ts IH]; simpl; [discriminate|].
  destruct (key_eqb k k0); simpl; intros H; rewrite !sumZ_cons; simpl.
  - lia.
  - rewrite IH by exact H. lia.
Qed.

Lemma sum_correct_update_correct (k : json) (ts : topics_scores) :
  tmem k ts = true ->
  sum_correct (dict_update key_eqb k bump_correct ts) = sum_correct ts + 1.
Proof.
  unfold tmem, dict_mem, sum_correct.
  induction ts as [|[k0 v0] ts IH]; simpl; [discriminate|].
  destruct (key_eqb k k0); simpl; intros H; rewrite !sumZ_cons; simpl.
  - lia.
  - rewrite IH by exact H. lia.
Qed.

Lemma sum_total_update_correct (k : json) (ts : topics_scores) :
  sum_total (dict_update key_eqb k bump_correct ts) = sum_total ts.
Proof.
  unfold sum_total.
  induction ts as [|[k0 v0] ts IH]; simpl; auto.
  destruct (key_eqb k k0); simpl; rewrite !sumZ_cons; simpl; auto.
  now rewrite IH.
Qed.

Lemma sum_correct_update_total (k : json) (ts : topics_scores) :
  sum_correct (dict_update key_eqb k bump_total ts) = sum_correct ts.
Proof.
  unfold sum_correct.
  induction ts as [|[k0 v0] ts IH]; simpl; auto.
  destruct (key_eqb k k0); simpl; rewrite !sumZ_cons; simpl; auto.
  now rewrite IH.
Qed.

(** ** The first loop on stored questions *)

Lemma stored_question_fields (q : json) :
  stored_question q = true ->
  exists d id c,
    q = JObj d /\ sget "id" d = Some (JStr id) /\ sget "correct" d = Some (JStr c) /\
    (sget "topic" d = None \/ exists t, sget "topic" d = Some (JStr t)).
Proof.
  destruct q as [| | | | | |d]; simpl; try discriminate.
  destruct (sget "id" d) as [[| | | |id| |]|] eqn:Hid; simpl; try discriminate.
  destruct (sget "topic" d) as [[| | | |t| |]|] eqn:Ht; simpl; try discriminate;
    destruct (sget "correct" d) as [[| | | |c| |]|] eqn:Hc; simpl; try discriminate;
    intros _; exists d, id, c; (split; [|split; [|split]]); auto.
  right. now exists t.
Qed.

Lemma stored_question_topic (q : json) :
  stored_question q = true -> exists t, topic_of q = JStr t.
Proof.
  intros H. destruct (stored_question_fields q H) as (d & id & c & -> & _ & _ & [Ht|[t Ht]]);
    unfold topic_of, field; rewrite Ht; eauto.
Qed.

Lemma tally_question_stored (ua : sdict) (ts : topics_scores) (q : json) :
  stored_question q = true ->
  tally_question (JObj ua) ts q = Ret (step ua ts q).
Proof.
  intros H.
  destruct (stored_question_fields q H) as (d & id & c & -> & Hid & Hc & Ht).
  assert (Htopic : exists t, topic_of (JObj d) = JStr t /\
                             py_get (JObj d) "topic" (JStr "General") = Ret (JStr t)).
  { unfold topic_of, field, py_get.
    destruct Ht as [Ht|[t Ht]]; rewrite Ht; eauto. }
  destruct Htopic as (t & Htof & Hget).
  unfold tally_question, step. rewrite Hget, Htof. simpl.
  rewrite Hid. simpl. rewrite Hc. simpl.
  rewrite py_eqb_str_r.
  unfold answered_correctly, field. rewrite Hid, Hc.
  destruct (sget id ua) as [[| | | |a| |]|]; try reflexivity.
  now destruct (String.eqb a c).
Qed.

Lemma foldM_stored (ua : sdict) (qs : list json) (ts : topics_scores) :
  forallb stored_question qs = true ->
  foldM (tally_question (JObj ua)) ts qs = Ret (fold_left (step ua) qs ts).
Proof.
  revert ts. induction qs as [|q qs IH]; intros ts H; simpl in *; auto.
  apply andb_prop in H as [Hq Hqs].
  rewrite tally_question_stored by exact Hq. simpl. now apply IH.
Qed.

Lemma step_keys (ua : sdict) (ts : topics_scores) (q : json) :
  map fst (step ua ts q)
  = if existsb (key_eqb (topic_of q)) (map fst ts) then map fst ts
    else (map fst ts ++ [topic_of q])%list.
Proof.
  unfold step. rewrite tmem_keys.
  destruct (answered_correctly ua q); rewrite ?update_keys;
    destruct (existsb (key_eqb (topic_of q)) (map fst ts));
    rewrite ?map_app; reflexivity.
Qed.

Lemma fold_step_keys (ua : sdict) (qs : list json) (ts : topics_scores) :
  map fst (fold_left (step ua) qs ts)
  = (map fst ts ++ first_seen (map fst ts) (map topic_of qs))%list.
Proof.
  revert ts. induction qs as [|q qs IH]; intros ts; simpl.
  - now rewrite app_nil_r.
  - rewrite IH, step_keys.
    destruct (existsb (key_eqb (topic_of q)) (map fst ts)); auto.
    now rewrite <- app_assoc.
Qed.

(** What one question does to the entry of a label [s]. *)
Lemma tget_step (ua : sdict) (ts : topics_scores) (q : json) (s t : string) :
  topic_of q = JStr t ->
  tget (JStr s) (step ua ts q)
  = if String.eqb s t then
      let old := match tget (JStr t) ts with Some x => x | None => mkTally 0 0 end in
      Some (mkTally (correct old + indicator (answered_correctly ua q)) (total old + 1))
    else tget (JStr s) ts.
Proof.
  intros Ht. unfold step. rewrite Ht.
  set (ts1 := if tmem (JStr t) ts then ts else (ts ++ [(JStr t, mkTally 0 0)])%list).
  set (old := match tget (JStr t) ts with Some x => x | None => mkTally 0 0 end).
  assert (A : tget (JStr t) ts1 = Some old).
  { unfold ts1, old, tmem, dict_mem. fold (tget (JStr t) ts).
    destruct (tget (JStr t) ts) as [x|] eqn:E; auto.
    rewrite tget_app, E. now rewrite key_eqb_str_refl. }
  assert (B : s <> t -> tget (JStr s) ts1 = tget (JStr s) ts).
  { intros N. unfold ts1. destruct (tmem (JStr t) ts); auto.
    rewrite tget_app. destruct (tget (JStr s) ts); auto.
    now rewrite key_eqb_str_neq. }
  destruct (String.eqb s t) eqn:E.
  - apply String.eqb_eq in E. subst s. cbv zeta.
    destruct (answered_correctly ua q); rewrite ?tget_update_same, A; simpl;
      unfold bump_correct, bump_total; simpl; f_equal; f_equal; lia.
  - apply String.eqb_neq in E.
    destruct (answered_correctly ua q); rewrite ?tget_update_other by exact E; auto.
Qed.

(** What the body of the first loop does to the tally of the topic of a
    stored question. *)
Lemma tally_question_counts (ua : sdict) (ts : topics_scores) (q : json) (s : string) :
  stored_question q = true -> topic_of q = JStr s ->
  exists ts',
    tally_question (JObj ua) ts q = Ret ts' /\
    total_for (JStr s) ts' = total_for (JStr s) ts + 1 /\
    correct_for (JStr s) ts'
    = correct_for (JStr s) ts + indicator (answered_correctly ua q).
Proof.
  intros Hq Ht. exists (step ua ts q). split; [now apply tally_question_stored|].
  unfold total_for, correct_for.
  rewrite (tget_step ua ts q s s Ht), String.eqb_refl. cbv zeta.
  destruct (tget (JStr s) ts); cbn [total correct]; split; lia.
Qed.

Lemma answered_correctly_miss (ua : sdict) (q : json) (id c : string) :
  field "id" q = Some (JStr id) -> field "correct" q = Some (JStr c) ->
  (sget id ua = None -> answered_correctly ua q = false) /\
  (forall given, sget id ua = Some given -> given <> JStr c ->
                 answered_correctly ua q = false).
Proof.
  intros Hid Hc. unfold answered_correctly. rewrite Hid, Hc. split.
  - intros ->. reflexivity.
  - intros given -> N. destruct given; auto.
    destruct (String.eqb s c) eqn:E; auto.
    apply String.eqb_eq in E. subst. congruence.
Qed.

Lemma fold_step_total (ua : sdict) (qs : list json) (ts : topics_scores) (s : string) :
  forallb stored_question qs = true ->
  total_for (JStr s) (fold_left (step ua) qs ts)
  = total_for (JStr s) ts + count_where (fun q => key_eqb (JStr s) (topic_of q)) qs.
Proof.
  revert ts. induction qs as [|q qs IH]; intros ts H; simpl in *.
  - unfold count_where. simpl. lia.
  - apply andb_prop in H as [Hq Hqs].
    rewrite IH by exact Hqs. rewrite count_where_cons.
    destruct (stored_question_topic q Hq) as [t Ht].
    unfold total_for at 1. rewrite (tget_step ua ts q s t Ht), Ht.
    change (key_eqb (JStr s) (JStr t)) with (String.eqb s t).
    destruct (String.eqb s t) eqn:E; unfold indicator.
    + apply String.eqb_eq in E. subst s. unfold total_for. cbv zeta.
      destruct (tget (JStr t) ts); cbn [total correct]; lia.
    + fold (total_for (JStr s) ts). lia.
Qed.

Lemma fold_step_correct (ua : sdict) (qs : list json) (ts : topics_scores) (s : string) :
  forallb stored_question qs = true ->
  correct_for (JStr s) (fold_left (step ua) qs ts)
  = correct_for (JStr s) ts
    + count_where (fun q => key_eqb (JStr s) (topic_of q) && answered_correctly ua q) qs.
Proof.
  revert ts. induction qs as [|q qs IH]; intros ts H; simpl in *.
  - unfold count_where. simpl. lia.
  - apply andb_prop in H as [Hq Hqs].
    rewrite IH by exact Hqs. rewrite count_where_cons.
    destruct (stored_question_topic q Hq) as [t Ht].
    unfold correct_for at 1. rewrite (tget_step ua ts q s t Ht), Ht.
    change (key_eqb (JStr s) (JStr t)) with (String.eqb s t).
    destruct (String.eqb s t) eqn:E; unfold indicator.
    + apply String.eqb_eq in E. subst s. unfold correct_for. cbv zeta.
      rewrite andb_true_l.
      destruct (tget (JStr t) ts); destruct (answered_correctly ua q);
        cbn [total correct]; lia.
    + fold (correct_for (JStr s) ts). rewrite andb_false_l. lia.
Qed.

Lemma step_sums (ua : sdict) (ts : topics_scores) (q : json) :
  (exists t, topic_of q = JStr t) ->
  sum_total (step ua ts q) = sum_total ts + 1 /\
  sum_correct (step ua ts q) = sum_correct ts + indicator (answered_correctly ua q).
Proof.
  intros [t Ht]. unfold step. rewrite Ht.
  set (ts1 := if tmem (JStr t) ts then ts else (ts ++ [(JStr t, mkTally 0 0)])%list).
  assert (M : tmem (JStr t) ts1 = true).
  { unfold ts1. destruct (tmem (JStr t) ts) eqn:E; auto.
    unfold tmem, dict_mem. fold (tget (JStr t) (ts ++ [(JStr t, mkTally 0 0)])%list).
    rewrite tget_app. destruct (tget (JStr t) ts); auto.
    now rewrite key_eqb_str_refl. }
  assert (S1 : sum_total ts1 = sum_total ts /\ sum_correct ts1 = sum_correct ts).
  { unfold ts1. destruct (tmem (JStr t) ts); auto.
    unfold sum_total, sum_correct. rewrite !map_app, !sumZ_app. simpl.
    unfold sumZ. simpl. lia. }
  destruct S1 as [S1 S2].
  assert (M2 : tmem (JStr t) (dict_update key_eqb (JStr t) bump_total ts1) = true).
  { rewrite tmem_keys, update_keys, <- tmem_keys. exact M. }
  destruct (answered_correctly ua q); unfold indicator.
  - rewrite sum_total_update_correct, sum_total_update_total by exact M.
    rewrite sum_correct_update_correct by exact M2.
    rewrite sum_correct_update_total. lia.
  - rewrite sum_total_update_total by exact M.
    rewrite sum_correct_update_total. lia.
Qed.

Lemma fold_step_sums (ua : sdict) (qs : list json) (ts : topics_scores) :
  forallb stored_question qs = true ->
  sum_total (fold_left (step ua) qs ts) = sum_total ts + Z.of_nat (List.length qs) /\
  sum_correct (fold_left (step ua) qs ts)
  = sum_correct ts + count_where (answered_correctly ua) qs.
Proof.
  revert ts. induction qs as [|q qs IH]; intros ts H; simpl fold_left.
  - unfold count_where. simpl. lia.
  - simpl in H. apply andb_prop in H as [Hq Hqs].
    destruct (IH (step ua ts q) Hqs) as [I1 I2].
    destruct (step_sums ua ts q (stored_question_topic q Hq)) as [S1 S2].
    rewrite I1, I2, S1, S2, count_where_cons.
    cbn [List.length]. lia.
Qed.

Lemma NoDup_snoc {A : Type} (l : list A) (x : A) :
  NoDup l -> ~ In x l -> NoDup (l ++ [x])%list.
Proof.
  induction 1 as [|y l Hy Hnd IH]; simpl; intros Hx.
  - constructor; [tauto|constructor].
  - constructor.
    + rewrite in_app_iff. simpl. intros [H|[H|[]]]; [tauto|].
      apply Hx. now left.
    + apply IH. tauto.
Qed.

Lemma existsb_key_str (t : string) (keys : list json) :
  existsb (key_eqb (JStr t)) keys = true <-> In (JStr t) keys.
Proof.
  rewrite existsb_exists. split.
  - intros (k & Hin & Hk). apply key_eqb_str_inv in Hk. now subst.
  - intros H. exists (JStr t). split; auto. apply key_eqb_str_refl.
Qed.

Lemma step_keys_str (ua : sdict) (ts : topics_scores) (q : json) (t : string) :
  topic_of q = JStr t ->
  NoDup (map fst ts) ->
  NoDup (map fst (step ua ts q)) /\
  (forall k, In k (map fst (step ua ts q)) <-> In k (map fst ts) \/ k = JStr t).
Proof.
  intros Ht Hnd. rewrite step_keys, Ht.
  destruct (existsb (key_eqb (JStr t)) (map fst ts)) eqn:E.
  - apply existsb_key_str in E. split; auto.
    intros k. split; [tauto|]. intros [H| ->]; auto.
  - assert (N : ~ In (JStr t) (map fst ts)).
    { intros H. apply existsb_key_str in H. congruence. }
    split; [now apply NoDup_snoc|].
    intros k. rewrite in_app_iff. simpl. split.
    + intros [H|[H|[]]]; auto.
    + intros [H| ->]; auto.
Qed.

Lemma fold_step_keys_str (ua : sdict) (qs : list json) (ts : topics_scores) :
  forallb stored_question qs = true ->
  NoDup (map fst ts) ->
  NoDup (map fst (fold_left (step ua) qs ts)) /\
  (forall k, In k (map fst (fold_left (step ua) qs ts))
             <-> In k (map fst ts) \/ In k (map topic_of qs)).
Proof.
  revert ts. induction qs as [|q qs IH]; intros ts H Hnd; simpl in *.
  - split; auto. intros k. tauto.
  - apply andb_prop in H as [Hq Hqs].
    destruct (stored_question_topic q Hq) as [t Ht].
    destruct (step_keys_str ua ts q t Ht Hnd) as [Hnd' Hin'].
    destruct (IH (step ua ts q) Hqs Hnd') as [Hnd'' Hin''].
    split; auto.
    intros k. rewrite Hin'', Hin', Ht.
    split; intros H; intuition auto.
Qed.

(** ** The second loop *)

Lemma assess_topic_eq (item : json * tally)
      (assessed : list topic_assessment) (focus skip : list json) :
  assess_topic (assessed, focus, skip) item
  = ((assessed ++ [entry_of item])%list,
     (if proficient item then focus else focus ++ [fst item])%list,
     (if proficient item then skip ++ [fst item] else skip)%list).
Proof.
  destruct item as [k v]. unfold assess_topic, entry_of, proficient.
  cbn [fst snd]. now destruct (ge_07 (ratio (correct v) (total v))).
Qed.

Lemma fold_assess (ts : topics_scores)
      (assessed : list topic_assessment) (focus skip : list json) :
  fold_left assess_topic ts (assessed, focus, skip)
  = ((assessed ++ map entry_of ts)%list,
     (focus ++ map fst (filter (fun e => negb (proficient e)) ts))%list,
     (skip ++ map fst (filter proficient ts))%list).
Proof.
  revert assessed focus skip.
  induction ts as [|item ts IH]; intros assessed focus skip.
  - simpl. now rewrite !app_nil_r.
  - cbn [fold_left map filter]. rewrite assess_topic_eq, IH.
    destruct (proficient item); cbn [negb map]; rewrite <- !app_assoc; reflexivity.
Qed.

Lemma entries_correct (ts : topics_scores) :
  map questions_correct (map entry_of ts) = map (fun e => correct (snd e)) ts.
Proof. rewrite map_map. reflexivity. Qed.

Lemma entries_total (ts : topics_scores) :
  map questions_total (map entry_of ts) = map (fun e => total (snd e)) ts.
Proof. rewrite map_map. reflexivity. Qed.

Lemma entries_topic (ts : topics_scores) :
  map topic (map entry_of ts) = map fst ts.
Proof. rewrite map_map. reflexivity. Qed.

(** ** Scoring a stored quiz that has not been scored yet *)

Lemma stored_quiz_questions (quiz : json) :
  stored_quiz quiz = true ->
  exists d, quiz = JObj d /\ sget "questions" d = Some (JArr (questions_of quiz)) /\
            forallb stored_question (questions_of quiz) = true.
Proof.
  destruct quiz as [| | | | | |d]; simpl; try discriminate.
  unfold questions_of, field.
  destruct (sget "questions" d) as [[| | | | |qs|]|] eqn:E; try discriminate.
  intros H. exists d. auto.
Qed.

Lemma compute_assessment_stored (json_loads : string -> result json)
      (sid answers : string) (quiz : json) (ua : sdict) :
  stored_quiz quiz = true ->
  json_loads answers = Ret (JObj ua) ->
  compute_assessment json_loads sid quiz answers = Ret (assessment_of sid quiz ua).
Proof.
  intros Hq Hl.
  destruct (stored_quiz_questions quiz Hq) as (d & -> & Hqs & Hall).
  unfold compute_assessment, score_topics. rewrite Hl. simpl. rewrite Hqs. simpl.
  rewrite foldM_stored by exact Hall. simpl.
  rewrite fold_assess. simpl.
  rewrite entries_correct, entries_total.
  unfold assessment_of, title_of, field, sum_correct, sum_total.
  destruct (sget "title" d); reflexivity.
Qed.

Lemma score_quiz_fresh (json_loads : string -> result json)
      (sid answers : string) (st : store) (quiz : json) (ua : sdict) :
  dict_get String.eqb sid st = Some quiz ->
  stored_quiz quiz = true ->
  cached_result quiz = Ret None ->
  json_loads answers = Ret (JObj ua) ->
  score_quiz json_loads sid answers st
  = (Ret (assessment_to_json (assessment_of sid quiz ua)),
     dict_set String.eqb sid
       (mark_scored quiz (assessment_to_json (assessment_of sid quiz ua))) st).
Proof.
  intros Hg Hq Hc Hl.
  pose proof (compute_assessment_stored json_loads sid answers quiz ua Hq Hl) as Ha.
  destruct (score_quiz_cases json_loads sid answers st)
    as [[Hn _]|[[e E]|[(r & (quiz' & Hq' & Hc') & _)|(d & a & Hq' & _ & Ha' & E)]]].
  - congruence.
  - exfalso.
    destruct (cached_result_dict _ _ Hc) as [d ->].
    unfold compute_assessment in Ha.
    destruct (score_topics json_loads (JObj d) answers) as [s|e'] eqn:Hs;
      [|discriminate].
    destruct (score_quiz_first json_loads sid answers st d s Hg Hc Hs) as [_ H2].
    congruence.
  - congruence.
  - assert (quiz = JObj d) by congruence. subst quiz.
    rewrite Ha in Ha'. injection Ha' as <-. exact E.
Qed.

Lemma in_unique_key {A B : Type} (l : list (A * B)) (x y : A * B) :
  NoDup (map fst l) -> In x l -> In y l -> fst x = fst y -> x = y.
Proof.
  induction l as [|z l IH]; simpl; [tauto|].
  intros Hnd Hx Hy E. inversion Hnd as [|? ? Hni Hnd']; subst.
  destruct Hx as [->|Hx], Hy as [->|Hy]; auto.
  - exfalso. apply Hni. rewrite E. now apply in_map.
  - exfalso. apply Hni. rewrite <- E. now apply in_map.
Qed.

Section FreshScoring.
Variable json_loads : string -> result json.
Variables (sid answers : string) (st : store) (quiz : json) (ua : sdict).

Hypothesis Hstored : dict_get String.eqb sid st = Some quiz.
Hypothesis Hquiz : stored_quiz quiz = true.
Hypothesis Hfresh : cached_result quiz = Ret None.
Hypothesis Hanswers : json_loads answers = Ret (JObj ua).

Let qs := questions_of quiz.
Let ts := fold_left (step ua) qs [].

Lemma fresh_result :
  fst (score_quiz json_loads sid answers st)
  = Ret (assessment_to_json (assessment_of sid quiz ua)).
Proof.
  now rewrite (score_quiz_fresh json_loads sid answers st quiz ua).
Qed.

Lemma fresh_questions : forallb stored_question qs = true.
Proof.
  destruct (stored_quiz_questions quiz Hquiz) as (d & _ & _ & H). exact H.
Qed.

Lemma fresh_keys :
  NoDup (map fst ts) /\ (forall k, In k (map fst ts) <-> In k (map topic_of qs)).
Proof.
  destruct (fold_step_keys_str ua qs [] fresh_questions (NoDup_nil _)) as [H1 H2].
  split; [exact H1|]. intros k. unfold ts. rewrite (H2 k). simpl. tauto.
Qed.

Lemma fresh_key_str (k : json) :
  In k (map fst ts) -> exists s, k = JStr s.
Proof.
  intros H. apply fresh_keys in H. apply in_map_iff in H as (q & <- & Hq).
  apply stored_question_topic.
  pose proof fresh_questions as F. rewrite forallb_forall in F. now apply F.
Qed.

Lemma fresh_entry (e : topic_assessment) :
  In e (topics_assessed (assessment_of sid quiz ua)) ->
  exists s v, In (JStr s, v) ts /\ e = entry_of (JStr s, v) /\
              total v = count_where (on_topic s) qs /\
              correct v = count_where (fun q => on_topic s q && answered_correctly ua q) qs.
Proof.
  simpl. fold qs. fold ts. intros H.
  apply in_map_iff in H as ([k v] & <- & Hin).
  destruct (fresh_key_str k) as [s ->].
  { change k with (fst (k, v)). now apply in_map. }
  exists s, v. split; [exact Hin|]. split; [reflexivity|].
  pose proof (tget_in s v ts (proj1 fresh_keys) Hin) as G.
  pose proof (fold_step_total ua qs [] s fresh_questions) as T.
  pose proof (fold_step_correct ua qs [] s fresh_questions) as C.
  fold ts in T, C. unfold total_for in T. unfold correct_for in C.
  rewrite G in T, C. simpl in T, C. unfold on_topic. split; assumption.
Qed.

Lemma fresh_entry_bounds (e : topic_assessment) :
  In e (topics_assessed (assessment_of sid quiz ua)) ->
  0 <= questions_correct e <= questions_total e /\ 1 <= questions_total e.
Proof.
  intros He. destruct (fresh_entry e He) as (s & v & Hin & -> & T & C).
  simpl. rewrite T, C. split; [split|].
  - apply count_where_nonneg.
  - apply count_where_and_le.
  - assert (K : In (JStr s) (map topic_of qs)).
    { apply fresh_keys. change (JStr s) with (fst (JStr s, v)). now apply in_map. }
    apply in_map_iff in K as (q & Hq & Hqin).
    apply (count_where_pos _ q); auto.
    unfold on_topic. rewrite Hq. apply key_eqb_str_refl.
Qed.

(** C4. The totals of the entries add up to the number of questions;
    the entries carry the distinct topics of the questions, each once, in
    the order in which the questions first mention them. *)
Theorem topics_cover_questions :
  exists a,
    fst (score_quiz json_loads sid answers st) = Ret (assessment_to_json a) /\
    sumZ (map questions_total (topics_assessed a))
    = Z.of_nat (List.length (questions_of quiz)) /\
    map topic (topics_assessed a) = first_seen [] (map topic_of (questions_of quiz)) /\
    NoDup (map topic (topics_assessed a)) /\
    (forall t, In t (map topic (topics_assessed a))
               <-> In t (map topic_of (questions_of quiz))).
Proof.
  exists (assessment_of sid quiz ua). split; [exact fresh_result|].
  simpl. fold qs. fold ts. rewrite entries_total, entries_topic.
  split; [|split; [|exact fresh_keys]].
  - destruct (fold_step_sums ua qs [] fresh_questions) as [H _].
    fold ts in H. unfold sum_total in H. rewrite H. reflexivity.
  - unfold ts. now rewrite fold_step_keys.
Qed.

(** C3. An entry whose score is at least 0.7 has status proficient and
    its topic is in [skip_areas] and not in [focus_areas]; any other entry
    has status needs_review and its topic is in [focus_areas] and not in
    [skip_areas].  The score is the ratio of the entry's own counts; up
    to 200 questions on the topic it is at least the float 0.7 exactly
    when correct / total is at least 7/10; and seven right out of ten,
    which is the float 0.7, is at least 0.7. *)
Theorem threshold_is_inclusive :
  exists a,
    fst (score_quiz json_loads sid answers st) = Ret (assessment_to_json a) /\
    (forall e, In e (topics_assessed a) ->
       score e = ratio (questions_correct e) (questions_total e) /\
       if ge_07 (score e)
       then status e = "proficient" /\
            In (topic e) (skip_areas a) /\ ~ In (topic e) (focus_areas a)
       else status e = "needs_review" /\
            In (topic e) (focus_areas a) /\ ~ In (topic e) (skip_areas a)) /\
    (forall e, In e (topics_assessed a) -> questions_total e <= 200 ->
       (ge_07 (score e) = true
        <-> 7 * questions_total e <= 10 * questions_correct e)) /\
    ratio 7 10 = JFloat c07 /\ ge_07 (ratio 7 10) = true.
Proof.
  exists (assessment_of sid quiz ua). split; [exact fresh_result|].
  split; [|split; [|split; vm_compute; reflexivity]].
  2:{ intros e He Hsmall.
      destruct (fresh_entry_bounds e He) as [B1 B2].
      assert (S : score e = ratio (questions_correct e) (questions_total e)).
      { simpl in He. apply in_map_iff in He as (item & <- & _). reflexivity. }
      rewrite S, threshold_small by lia. apply Z.leb_le. }
  intros e He. simpl in He. fold qs in He. fold ts in He.
  apply in_map_iff in He as (item & <- & Hin).
  split; [reflexivity|].
  simpl. fold qs. fold ts.
  change (ge_07 (ratio (correct (snd item)) (total (snd item))))
    with (proficient item).
  destruct (proficient item) eqn:P.
  - split; [reflexivity|]. split.
    + apply in_map. apply filter_In. auto.
    + intros H. apply in_map_iff in H as (item' & E & H').
      apply filter_In in H' as [Hin' P'].
      assert (item' = item)
        by (eapply in_unique_key; eauto; apply fresh_keys).
      subst item'. rewrite P in P'. discriminate.
  - split; [reflexivity|]. split.
    + apply in_map. apply filter_In. rewrite P. auto.
    + intros H. apply in_map_iff in H as (item' & E & H').
      apply filter_In in H' as [Hin' P'].
      assert (item' = item)
        by (eapply in_unique_key; eauto; apply fresh_keys).
      subst item'. rewrite P in P'. discriminate.
Qed.

Lemma question_entry (q : json) :
  In q (questions_of quiz) ->
  exists s e,
    topic_of q = JStr s /\
    In e (topics_assessed (assessment_of sid quiz ua)) /\
    topic e = JStr s /\
    questions_total e = count_where (on_topic s) (questions_of quiz) /\
    questions_correct e
    = count_where (fun q' => on_topic s q' && answered_correctly ua q')
        (questions_of quiz).
Proof.
  intros Hq.
  assert (Hs : stored_question q = true).
  { pose proof fresh_questions as F. rewrite forallb_forall in F. now apply F. }
  destruct (stored_question_topic q Hs) as [s Hto].
  assert (Hk : In (JStr s) (map fst ts)).
  { apply fresh_keys. rewrite <- Hto. now apply in_map. }
  apply in_map_iff in Hk as ([k v] & Hk & Hin). cbn [fst] in Hk. subst k.
  assert (He : In (entry_of (JStr s, v))
                  (topics_assessed (assessment_of sid quiz ua))).
  { simpl. fold qs. fold ts. now apply in_map. }
  destruct (fresh_entry _ He) as (s' & v' & _ & E & T & C).
  injection E as Es _ _ Ec Et. subst s'.
  exists s, (entry_of (JStr s, v)).
  split; [exact Hto|]. split; [exact He|]. split; [reflexivity|].
  cbn [questions_total questions_correct entry_of snd].
  rewrite Et, Ec. split; assumption.
Qed.

(** C6. Scoring returns, whatever ids the answers hold or leave out.
    Every question of the quiz is counted in the tally of its topic: the
    assessment has an entry for that topic, whose total is the number of
    questions of the topic and whose correct count is the number of those
    answered with the correct label; a question whose id is absent from
    the answers, or that was given another label, is one of the total and
    not of the correct count, so that the correct count of its topic
    stays below the total.  So does the body of the first loop on such a
    question, from any tally: the total of its topic grows by one and the
    correct count stays. *)
Theorem unanswered_counts_as_incorrect :
  exists a,
    fst (score_quiz json_loads sid answers st) = Ret (assessment_to_json a) /\
    (forall e, In e (topics_assessed a) ->
       exists s, topic e = JStr s /\
         questions_total e = count_where (on_topic s) (questions_of quiz) /\
         questions_correct e
         = count_where (fun q => on_topic s q && answered_correctly ua q)
             (questions_of quiz)) /\
    (forall q id c,
       In q (questions_of quiz) ->
       field "id" q = Some (JStr id) -> field "correct" q = Some (JStr c) ->
       (sget id ua = None -> answered_correctly ua q = false) /\
       (forall given, sget id ua = Some given -> given <> JStr c ->
                      answered_correctly ua q = false)) /\
    (forall q,
       In q (questions_of quiz) ->
       exists s e,
         topic_of q = JStr s /\
         In e (topics_assessed a) /\ topic e = JStr s /\
         1 <= questions_total e /\
         questions_total e = count_where (on_topic s) (questions_of quiz) /\
         questions_correct e
         = count_where (fun q' => on_topic s q' && answered_correctly ua q')
             (questions_of quiz) /\
         (answered_correctly ua q = false ->
          questions_correct e + 1 <= questions_total e)) /\
    (forall q id c tally_before,
       In q (questions_of quiz) ->
       field "id" q = Some (JStr id) -> field "correct" q = Some (JStr c) ->
       sget id ua = None \/ (exists given, sget id ua = Some given /\ given <> JStr c) ->
       exists s tally_after,
         topic_of q = JStr s /\
         tally_question (JObj ua) tally_before q = Ret tally_after /\
         total_for (JStr s) tally_after = total_for (JStr s) tally_before + 1 /\
         correct_for (JStr s) tally_after = correct_for (JStr s) tally_before).
Proof.
  exists (assessment_of sid quiz ua). split; [exact fresh_result|].
  split; [|split; [|split]].
  - intros e He. destruct (fresh_entry e He) as (s & v & _ & -> & T & C).
    exists s. simpl. auto.
  - intros q id c _ Hid Hc. now apply answered_correctly_miss.
  - intros q Hq.
    destruct (question_entry q Hq) as (s & e & Hto & He & Ht & T & C).
    assert (On : on_topic s q = true).
    { unfold on_topic. rewrite Hto. apply key_eqb_str_refl. }
    exists s, e. repeat (split; [assumption|]). split; [|split; [exact T|split; [exact C|]]].
    + rewrite T. now apply (count_where_pos _ q).
    + intros Hwrong. rewrite T, C.
      now apply (count_where_and_lt (on_topic s) (answered_correctly ua) q).
  - intros q id c tb Hq Hid Hc Hmiss.
    assert (Hs : stored_question q = true).
    { pose proof fresh_questions as F. rewrite forallb_forall in F. now apply F. }
    destruct (stored_question_topic q Hs) as [s Hto].
    destruct (tally_question_counts ua tb q s Hs Hto) as (ta & Et & Tt & Tc).
    assert (W : answered_correctly ua q = false).
    { destruct (answered_correctly_miss ua q id c Hid Hc) as [A1 A2].
      destruct Hmiss as [N|(given & G & N)]; eauto. }
    rewrite W in Tc. cbn [indicator] in Tc.
    exists s, ta. repeat split; auto. lia.
Qed.

(** C7. [overall_knowledge] is the number of correctly answered questions
    divided by the number of questions, and the int 0 for a quiz without
    questions. *)
Theorem overall_is_correct_over_total :
  exists a,
    fst (score_quiz json_loads sid answers st) = Ret (assessment_to_json a) /\
    overall_knowledge a
    = ratio (count_where (answered_correctly ua) (questions_of quiz))
            (Z.of_nat (List.length (questions_of quiz))) /\
    (questions_of quiz = [] -> overall_knowledge a = JInt 0) /\
    (questions_of quiz <> [] ->
     overall_knowledge a
     = JFloat (py_truediv (count_where (answered_correctly ua) (questions_of quiz))
                          (Z.of_nat (List.length (questions_of quiz))))).
Proof.
  exists (assessment_of sid quiz ua). split; [exact fresh_result|].
  assert (E : overall_knowledge (assessment_of sid quiz ua)
              = ratio (count_where (answered_correctly ua) qs)
                      (Z.of_nat (List.length qs))).
  { simpl. fold qs. fold ts.
    destruct (fold_step_sums ua qs [] fresh_questions) as [H1 H2].
    fold ts in H1, H2. rewrite H1, H2. reflexivity. }
  fold qs. rewrite E. split; [reflexivity|]. split.
  - intros ->. reflexivity.
  - intros N. unfold ratio.
    assert (L : 0 < Z.of_nat (List.length qs)).
    { destruct qs; [congruence|]. cbn [List.length]. lia. }
    apply Z.ltb_lt in L. now rewrite L.
Qed.

Lemma general_entry (q : json) :
  In q (questions_of quiz) -> field "topic" q = None ->
  exists e, In e (topics_assessed (assessment_of sid quiz ua)) /\
            topic e = JStr "General" /\
            questions_total e = count_where (on_topic "General") (questions_of quiz) /\
            1 <= questions_total e.
Proof.
  intros Hq Ht.
  assert (Hto : topic_of q = JStr "General") by (unfold topic_of; now rewrite Ht).
  assert (Hk : In (JStr "General") (map fst ts)).
  { apply fresh_keys. rewrite <- Hto. now apply in_map. }
  apply in_map_iff in Hk as ([k v] & Hk & Hin). simpl in Hk. subst k.
  assert (He : In (entry_of (JStr "General", v))
                  (topics_assessed (assessment_of sid quiz ua))).
  { simpl. fold qs. fold ts. now apply in_map. }
  destruct (fresh_entry _ He) as (s & v' & _ & E & T & _).
  injection E as Es _ _ Ec Et. subst s.
  exists (entry_of (JStr "General", v)). split; [exact He|]. split; [reflexivity|].
  simpl. rewrite Et, T. split; [reflexivity|].
  apply (count_where_pos _ q); auto.
  unfold on_topic. rewrite Hto. reflexivity.
Qed.

End FreshScoring.

(** ** The quiz generator *)

Lemma mapM_Forall2 {A B : Type} (f : A -> result B) (R : A -> B -> Prop) (l : list A) :
  Forall (fun x => exists y, f x = Ret y /\ R x y) l ->
  exists l', mapM f l = Ret l' /\ Forall2 R l l'.
Proof.
  induction 1 as [|x l (y & Hy & Hr) _ (l' & Hl & HF)]; simpl.
  - exists []. auto.
  - exists (y :: l'). rewrite Hy, Hl. simpl. auto.
Qed.

Lemma smem_sget (k : string) (d : sdict) :
  smem k d = match sget k d with Some _ => true | None => false end.
Proof. reflexivity. Qed.

Lemma normalize_question_obj (d : sdict) :
  exists d', normalize_question (JObj d) = Ret (JObj d') /\
             normalizes (JObj d) (JObj d').
Proof.
  unfold normalize_question, py_in. simpl. rewrite smem_sget.
  destruct (sget "correct_answer" d) as [v|] eqn:E.
  - exists (sset "correct" v (sremove "correct_answer" d)). split; [reflexivity|].
    unfold normalizes, field. rewrite E. repeat split.
    + intros v' H. injection H as <-. apply sget_sset_same.
    + rewrite sget_sset_other by discriminate. apply sget_sremove_same.
    + intros k N1 N2. rewrite sget_sset_other by exact N1.
      now apply sget_sremove_other.
  - exists d. split; [reflexivity|].
    unfold normalizes, field. rewrite E. repeat split; auto. discriminate.
Qed.

Lemma sanitize_question_obj (d : sdict) :
  exists d', sanitize_question (JObj d) = Ret (JObj d') /\
             hides_answer (JObj d) (JObj d').
Proof.
  exists (sremove "correct" d). split; [reflexivity|].
  unfold hides_answer, field. split.
  - apply sget_sremove_same.
  - intros k N. now apply sget_sremove_other.
Qed.

Lemma Forall2_is_obj (R : json -> json -> Prop) (l l' : list json) :
  Forall2 (fun x y => is_obj y = true /\ R x y) l l' ->
  Forall (fun y => is_obj y = true) l' /\ Forall2 R l l'.
Proof.
  induction 1 as [|x y l l' [Ho Hr] _ [IH1 IH2]]; split; auto.
Qed.

Lemma mapM_ret_Forall2 {A B : Type} (f : A -> result B) (l : list A) (l' : list B) :
  mapM f l = Ret l' -> Forall2 (fun x y => f x = Ret y) l l'.
Proof.
  revert l'. induction l as [|x l IH]; simpl; intros l' H.
  - injection H as <-. constructor.
  - destruct (f x) as [y|] eqn:E; simpl in H; [|discriminate].
    destruct (mapM f l) as [ys|]; simpl in H; [|discriminate].
    injection H as <-. constructor; auto.
Qed.

Lemma sanitize_question_ret (q v : json) :
  sanitize_question q = Ret v -> is_obj q = true.
Proof. destruct q; simpl; try discriminate. reflexivity. Qed.

Lemma normalize_question_ret (q q' : json) :
  normalize_question q = Ret q' -> is_obj q' = true -> is_obj q = true.
Proof.
  unfold normalize_question.
  destruct q; simpl; try discriminate; try reflexivity.
  - destruct (contains "correct_answer" s); try discriminate.
    intros H. injection H as <-. auto.
  - destruct (existsb (key_eqb (JStr "correct_answer")) l); try discriminate.
    intros H. injection H as <-. auto.
Qed.

Lemma sanitize_all_obj (l : list json) (view : list json) :
  mapM sanitize_question l = Ret view -> forallb is_obj l = true.
Proof.
  intros H. apply mapM_ret_Forall2 in H.
  induction H as [|x y l l' Hx _ IH]; simpl; auto.
  now rewrite (sanitize_question_ret x y Hx).
Qed.

Lemma normalize_all_obj (l l' : list json) :
  mapM normalize_question l = Ret l' -> forallb is_obj l' = true ->
  forallb is_obj l = true.
Proof.
  intros H. apply mapM_ret_Forall2 in H.
  induction H as [|x y l l' Hx _ IH]; simpl; auto.
  intros Hy. apply andb_prop in Hy as [Hy Hl].
  now rewrite (normalize_question_ret x y Hx Hy), IH.
Qed.

Lemma strings_not_obj (l : list string) :
  forallb is_obj (map JStr l) = true -> l = [].
Proof. destruct l; simpl; [reflexivity|discriminate]. Qed.

Lemma chars_not_obj (s : string) :
  forallb is_obj (chars s) = true -> chars s = [].
Proof.
  unfold chars. destruct (list_ascii_of_string s); simpl; [reflexivity|discriminate].
Qed.

(** A generation that returns had a reply that is a dictionary whose
    questions, when there are any, are a list of objects: the shape the
    theorem on the generator assumes. *)
Lemma generate_quiz_success_shape
  (json_loads : string -> result json)
  (ask_quiz : string -> string -> Z -> result string)
  (content content_type : string) (num_questions : Z) (sid : string) (st : store)
  (text : string) (v : json) :
  ask_quiz content content_type num_questions = Ret text ->
  fst (generate_quiz json_loads ask_quiz content content_type num_questions sid st)
  = Ret v ->
  exists d, json_loads text = Ret (JObj d) /\
            match sget "questions" d with
            | Some (JArr raw) => forallb is_obj raw = true
            | Some other => py_iter other = Ret []
            | None => True
            end.
Proof.
  intros Hask. unfold generate_quiz. rewrite Hask. cbn [bind].
  destruct (json_loads text) as [reply|]; cbn [bind]; [|discriminate].
  destruct reply as [| | | | | |d]; try discriminate.
  intros H. exists d. split; [reflexivity|].
  unfold normalize_quiz, py_get in H. cbn [bind] in H.
  destruct (sget "questions" d) as [qf|] eqn:Eq; [|exact I].
  destruct (py_iter qf) as [items|] eqn:Ei; cbn [bind] in H; [|discriminate].
  destruct (mapM normalize_question items) as [stored|] eqn:En;
    cbn [bind] in H; [|discriminate].
  assert (Other : is_obj qf = true \/ (exists s, qf = JStr s) ->
                  py_iter qf = Ret []).
  { intros Hk.
    assert (Q : (if smem "questions" d then Ret (JObj d) else Ret (JObj d))
                = Ret (JObj d)) by (destruct (smem "questions" d); reflexivity).
    assert (H' : fst (quiz_view sid (JObj d),
                      dict_set String.eqb sid (JObj d) st) = Ret v).
    { destruct Hk as [Hk|[s ->]]; [destruct qf; try discriminate|]; exact H. }
    cbn [fst] in H'. unfold quiz_view, py_get in H'. rewrite Eq in H'.
    cbn [bind] in H'. rewrite Ei in H'. cbn [bind] in H'.
    destruct (mapM sanitize_question items) as [view|] eqn:Es; [|discriminate].
    apply sanitize_all_obj in Es.
    destruct Hk as [Hk|[s ->]].
    - destruct qf; try discriminate. simpl in Ei. injection Ei as <-.
      simpl. now rewrite (strings_not_obj _ Es).
    - simpl in Ei. injection Ei as <-. simpl. now rewrite (chars_not_obj _ Es). }
  destruct qf as [| | | |s|raw|d']; try discriminate.
  - rewrite <- Ei. apply Other. right. now exists s.
  - simpl in Ei. injection Ei as <-.
    rewrite smem_sget, Eq in H. cbn [fst] in H.
    unfold quiz_view, py_get in H. rewrite sget_sset_same in H.
    cbn [bind py_iter] in H.
    destruct (mapM sanitize_question stored) as [view|] eqn:Es; [|discriminate].
    apply sanitize_all_obj in Es. exact (normalize_all_obj _ _ En Es).
  - rewrite <- Ei. apply Other. now left.
Qed.

(** C8. When the model's reply decodes to a quiz whose questions are
    objects, [generate_quiz] stores under the new session id the quiz with
    every [correct_answer] moved to [correct], and returns the session id,
    the title, the topics and the questions, each without a [correct]
    field and otherwise as stored. *)
Theorem generate_quiz_hides_answers
  (json_loads : string -> result json)
  (ask_quiz : string -> string -> Z -> result string)
  (content content_type : string) (num_questions : Z) (sid : string) (st : store)
  (text : string) (d : sdict) (raw : list json) :
  ask_quiz content content_type num_questions = Ret text ->
  json_loads text = Ret (JObj d) ->
  sget "questions" d = Some (JArr raw) ->
  forallb is_obj raw = true ->
  exists stored view,
    generate_quiz json_loads ask_quiz content content_type num_questions sid st
    = (Ret (JObj [("session_id", JStr sid);
                  ("title", match sget "title" d with Some t => t | None => JStr "Quiz" end);
                  ("topics", match sget "topics" d with Some t => t | None => JArr [] end);
                  ("questions", JArr view)]),
       dict_set String.eqb sid (JObj (sset "questions" (JArr stored) d)) st) /\
    dict_get String.eqb sid
      (snd (generate_quiz json_loads ask_quiz content content_type num_questions sid st))
    = Some (JObj (sset "questions" (JArr stored) d)) /\
    Forall2 normalizes raw stored /\
    Forall2 hides_answer stored view.
Proof.
  intros Hask Hload Hqs Hobj.
  assert (N : exists stored, mapM normalize_question raw = Ret stored /\
                Forall2 (fun x y => is_obj y = true /\ normalizes x y) raw stored).
  { apply mapM_Forall2. rewrite forallb_forall in Hobj. apply Forall_forall.
    intros q Hq. specialize (Hobj q Hq). destruct q; try discriminate.
    destruct (normalize_question_obj d0) as (d' & E & H). exists (JObj d'). auto. }
  destruct N as (stored & Hn & HF).
  apply Forall2_is_obj in HF as [Hso HF].
  assert (V : exists view, mapM sanitize_question stored = Ret view /\
                Forall2 hides_answer stored view).
  { apply mapM_Forall2. eapply Forall_impl; [|exact Hso].
    intros q Hq. destruct q; try discriminate.
    destruct (sanitize_question_obj d0) as (d' & E & H). exists (JObj d'). auto. }
  destruct V as (view & Hv & HV).
  exists stored, view.
  assert (G : generate_quiz json_loads ask_quiz content content_type num_questions sid st
              = (Ret (JObj [("session_id", JStr sid);
                  ("title", match sget "title" d with Some t => t | None => JStr "Quiz" end);
                  ("topics", match sget "topics" d with Some t => t | None => JArr [] end);
                  ("questions", JArr view)]),
       dict_set String.eqb sid (JObj (sset "questions" (JArr stored) d)) st)).
  { unfold generate_quiz. rewrite Hask. simpl. rewrite Hload. simpl.
    unfold normalize_quiz. simpl. rewrite Hqs. simpl. rewrite Hn. simpl.
    rewrite smem_sget, Hqs.
    unfold quiz_view. simpl. rewrite sget_sset_same. simpl. rewrite Hv. simpl.
    rewrite !sget_sset_other by discriminate. reflexivity. }
  rewrite G. simpl. rewrite store_get_set_same. auto.
Qed.

Lemma generate_quiz_hides_answers_witness :
  sample_ask_quiz "content" "text" 3 = Ret quiz_reply_text /\
  sample_loads quiz_reply_text
  = Ret (JObj (quiz_dict [raw_question "q1" (Some "A") "A";
                          raw_question "q2" (Some "A") "B";
                          raw_question "q3" (Some "B") "C"])) /\
  exists stored view,
    generate_quiz sample_loads sample_ask_quiz "content" "text" 3 "s-new" sample_store
    = (Ret (JObj [("session_id", JStr "s-new");
                  ("title", JStr "Sample");
                  ("topics", JArr [JStr "A"; JStr "B"]);
                  ("questions", JArr view)]),
       dict_set String.eqb "s-new"
         (JObj (sset "questions" (JArr stored)
                  (quiz_dict [raw_question "q1" (Some "A") "A";
                              raw_question "q2" (Some "A") "B";
                              raw_question "q3" (Some "B") "C"]))) sample_store) /\
    dict_get String.eqb "s-new"
      (snd (generate_quiz sample_loads sample_ask_quiz "content" "text" 3 "s-new"
              sample_store))
    = Some (JObj (sset "questions" (JArr stored)
                  (quiz_dict [raw_question "q1" (Some "A") "A";
                              raw_question "q2" (Some "A") "B";
                              raw_question "q3" (Some "B") "C"]))) /\
    Forall2 normalizes
      [raw_question "q1" (Some "A") "A"; raw_question "q2" (Some "A") "B";
       raw_question "q3" (Some "B") "C"] stored /\
    Forall2 hides_answer stored view.
Proof.
  split; [reflexivity|]. split; [reflexivity|].
  apply (generate_quiz_hides_answers sample_loads sample_ask_quiz "content" "text" 3
           "s-new" sample_store quiz_reply_text
           (quiz_dict [raw_question "q1" (Some "A") "A";
                       raw_question "q2" (Some "A") "B";
                       raw_question "q3" (Some "B") "C"])
           [raw_question "q1" (Some "A") "A"; raw_question "q2" (Some "A") "B";
            raw_question "q3" (Some "B") "C"]);
    reflexivity.
Defined.

(** ** The organizer *)

Lemma py_join_strings (l : list json) :
  forallb is_str l = true -> exists s, py_join (JArr l) = Ret s.
Proof.
  intros H. unfold py_join. simpl.
  assert (M : exists strs,
             mapM (fun j => match j with JStr s => Ret s | _ => Raise TypeError end) l
             = Ret strs).
  { induction l as [|x l IH]; simpl in *; [eauto|].
    apply andb_prop in H as [Hx Hl]. destruct x; try discriminate.
    destruct (IH Hl) as [strs E]. rewrite E. simpl. eauto. }
  destruct M as [strs E]. rewrite E. simpl. eauto.
Qed.

Lemma py_join_field (a : sdict) (k : string) :
  joinable (sget k a) = true ->
  exists s, py_join (match sget k a with Some v => v | None => JArr [] end) = Ret s.
Proof.
  unfold joinable.
  destruct (sget k a) as [[| | | | |l|]|]; try discriminate.
  - apply py_join_strings.
  - intros _. exists EmptyString. reflexivity.
Qed.

Lemma progress_of_cut (int_of_str : string -> result Z) (a : sdict) (p : Z) :
  cut_percent (sget "overall_knowledge" a) p ->
  progress_of int_of_str (JObj a) = Ret p.
Proof.
  unfold cut_percent, progress_of, py_get. simpl.
  destruct (sget "overall_knowledge" a) as [[| | | | | |]|]; simpl; try tauto.
  - intros ->. reflexivity.
  - intros ->. reflexivity.
Qed.

Lemma status_of_rule (p : Z) :
  (100 <= p -> status_of p = "completed") /\
  (0 < p < 100 -> status_of p = "in_progress") /\
  (p <= 0 -> status_of p = "not_started").
Proof.
  unfold status_of.
  destruct (100 <=? p)%Z eqn:A; [apply Z.leb_le in A|apply Z.leb_gt in A];
    (destruct (0 <? p)%Z eqn:B; [apply Z.ltb_lt in B|apply Z.ltb_ge in B]);
    repeat split; intros; try reflexivity; lia.
Qed.

Lemma set_progress_fields (d : sdict) (p : Z) :
  exists d', set_progress (JObj d) p = Ret (JObj d') /\
             sget "progressPercent" d' = Some (JInt p) /\
             sget "status" d' = Some (JStr (status_of p)) /\
             (forall k, k <> "progressPercent" -> k <> "status" -> sget k d' = sget k d).
Proof.
  eexists. split; [reflexivity|]. repeat split.
  - rewrite sget_sset_other by discriminate. apply sget_sset_same.
  - apply sget_sset_same.
  - intros k N1 N2. now rewrite !sget_sset_other.
Qed.

(** C2, as the code has it.  Given a non-empty assessment, the organizer
    returns an organization whose content node has [progressPercent]
    equal to [int(overall_knowledge * 100)], the product cut towards zero
    and not rounded, and [status] completed from 100 on, in_progress
    strictly between 0 and 100 and not_started otherwise, whatever the
    model's reply proposed for the two fields. *)
Theorem organizer_overrides_progress
  (json_loads : string -> result json) (int_of_str : string -> result Z)
  (ask_organizer :
     string -> string -> string -> string -> option assessment_section -> result string)
  (content content_type url assessment_json existing_subjects : string)
  (a : sdict) (p : Z) (text : string) (d : sdict) :
  assessment_json <> "" ->
  json_loads assessment_json = Ret (JObj a) ->
  a <> [] ->
  cut_percent (sget "overall_knowledge" a) p ->
  joinable (sget "focus_areas" a) = true ->
  joinable (sget "skip_areas" a) = true ->
  (forall section, sec_progress section = p ->
     ask_organizer content content_type url existing_subjects (Some section) = Ret text) ->
  json_loads text = Ret (JObj d) ->
  node_ok (sget "content_node" d) = true ->
  exists org,
    organize_content json_loads int_of_str ask_organizer
      content content_type url assessment_json existing_subjects = Ret org /\
    field "progressPercent" (node_of org) = Some (JInt p) /\
    field "status" (node_of org) = Some (JStr (status_of p)) /\
    (100 <= p -> status_of p = "completed") /\
    (0 < p < 100 -> status_of p = "in_progress") /\
    (p <= 0 -> status_of p = "not_started").
Proof.
  intros Hne Hload Ha Hcut Hfocus Hskip Hask Hreply Hnode.
  destruct (py_join_field a "focus_areas" Hfocus) as [focus Ef].
  destruct (py_join_field a "skip_areas" Hskip) as [skip Es].
  assert (Hrun : exists org,
    organize_content json_loads int_of_str ask_organizer
      content content_type url assessment_json existing_subjects = Ret org /\
    field "progressPercent" (node_of org) = Some (JInt p) /\
    field "status" (node_of org) = Some (JStr (status_of p))).
  { unfold organize_content.
    apply String.eqb_neq in Hne. rewrite Hne, Hload. cbn [bind].
    rewrite (progress_of_cut int_of_str a p Hcut). cbn [bind].
    assert (T : truthy (JObj a) = true) by (destruct a; [congruence|reflexivity]).
    rewrite T. unfold py_get. cbn [bind]. rewrite Ef. cbn [bind].
    rewrite Es. cbn [bind]. rewrite Hask by reflexivity. cbn [bind].
    rewrite Hreply. cbn [bind]. unfold py_in. cbn [bind]. rewrite smem_sget.
    unfold node_ok in Hnode.
    destruct (sget "content_node" d) as [n|] eqn:En.
    - destruct n; try discriminate.
      unfold py_getitem. rewrite En. cbn [bind].
      destruct (set_progress_fields d0 p) as (d' & E & P1 & P2 & _).
      rewrite E. cbn [bind]. eexists. split; [reflexivity|].
      unfold node_of. rewrite sget_sset_same. unfold field. auto.
    - destruct (set_progress_fields d p) as (d' & E & P1 & P2 & P3).
      rewrite E. eexists. split; [reflexivity|].
      unfold node_of. rewrite P3 by discriminate. rewrite En. unfold field. auto. }
  destruct Hrun as (org & H1 & H2 & H3).
  exists org. repeat split; auto; apply status_of_rule.
Qed.

Lemma organizer_overrides_progress_witness :
  assessment_text <> "" /\
  sample_loads assessment_text = Ret (JObj sample_assessment_dict) /\
  sample_assessment_dict <> [] /\
  cut_percent (sget "overall_knowledge" sample_assessment_dict) 66 /\
  sample_loads organizer_reply_text = Ret (JObj organizer_reply_dict) /\
  exists org,
    organize_content sample_loads sample_int_of_str sample_ask_organizer
      "content" "text" "" assessment_text "" = Ret org /\
    field "progressPercent" (node_of org) = Some (JInt 66) /\
    field "status" (node_of org) = Some (JStr (status_of 66)) /\
    (100 <= 66 -> status_of 66 = "completed") /\
    (0 < 66 < 100 -> status_of 66 = "in_progress") /\
    (66 <= 0 -> status_of 66 = "not_started").
Proof.
  split; [discriminate|]. split; [reflexivity|]. split; [discriminate|].
  split; [vm_compute; reflexivity|]. split; [reflexivity|].
  apply (organizer_overrides_progress sample_loads sample_int_of_str
           sample_ask_organizer "content" "text" "" assessment_text ""
           sample_assessment_dict 66 organizer_reply_text organizer_reply_dict).
  - discriminate.
  - reflexivity.
  - discriminate.
  - vm_compute. reflexivity.
  - reflexivity.
  - reflexivity.
  - reflexivity.
  - reflexivity.
  - reflexivity.
Defined.

(** C2 as the specification states it fails: for the assessment of the
    sample quiz, whose [overall_knowledge] is the float 2/3, rounding
    gives 67 and the organizer sets 66. *)
Lemma organizer_does_not_round :
  exists org p,
    organize_content sample_loads sample_int_of_str sample_ask_organizer
      "content" "text" "" assessment_text "" = Ret org /\
    spec_progress sample_assessment = Ret p /\
    p = 67 /\
    field "progressPercent" (node_of org) = Some (JInt 66) /\
    field "progressPercent" (node_of org) <> Some (JInt p).
Proof.
  eexists. exists 67.
  split; [vm_compute; reflexivity|].
  split; [vm_compute; reflexivity|].
  split; [reflexivity|].
  split; [vm_compute; reflexivity|].
  vm_compute. discriminate.
Qed.

(** ** Questions without a topic *)

Lemma validate_options_ok (d : sdict) :
  forallb (fun kv => is_str (snd kv)) d = true ->
  exists o, validate_options (JObj d) = Ret o.
Proof.
  simpl. induction d as [|[k v] d IH]; simpl; [eauto|].
  intros H. apply andb_prop in H as [Hv Hd].
  destruct v; try discriminate. simpl.
  destruct (IH Hd) as [o E]. rewrite E. simpl. eauto.
Qed.

Lemma quiz_question_view (v : json) :
  view_question v = true ->
  exists qq, quiz_question v = Ret qq /\ qq_topic qq = reported_topic v.
Proof.
  destruct v as [| | | | | |d]; simpl; try discriminate.
  intros H.
  apply andb_prop in H as [H Ho]. apply andb_prop in H as [H Hq].
  apply andb_prop in H as [Hi Ht].
  unfold quiz_question, py_getitem, py_get, reported_topic, field.
  destruct (sget "id" d) as [[| | | |id| |]|]; try discriminate.
  destruct (sget "question" d) as [[| | | |qn| |]|]; try discriminate.
  cbn [bind].
  assert (O : exists o, validate_options
                (match sget "options" d with Some x => x | None => JObj [] end) = Ret o).
  { unfold options_ok in Ho.
    destruct (sget "options" d) as [[| | | | | |od]|]; try discriminate.
    - now apply validate_options_ok.
    - exists []. reflexivity. }
  destruct O as [o Eo].
  destruct (sget "topic" d) as [[| | | |t| |]|]; try discriminate;
    cbn [validate_str bind]; rewrite Eo; cbn [bind]; eexists; split; reflexivity.
Qed.

Lemma validate_strs_ok (o : option json) (default : list json) :
  joinable o = true -> forallb is_str default = true ->
  exists l, validate_strs (match o with Some x => x | None => JArr default end) = Ret l.
Proof.
  assert (M : forall l, forallb is_str l = true -> exists l', mapM validate_str l = Ret l').
  { induction l as [|x l IH]; simpl; [eauto|].
    intros H. apply andb_prop in H as [Hx Hl]. destruct x; try discriminate.
    destruct (IH Hl) as [l' E]. simpl. rewrite E. simpl. eauto. }
  unfold joinable. destruct o as [[| | | | |l|]|]; try discriminate; intros H D; simpl; auto.
Qed.

Lemma validate_str_opt (o : option json) (default : string) :
  opt_str o = true ->
  exists s, validate_str (match o with Some x => x | None => JStr default end) = Ret s.
Proof.
  destruct o as [[| | | |s| |]|]; try discriminate; simpl; eauto.
Qed.

Lemma quiz_response_view (res : json) (vs : list json) :
  assess_result res = true ->
  field "questions" res = Some (JArr vs) ->
  exists resp, quiz_response res = Ret resp /\
               Forall2 (fun v qq => qq_topic qq = reported_topic v) vs (qr_questions resp).
Proof.
  destruct res as [| | | | | |d]; simpl; try discriminate.
  intros H Hvs. rewrite Hvs in H.
  apply andb_prop in H as [H Hq]. apply andb_prop in H as [H Htopics].
  apply andb_prop in H as [Hsid Htitle].
  destruct (mapM_Forall2 quiz_question (fun v qq => qq_topic qq = reported_topic v) vs)
    as (qqs & Em & HF).
  { rewrite forallb_forall in Hq. apply Forall_forall.
    intros v Hv. apply quiz_question_view. now apply Hq. }
  destruct (validate_str_opt (sget "session_id" d) "" Hsid) as [s Es].
  destruct (validate_str_opt (sget "title" d) "Untitled" Htitle) as [t Et].
  destruct (validate_strs_ok (sget "topics" d) [] Htopics eq_refl) as [tp Etp].
  unfold quiz_response, py_get. cbn [bind]. rewrite Hvs. cbn [py_iter bind].
  rewrite Em. cbn [bind]. rewrite Es. cbn [bind]. rewrite Et. cbn [bind].
  rewrite Etp. cbn [bind]. eexists. split; [reflexivity|]. exact HF.
Qed.

(** C10. A stored question without a [topic] field is counted by the
    scorer in the entry of the label General, whose total is the number of
    questions without a topic or with the topic General; and for a result
    of [run_assess] that passes validation, [/assess] answers with
    General as the topic of every question that has no [topic] field. *)
Theorem untopiced_question_is_general
  (json_loads : string -> result json)
  (sid answers : string) (st : store) (quiz : json) (ua : sdict)
  (res : json) (vs : list json) :
  dict_get String.eqb sid st = Some quiz ->
  stored_quiz quiz = true ->
  cached_result quiz = Ret None ->
  json_loads answers = Ret (JObj ua) ->
  assess_result res = true ->
  field "questions" res = Some (JArr vs) ->
  (exists a,
     fst (score_quiz json_loads sid answers st) = Ret (assessment_to_json a) /\
     forall q, In q (questions_of quiz) -> field "topic" q = None ->
       exists e, In e (topics_assessed a) /\ topic e = JStr "General" /\
                 questions_total e = count_where (on_topic "General") (questions_of quiz) /\
                 1 <= questions_total e) /\
  (exists resp,
     assess_content true (Ret res) = Respond resp /\
     Forall2 (fun v qq => field "topic" v = None -> qq_topic qq = "General")
       vs (qr_questions resp)).
Proof.
  intros Hst Hq Hf Ha Hres Hvs. split.
  - exists (assessment_of sid quiz ua). split.
    + exact (fresh_result json_loads sid answers st quiz ua Hst Hq Hf Ha).
    + intros q Hin Ht. exact (general_entry sid quiz ua Hq q Hin Ht).
  - destruct (quiz_response_view res vs Hres Hvs) as (resp & E & HF).
    exists resp. unfold assess_content. cbn [negb bind]. rewrite E. split; [reflexivity|].
    eapply Forall2_impl; [|exact HF].
    cbv beta. intros v qq Hr Ht. rewrite Hr. unfold reported_topic. now rewrite Ht.
Qed.

Lemma untopiced_question_is_general_witness :
  dict_get String.eqb "s-u" sample_store = Some untopiced_quiz /\
  stored_quiz untopiced_quiz = true /\
  cached_result untopiced_quiz = Ret None /\
  sample_loads other_text = Ret (JObj other_dict) /\
  assess_result untopiced_view = true /\
  field "questions" untopiced_view = Some (JArr untopiced_questions) /\
  (exists a,
     fst (score_quiz sample_loads "s-u" other_text sample_store)
     = Ret (assessment_to_json a) /\
     forall q, In q (questions_of untopiced_quiz) -> field "topic" q = None ->
       exists e, In e (topics_assessed a) /\ topic e = JStr "General" /\
                 questions_total e
                 = count_where (on_topic "General") (questions_of untopiced_quiz) /\
                 1 <= questions_total e) /\
  (exists resp,
     assess_content true (Ret untopiced_view) = Respond resp /\
     Forall2 (fun v qq => field "topic" v = None -> qq_topic qq = "General")
       untopiced_questions (qr_questions resp)).
Proof.
  do 6 (split; [reflexivity|]).
  apply (untopiced_question_is_general sample_loads "s-u" other_text sample_store
           untopiced_quiz other_dict untopiced_view untopiced_questions);
    reflexivity.
Defined.

(** ** The theorems on the sample sessions *)

Lemma topics_cover_questions_witness :
  dict_get String.eqb "s-1" sample_store = Some sample_quiz /\
  stored_quiz sample_quiz = true /\
  cached_result sample_quiz = Ret None /\
  sample_loads answers_text = Ret (JObj answers_dict) /\
  exists a,
    fst (score_quiz sample_loads "s-1" answers_text sample_store)
    = Ret (assessment_to_json a) /\
    sumZ (map questions_total (topics_assessed a))
    = Z.of_nat (List.length (questions_of sample_quiz)) /\
    map topic (topics_assessed a)
    = first_seen [] (map topic_of (questions_of sample_quiz)) /\
    NoDup (map topic (topics_assessed a)) /\
    (forall t, In t (map topic (topics_assessed a))
               <-> In t (map topic_of (questions_of sample_quiz))).
Proof.
  do 4 (split; [reflexivity|]).
  apply (topics_cover_questions sample_loads "s-1" answers_text sample_store
           sample_quiz answers_dict); reflexivity.
Defined.

Lemma threshold_is_inclusive_witness :
  dict_get String.eqb "s-10" sample_store = Some ten_quiz /\
  stored_quiz ten_quiz = true /\
  cached_result ten_quiz = Ret None /\
  sample_loads seven_text = Ret (JObj seven_dict) /\
  exists a,
    fst (score_quiz sample_loads "s-10" seven_text sample_store)
    = Ret (assessment_to_json a) /\
    (forall e, In e (topics_assessed a) ->
       score e = ratio (questions_correct e) (questions_total e) /\
       if ge_07 (score e)
       then status e = "proficient" /\
            In (topic e) (skip_areas a) /\ ~ In (topic e) (focus_areas a)
       else status e = "needs_review" /\
            In (topic e) (focus_areas a) /\ ~ In (topic e) (skip_areas a)) /\
    (forall e, In e (topics_assessed a) -> questions_total e <= 200 ->
       (ge_07 (score e) = true
        <-> 7 * questions_total e <= 10 * questions_correct e)) /\
    ratio 7 10 = JFloat c07 /\ ge_07 (ratio 7 10) = true.
Proof.
  do 4 (split; [reflexivity|]).
  apply (threshold_is_inclusive sample_loads "s-10" seven_text sample_store
           ten_quiz seven_dict); reflexivity.
Defined.

Lemma unanswered_counts_as_incorrect_witness :
  dict_get String.eqb "s-1" sample_store = Some sample_quiz /\
  stored_quiz sample_quiz = true /\
  cached_result sample_quiz = Ret None /\
  sample_loads other_text = Ret (JObj other_dict) /\
  exists a,
    fst (score_quiz sample_loads "s-1" other_text sample_store)
    = Ret (assessment_to_json a) /\
    (forall e, In e (topics_assessed a) ->
       exists s, topic e = JStr s /\
         questions_total e = count_where (on_topic s) (questions_of sample_quiz) /\
         questions_correct e
         = count_where (fun q => on_topic s q && answered_correctly other_dict q)
             (questions_of sample_quiz)) /\
    (forall q id c,
       In q (questions_of sample_quiz) ->
       field "id" q = Some (JStr id) -> field "correct" q = Some (JStr c) ->
       (sget id other_dict = None -> answered_correctly other_dict q = false) /\
       (forall given, sget id other_dict = Some given -> given <> JStr c ->
                      answered_correctly other_dict q = false)) /\
    (forall q,
       In q (questions_of sample_quiz) ->
       exists s e,
         topic_of q = JStr s /\
         In e (topics_assessed a) /\ topic e = JStr s /\
         1 <= questions_total e /\
         questions_total e = count_where (on_topic s) (questions_of sample_quiz) /\
         questions_correct e
         = count_where (fun q' => on_topic s q' && answered_correctly other_dict q')
             (questions_of sample_quiz) /\
         (answered_correctly other_dict q = false ->
          questions_correct e + 1 <= questions_total e)) /\
    (forall q id c tally_before,
       In q (questions_of sample_quiz) ->
       field "id" q = Some (JStr id) -> field "correct" q = Some (JStr c) ->
       sget id other_dict = None
       \/ (exists given, sget id other_dict = Some given /\ given <> JStr c) ->
       exists s tally_after,
         topic_of q = JStr s /\
         tally_question (JObj other_dict) tally_before q = Ret tally_after /\
         total_for (JStr s) tally_after = total_for (JStr s) tally_before + 1 /\
         correct_for (JStr s) tally_after = correct_for (JStr s) tally_before).
Proof.
  do 4 (split; [reflexivity|]).
  apply (unanswered_counts_as_incorrect sample_loads "s-1" other_text sample_store
           sample_quiz other_dict); reflexivity.
Defined.

Lemma overall_is_correct_over_total_witness :
  dict_get String.eqb "s-1" sample_store = Some sample_quiz /\
  stored_quiz sample_quiz = true /\
  cached_result sample_quiz = Ret None /\
  sample_loads answers_text = Ret (JObj answers_dict) /\
  exists a,
    fst (score_quiz sample_loads "s-1" answers_text sample_store)
    = Ret (assessment_to_json a) /\
    overall_knowledge a
    = ratio (count_where (answered_correctly answers_dict) (questions_of sample_quiz))
            (Z.of_nat (List.length (questions_of sample_quiz))) /\
    (questions_of sample_quiz = [] -> overall_knowledge a = JInt 0) /\
    (questions_of sample_quiz <> [] ->
     overall_knowledge a
     = JFloat (py_truediv
                 (count_where (answered_correctly answers_dict) (questions_of sample_quiz))
                 (Z.of_nat (List.length (questions_of sample_quiz))))).
Proof.
  do 4 (split; [reflexivity|]).
  apply (overall_is_correct_over_total sample_loads "s-1" answers_text sample_store
           sample_quiz answers_dict); reflexivity.
Defined.

(** The scenario of the specification: three questions on the topics A, A
    and B, both A questions right and the B question wrong. *)
Example scenario_two_of_three :
  fst (score_quiz sample_loads "s-1" answers_text sample_store) = Ret sample_assessment /\
  field "overall_knowledge" sample_assessment = Some (JFloat (py_truediv 2 3)).
Proof. split; vm_compute; reflexivity. Qed.

(** Seven right out of ten: the topic is in [skip_areas]. *)
Example scenario_exactly_070 :
  exists r,
    fst (score_quiz sample_loads "s-10" seven_text sample_store) = Ret r /\
    field "skip_areas" r = Some (JArr [JStr "T"]) /\
    field "focus_areas" r = Some (JArr []).
Proof. eexists. repeat split; vm_compute; reflexivity. Qed.

(** An empty quiz: [overall_knowledge] is the int 0. *)
Example scenario_no_questions :
  exists r,
    fst (score_quiz sample_loads "s-0" answers_text [("s-0", quiz_of [])]) = Ret r /\
    field "overall_knowledge" r = Some (JInt 0).
Proof. eexists. split; vm_compute; reflexivity. Qed.

(* ================================================================= *)
(** * Further properties of the scorer *)

(** ** What scoring writes *)

Lemma field_mark_scored (quiz r : json) (k : string) :
  k <> "_scored" -> k <> "_score_result" ->
  field k (mark_scored quiz r) = field k quiz.
Proof.
  intros N1 N2. destruct quiz; try reflexivity.
  simpl. now rewrite !sget_sset_other.
Qed.

Lemma score_quiz_frame (json_loads : string -> result json)
      (sid answers : string) (st : store) :
  dict_keys (snd (score_quiz json_loads sid answers st)) = dict_keys st /\
  forall sid' k, k <> "_scored" -> k <> "_score_result" ->
    option_map (field k)
      (dict_get String.eqb sid' (snd (score_quiz json_loads sid answers st)))
    = option_map (field k) (dict_get String.eqb sid' st).
Proof.
  destruct (score_quiz_cases json_loads sid answers st)
    as [[_ E]|[[e E]|[(r' & _ & E)|(d & a & Hq & _ & _ & E)]]];
    rewrite E; cbn [snd]; auto.
  split.
  - apply store_set_keys. unfold dict_mem. now rewrite Hq.
  - intros sid' k N1 N2.
    destruct (String.eqb sid' sid) eqn:Es.
    + apply String.eqb_eq in Es. subst sid'.
      rewrite store_get_set_same, Hq. cbn [option_map].
      now rewrite field_mark_scored.
    + apply String.eqb_neq in Es. now rewrite store_get_set_other.
Qed.

(** X1. Scoring attempts, whatever their sessions and payloads and however
    many, never add or remove a session, and leave every field of every
    stored quiz as it was, the two flags [_scored] and [_score_result]
    apart: the questions and their correct answers stay in the store. *)
Theorem scoring_keeps_sessions_and_fields
  (json_loads : string -> result json)
  (attempts : list (string * string)) (st : store) :
  dict_keys (score_all json_loads attempts st) = dict_keys st /\
  forall sid k, k <> "_scored" -> k <> "_score_result" ->
    option_map (field k) (dict_get String.eqb sid (score_all json_loads attempts st))
    = option_map (field k) (dict_get String.eqb sid st).
Proof.
  revert st. induction attempts as [|[sid0 answers] rest IH]; intros st.
  - split; reflexivity.
  - cbn [score_all].
    destruct (IH (snd (score_quiz json_loads sid0 answers st))) as [K F].
    destruct (score_quiz_frame json_loads sid0 answers st) as [K0 F0].
    split; [congruence|].
    intros sid k N1 N2. rewrite F by assumption. now apply F0.
Qed.

(** ** Entries of a first scoring *)

(** X2. In the assessment of a first scoring every topic entry counts at
    least one question and no more correct answers than questions, so its
    score is the float quotient: the guard of line 43 against a zero total
    is never taken for an entry. *)
Theorem entries_have_questions
  (json_loads : string -> result json)
  (sid answers : string) (st : store) (quiz : json) (ua : sdict) :
  dict_get String.eqb sid st = Some quiz ->
  stored_quiz quiz = true ->
  cached_result quiz = Ret None ->
  json_loads answers = Ret (JObj ua) ->
  exists a,
    fst (score_quiz json_loads sid answers st) = Ret (assessment_to_json a) /\
    forall e, In e (topics_assessed a) ->
      1 <= questions_total e /\
      0 <= questions_correct e <= questions_total e /\
      score e = JFloat (py_truediv (questions_correct e) (questions_total e)).
Proof.
  intros Hst Hq Hf Ha. exists (assessment_of sid quiz ua).
  split; [now apply (fresh_result json_loads sid answers st quiz ua)|].
  intros e He.
  destruct (fresh_entry_bounds sid quiz ua Hq e He) as [B1 B2].
  split; [exact B2|]. split; [exact B1|].
  cbn [assessment_of topics_assessed] in He.
  apply in_map_iff in He as (item & <- & _).
  cbn [entry_of score questions_correct questions_total] in *.
  unfold ratio.
  assert (L : (0 <? total (snd item))%Z = true) by (apply Z.ltb_lt; lia).
  now rewrite L.
Qed.

Lemma entries_have_questions_witness :
  dict_get String.eqb "s-1" sample_store = Some sample_quiz /\
  stored_quiz sample_quiz = true /\
  cached_result sample_quiz = Ret None /\
  sample_loads answers_text = Ret (JObj answers_dict) /\
  exists a,
    fst (score_quiz sample_loads "s-1" answers_text sample_store)
    = Ret (assessment_to_json a) /\
    forall e, In e (topics_assessed a) ->
      1 <= questions_total e /\
      0 <= questions_correct e <= questions_total e /\
      score e = JFloat (py_truediv (questions_correct e) (questions_total e)).
Proof.
  do 4 (split; [reflexivity|]).
  apply (entries_have_questions sample_loads "s-1" answers_text sample_store
           sample_quiz answers_dict); reflexivity.
Defined.

(** ** Focus and skip areas *)

Lemma partition_keys (p : json * tally -> bool) (l : topics_scores) :
  Permutation (map fst (filter (fun e => negb (p e)) l) ++ map fst (filter p l))%list
              (map fst l).
Proof.
  induction l as [|x l IH]; cbn [filter map]; [constructor|].
  destruct (p x); cbn [negb map].
  - eapply Permutation_trans.
    + apply Permutation_sym, Permutation_middle.
    + now constructor.
  - cbn [app]. now constructor.
Qed.

(** X3. Whenever lines 27-59 run to their end, for any stored value and
    any payload, [focus_areas] and [skip_areas] together hold the topics
    of [topics_assessed], each as often as there: no topic is dropped and
    none is listed twice. *)
Theorem focus_and_skip_partition_topics
  (json_loads : string -> result json) (quiz : json) (answers : string)
  (s : scoring) :
  score_topics json_loads quiz answers = Ret s ->
  Permutation (sc_focus s ++ sc_skip s)%list (map topic (sc_assessed s)) /\
  (List.length (sc_focus s) + List.length (sc_skip s)
   = List.length (sc_assessed s))%nat.
Proof.
  unfold score_topics. intros H.
  destruct (json_loads answers) as [ua|]; cbn [bind] in H; [|discriminate].
  destruct (py_get quiz "questions" (JArr [])) as [qf|]; cbn [bind] in H;
    [|discriminate].
  destruct (py_iter qf) as [qs|]; cbn [bind] in H; [|discriminate].
  destruct (foldM (tally_question ua) [] qs) as [ts|]; cbn [bind] in H;
    [|discriminate].
  rewrite fold_assess in H. cbn [app] in H. injection H as <-.
  cbn [sc_focus sc_skip sc_assessed].
  assert (P : Permutation
                (map fst (filter (fun e => negb (proficient e)) ts)
                 ++ map fst (filter proficient ts))%list
                (map topic (map entry_of ts))).
  { rewrite entries_topic. apply partition_keys. }
  split; [exact P|].
  apply Permutation_length in P.
  rewrite length_app, (length_map topic) in P. exact P.
Qed.

Lemma focus_and_skip_partition_topics_witness :
  score_topics sample_loads sample_quiz answers_text = Ret sample_scoring /\
  Permutation (sc_focus sample_scoring ++ sc_skip sample_scoring)%list
              (map topic (sc_assessed sample_scoring)) /\
  (List.length (sc_focus sample_scoring) + List.length (sc_skip sample_scoring)
   = List.length (sc_assessed sample_scoring))%nat.
Proof.
  split; [vm_compute; reflexivity|].
  apply (focus_and_skip_partition_topics sample_loads sample_quiz answers_text).
  vm_compute. reflexivity.
Defined.

(** ** Which answers matter *)

Lemma fold_step_ext (ua ua' : sdict) (qs : list json) (ts : topics_scores) :
  (forall q, In q qs -> answered_correctly ua q = answered_correctly ua' q) ->
  fold_left (step ua) qs ts = fold_left (step ua') qs ts.
Proof.
  revert ts. induction qs as [|q qs IH]; intros ts H; cbn [fold_left]; auto.
  assert (E : step ua ts q = step ua' ts q).
  { unfold step. rewrite (H q) by now left. reflexivity. }
  rewrite E. apply IH. intros q' Hq'. apply H. now right.
Qed.

Lemma answered_correctly_ext (ua ua' : sdict) (q : json) :
  (forall id, field "id" q = Some (JStr id) -> sget id ua = sget id ua') ->
  answered_correctly ua q = answered_correctly ua' q.
Proof.
  intros H. unfold answered_correctly.
  destruct (field "id" q) as [[| | | |id| |]|]; auto.
  now rewrite (H id).
Qed.

(** X4. Two payloads that give the same answer, or none, to every question
    id of the quiz are scored alike: the call returns the same assessment
    and leaves the same store, whatever else the payloads hold, answers to
    ids the quiz does not have included. *)
Theorem answers_matter_only_on_question_ids
  (json_loads : string -> result json)
  (sid answers answers' : string) (st : store) (quiz : json) (ua ua' : sdict) :
  dict_get String.eqb sid st = Some quiz ->
  stored_quiz quiz = true ->
  cached_result quiz = Ret None ->
  json_loads answers = Ret (JObj ua) ->
  json_loads answers' = Ret (JObj ua') ->
  (forall q id, In q (questions_of quiz) -> field "id" q = Some (JStr id) ->
                sget id ua = sget id ua') ->
  score_quiz json_loads sid answers st = score_quiz json_loads sid answers' st.
Proof.
  intros Hst Hq Hf Ha Ha' Hagree.
  rewrite (score_quiz_fresh json_loads sid answers st quiz ua Hst Hq Hf Ha).
  rewrite (score_quiz_fresh json_loads sid answers' st quiz ua' Hst Hq Hf Ha').
  assert (E : assessment_of sid quiz ua = assessment_of sid quiz ua').
  { unfold assessment_of.
    rewrite (fold_step_ext ua ua' (questions_of quiz) []); [reflexivity|].
    intros q Hin. apply answered_correctly_ext. intros id Hid.
    now apply (Hagree q). }
  now rewrite E.
Qed.

Lemma answers_matter_only_on_question_ids_witness :
  dict_get String.eqb "s-1" sample_store = Some sample_quiz /\
  stored_quiz sample_quiz = true /\
  cached_result sample_quiz = Ret None /\
  more_loads answers_text = Ret (JObj answers_dict) /\
  more_loads stray_text = Ret (JObj stray_dict) /\
  score_quiz more_loads "s-1" answers_text sample_store
  = score_quiz more_loads "s-1" stray_text sample_store.
Proof.
  do 5 (split; [reflexivity|]).
  apply (answers_matter_only_on_question_ids more_loads "s-1" answers_text stray_text
           sample_store sample_quiz answers_dict stray_dict);
    try reflexivity.
  intros q id Hin Hid. cbn in Hin.
  destruct Hin as [<-|[<-|[<-|[]]]]; injection Hid as <-; reflexivity.
Defined.

(** ** All right and all wrong *)

Lemma count_where_le_length {A : Type} (p : A -> bool) (l : list A) :
  count_where p l <= Z.of_nat (List.length l).
Proof.
  unfold count_where. pose proof (filter_length_le p l). lia.
Qed.

Lemma count_where_and_all {A : Type} (p r : A -> bool) (l : list A) :
  forallb r l = true ->
  count_where (fun x => p x && r x) l = count_where p l.
Proof.
  induction l as [|x l IH]; cbn [forallb]; intros H; [reflexivity|].
  apply andb_prop in H as [Hx Hl].
  rewrite !count_where_cons, IH by exact Hl. now rewrite Hx, andb_true_r.
Qed.

Lemma count_where_and_none {A : Type} (p r : A -> bool) (l : list A) :
  forallb (fun x => negb (r x)) l = true ->
  count_where (fun x => p x && r x) l = 0.
Proof.
  induction l as [|x l IH]; cbn [forallb]; intros H; [reflexivity|].
  apply andb_prop in H as [Hx Hl].
  rewrite count_where_cons, IH by exact Hl.
  destruct (r x); [discriminate|]. now rewrite andb_false_r.
Qed.

Lemma filter_all {A : Type} (p : A -> bool) (l : list A) :
  (forall x, In x l -> p x = true) -> filter p l = l.
Proof.
  induction l as [|x l IH]; cbn [filter]; intros H; [reflexivity|].
  rewrite (H x) by now left. f_equal. apply IH. intros y Hy. apply H. now right.
Qed.

Lemma filter_none {A : Type} (p : A -> bool) (l : list A) :
  (forall x, In x l -> p x = false) -> filter p l = [].
Proof.
  induction l as [|x l IH]; cbn [filter]; intros H; [reflexivity|].
  rewrite (H x) by now left. apply IH. intros y Hy. apply H. now right.
Qed.

(** The counts of an item of [topics_scores] after the first loop. *)
Lemma fresh_item (quiz : json) (ua : sdict) (item : json * tally) :
  stored_quiz quiz = true ->
  In item (fold_left (step ua) (questions_of quiz) []) ->
  exists s, fst item = JStr s /\
    total (snd item) = count_where (on_topic s) (questions_of quiz) /\
    correct (snd item)
    = count_where (fun q => on_topic s q && answered_correctly ua q) (questions_of quiz) /\
    1 <= total (snd item).
Proof.
  intros Hq Hin.
  assert (He : In (entry_of item) (topics_assessed (assessment_of EmptyString quiz ua))).
  { cbn [assessment_of topics_assessed]. now apply in_map. }
  destruct (fresh_entry EmptyString quiz ua Hq _ He) as (s & v & _ & E & T & C).
  destruct (fresh_entry_bounds EmptyString quiz ua Hq _ He) as [_ B].
  unfold entry_of in E. cbn [fst snd] in E.
  injection E as E1 _ _ E2 E3.
  cbn [entry_of questions_total] in B.
  exists s. rewrite E2, E3. rewrite E3 in B. auto.
Qed.

Lemma fresh_proficient (quiz : json) (ua : sdict) (item : json * tally) :
  stored_quiz quiz = true ->
  (List.length (questions_of quiz) <= 200)%nat ->
  In item (fold_left (step ua) (questions_of quiz) []) ->
  proficient item = (7 * total (snd item) <=? 10 * correct (snd item))%Z.
Proof.
  intros Hq Hn Hin.
  destruct (fresh_item quiz ua item Hq Hin) as (s & _ & T & C & B).
  unfold proficient. apply threshold_small.
  - rewrite C, T. split; [apply count_where_nonneg|apply count_where_and_le].
  - split; [lia|]. rewrite T.
    pose proof (count_where_le_length (on_topic s) (questions_of quiz)). lia.
Qed.

(** X5. For a quiz of at most 200 questions scored for the first time:
    when every question is answered with its correct label, no topic is a
    focus area and every topic is a skip area; when no question is, every
    topic is a focus area and none a skip area. *)
Theorem all_right_and_all_wrong
  (json_loads : string -> result json)
  (sid answers : string) (st : store) (quiz : json) (ua : sdict) :
  dict_get String.eqb sid st = Some quiz ->
  stored_quiz quiz = true ->
  cached_result quiz = Ret None ->
  json_loads answers = Ret (JObj ua) ->
  (List.length (questions_of quiz) <= 200)%nat ->
  exists a,
    fst (score_quiz json_loads sid answers st) = Ret (assessment_to_json a) /\
    (forallb (answered_correctly ua) (questions_of quiz) = true ->
     focus_areas a = [] /\ skip_areas a = map topic (topics_assessed a)) /\
    (forallb (fun q => negb (answered_correctly ua q)) (questions_of quiz) = true ->
     skip_areas a = [] /\ focus_areas a = map topic (topics_assessed a)).
Proof.
  intros Hst Hq Hf Ha Hn. exists (assessment_of sid quiz ua).
  split; [now apply (fresh_result json_loads sid answers st quiz ua)|].
  cbn [assessment_of focus_areas skip_areas topics_assessed].
  rewrite entries_topic.
  set (ts := fold_left (step ua) (questions_of quiz) []).
  split; intros Hall.
  - assert (P : forall item, In item ts -> proficient item = true).
    { intros item Hin.
      rewrite (fresh_proficient quiz ua item Hq Hn Hin).
      destruct (fresh_item quiz ua item Hq Hin) as (s & _ & T & C & B).
      rewrite C, count_where_and_all, <- T by exact Hall.
      apply Z.leb_le. lia. }
    rewrite (filter_all proficient ts P).
    rewrite (filter_none (fun e => negb (proficient e)) ts); [auto|].
    intros item Hin. now rewrite (P item Hin).
  - assert (P : forall item, In item ts -> proficient item = false).
    { intros item Hin.
      rewrite (fresh_proficient quiz ua item Hq Hn Hin).
      destruct (fresh_item quiz ua item Hq Hin) as (s & _ & T & C & B).
      rewrite C, count_where_and_none by exact Hall.
      apply Z.leb_gt. lia. }
    rewrite (filter_none proficient ts P).
    rewrite (filter_all (fun e => negb (proficient e)) ts); [auto|].
    intros item Hin. now rewrite (P item Hin).
Qed.

Lemma all_right_and_all_wrong_witness :
  dict_get String.eqb "s-1" sample_store = Some sample_quiz /\
  stored_quiz sample_quiz = true /\
  cached_result sample_quiz = Ret None /\
  more_loads perfect_text = Ret (JObj perfect_dict) /\
  (List.length (questions_of sample_quiz) <= 200)%nat /\
  exists a,
    fst (score_quiz more_loads "s-1" perfect_text sample_store)
    = Ret (assessment_to_json a) /\
    (forallb (answered_correctly perfect_dict) (questions_of sample_quiz) = true ->
     focus_areas a = [] /\ skip_areas a = map topic (topics_assessed a)) /\
    (forallb (fun q => negb (answered_correctly perfect_dict q))
       (questions_of sample_quiz) = true ->
     skip_areas a = [] /\ focus_areas a = map topic (topics_assessed a)).
Proof.
  do 4 (split; [reflexivity|]). split; [cbn; lia|].
  apply (all_right_and_all_wrong more_loads "s-1" perfect_text sample_store
           sample_quiz perfect_dict); try reflexivity.
  cbn. lia.
Defined.

(** ** The order of the questions *)

Lemma count_where_perm {A : Type} (p : A -> bool) (l l' : list A) :
  Permutation l l' -> count_where p l = count_where p l'.
Proof.
  induction 1 as [|x l l' _ IH|x y l|l l' l'' _ IH1 _ IH2].
  - reflexivity.
  - now rewrite !count_where_cons, IH.
  - rewrite !count_where_cons. lia.
  - congruence.
Qed.

Lemma Permutation_filter {A : Type} (p : A -> bool) (l l' : list A) :
  Permutation l l' -> Permutation (filter p l) (filter p l').
Proof.
  induction 1 as [|x l l' _ IH|x y l|l l' l'' _ IH1 _ IH2]; cbn [filter].
  - constructor.
  - destruct (p x); [now constructor|exact IH].
  - destruct (p x), (p y); try apply Permutation_refl. constructor.
  - eapply Permutation_trans; eauto.
Qed.

Lemma score_topics_stored (json_loads : string -> result json)
      (quiz : json) (answers : string) (ua : sdict) :
  stored_quiz quiz = true ->
  json_loads answers = Ret (JObj ua) ->
  score_topics json_loads quiz answers
  = Ret (let ts := fold_left (step ua) (questions_of quiz) [] in
         mkScoring (map entry_of ts) (ratio (sum_correct ts) (sum_total ts))
           (map fst (filter (fun e => negb (proficient e)) ts))
           (map fst (filter proficient ts))).
Proof.
  intros Hq Hl.
  destruct (stored_quiz_questions quiz Hq) as (d & -> & Hqs & Hall).
  unfold score_topics. rewrite Hl. cbn [bind].
  unfold py_get. rewrite Hqs. cbn [bind py_iter].
  rewrite foldM_stored by exact Hall. cbn [bind].
  rewrite fold_assess. cbn [app].
  rewrite entries_correct, entries_total. reflexivity.
Qed.

Lemma fresh_items_as_map (quiz : json) (ua : sdict) :
  stored_quiz quiz = true ->
  fold_left (step ua) (questions_of quiz) []
  = map (fun k => (k, tally_of ua (questions_of quiz) k))
        (map fst (fold_left (step ua) (questions_of quiz) [])).
Proof.
  intros Hq. rewrite map_map.
  rewrite <- (map_id (fold_left (step ua) (questions_of quiz) [])) at 1.
  apply map_ext_in. intros item Hin.
  destruct (fresh_item quiz ua item Hq Hin) as (s & K & T & C & _).
  destruct item as [k [c t]]. cbn [fst snd correct total] in *. subst k.
  cbn [tally_of]. now rewrite <- T, <- C.
Qed.

(** X6. The order of the questions of a quiz does not matter to its
    scores: two stored quizzes with the same questions in different orders
    get, for the same answers, the same [overall_knowledge] and the same
    topic entries, focus areas and skip areas, up to the order in which
    the topics are listed. *)
Theorem question_order_is_immaterial
  (json_loads : string -> result json) (quiz quiz' : json) (answers : string)
  (ua : sdict) :
  stored_quiz quiz = true ->
  stored_quiz quiz' = true ->
  json_loads answers = Ret (JObj ua) ->
  Permutation (questions_of quiz) (questions_of quiz') ->
  exists s s',
    score_topics json_loads quiz answers = Ret s /\
    score_topics json_loads quiz' answers = Ret s' /\
    sc_overall s = sc_overall s' /\
    Permutation (sc_assessed s) (sc_assessed s') /\
    Permutation (sc_focus s) (sc_focus s') /\
    Permutation (sc_skip s) (sc_skip s').
Proof.
  intros Hq Hq' Hl Hp.
  eexists. eexists.
  split; [apply (score_topics_stored json_loads quiz answers ua Hq Hl)|].
  split; [apply (score_topics_stored json_loads quiz' answers ua Hq' Hl)|].
  set (qs := questions_of quiz) in *. set (qs' := questions_of quiz') in *.
  set (ts := fold_left (step ua) qs []). set (ts' := fold_left (step ua) qs' []).
  cbv zeta. cbn [sc_overall sc_assessed sc_focus sc_skip].
  assert (Hts : Permutation ts ts').
  { unfold ts, ts', qs, qs'.
    rewrite (fresh_items_as_map quiz ua Hq), (fresh_items_as_map quiz' ua Hq').
    fold qs qs' ts ts'.
    assert (G : forall k, (k, tally_of ua qs k) = (k, tally_of ua qs' k)).
    { intros k. destruct k; try reflexivity. cbn [tally_of].
      now rewrite (count_where_perm _ qs qs' Hp),
                  (count_where_perm (on_topic s) qs qs' Hp). }
    rewrite (map_ext _ _ G). apply Permutation_map.
    destruct (fresh_keys quiz ua Hq) as [N1 I1].
    destruct (fresh_keys quiz' ua Hq') as [N2 I2].
    fold qs ts in N1, I1. fold qs' ts' in N2, I2.
    apply NoDup_Permutation; auto.
    intros k. rewrite I1, I2.
    split; apply Permutation_in; [|apply Permutation_sym]; now apply Permutation_map. }
  split; [|split; [|split]].
  - destruct (fold_step_sums ua qs [] (fresh_questions quiz Hq)) as [T1 C1].
    destruct (fold_step_sums ua qs' [] (fresh_questions quiz' Hq')) as [T2 C2].
    fold ts in T1, C1. fold ts' in T2, C2.
    rewrite T1, C1, T2, C2.
    now rewrite (count_where_perm _ qs qs' Hp), (Permutation_length Hp).
  - now apply Permutation_map.
  - now apply Permutation_map, Permutation_filter.
  - now apply Permutation_map, Permutation_filter.
Qed.

Lemma question_order_is_immaterial_witness :
  stored_quiz sample_quiz = true /\
  stored_quiz reversed_quiz = true /\
  sample_loads answers_text = Ret (JObj answers_dict) /\
  Permutation (questions_of sample_quiz) (questions_of reversed_quiz) /\
  exists s s',
    score_topics sample_loads sample_quiz answers_text = Ret s /\
    score_topics sample_loads reversed_quiz answers_text = Ret s' /\
    sc_overall s = sc_overall s' /\
    Permutation (sc_assessed s) (sc_assessed s') /\
    Permutation (sc_focus s) (sc_focus s') /\
    Permutation (sc_skip s) (sc_skip s').
Proof.
  do 3 (split; [reflexivity|]).
  assert (P : Permutation (questions_of sample_quiz) (questions_of reversed_quiz))
    by apply Permutation_rev.
  split; [exact P|].
  apply (question_order_is_immaterial sample_loads sample_quiz reversed_quiz
           answers_text answers_dict); try reflexivity.
  exact P.
Defined.

(** ** Edge cases of the payload and of the stored questions *)

Lemma tget_ensured (t : string) (ts : topics_scores) :
  tget (JStr t)
    (if tmem (JStr t) ts then ts else (ts ++ [(JStr t, mkTally 0 0)])%list)
  = Some (match tget (JStr t) ts with Some x => x | None => mkTally 0 0 end).
Proof.
  unfold tmem, dict_mem. fold (tget (JStr t) ts).
  destruct (tget (JStr t) ts) as [x|] eqn:E; auto.
  rewrite tget_app, E. now rewrite key_eqb_str_refl.
Qed.

(** X7. A stored question that has no [correct] field and whose id the
    payload does not answer (or answers with null) is counted as correct:
    the comparison of line 35 is then [None == None]. *)
Theorem unanswered_keyless_question_counts_as_correct
  (ua : sdict) (ts : topics_scores) (d : sdict) (id t : string) :
  sget "id" d = Some (JStr id) ->
  sget "correct" d = None ->
  topic_of (JObj d) = JStr t ->
  sget id ua = None \/ sget id ua = Some JNull ->
  exists ts',
    tally_question (JObj ua) ts (JObj d) = Ret ts' /\
    total_for (JStr t) ts' = total_for (JStr t) ts + 1 /\
    correct_for (JStr t) ts' = correct_for (JStr t) ts + 1.
Proof.
  intros Hid Hc Ht Hua.
  assert (G : py_get (JObj d) "topic" (JStr "General") = Ret (JStr t))
    by (rewrite <- Ht; reflexivity).
  assert (A : given <- py_get_key ua (JStr id) ;; Ret given = Ret JNull).
  { cbn [py_get_key bind]. destruct Hua as [-> | ->]; reflexivity. }
  eexists. split.
  - unfold tally_question. rewrite G. cbn [bind hashable negb].
    unfold py_getitem. rewrite Hid. cbn [bind].
    cbn [py_get_key bind] in *.
    destruct Hua as [E|E]; rewrite E; cbn [bind];
      unfold py_get; rewrite Hc; cbn [bind]; reflexivity.
  - unfold total_for, correct_for.
    rewrite !tget_update_same, tget_ensured.
    destruct (tget (JStr t) ts); cbn; split; lia.
Qed.

Lemma unanswered_keyless_question_counts_as_correct_witness :
  sget "id" keyless_question_dict = Some (JStr "k1") /\
  sget "correct" keyless_question_dict = None /\
  topic_of (JObj keyless_question_dict) = JStr "General" /\
  (sget "k1" [] = None \/ sget "k1" [] = Some JNull) /\
  exists ts',
    tally_question (JObj []) [] (JObj keyless_question_dict) = Ret ts' /\
    total_for (JStr "General") ts' = total_for (JStr "General") [] + 1 /\
    correct_for (JStr "General") ts' = correct_for (JStr "General") [] + 1.
Proof.
  do 3 (split; [reflexivity|]). split; [now left|].
  apply (unanswered_keyless_question_counts_as_correct [] [] keyless_question_dict
           "k1" "General"); try reflexivity.
  now left.
Defined.

(** A quiz of one such question, scored with the empty payload, gets the
    overall knowledge 1.0. *)
Example keyless_quiz_scores_full :
  exists r,
    fst (score_quiz more_loads "s-k" blank_text edge_store) = Ret r /\
    field "overall_knowledge" r = Some (JFloat (Z2SF 1)).
Proof. eexists. split; vm_compute; reflexivity. Qed.

(** X8. A stored quiz without questions is scored, and thereby locked, by
    any payload that decodes, a list or a number as well as a dictionary:
    the result has no topics and the int 0 as [overall_knowledge], and the
    session then holds it as its cached result. *)
Theorem empty_quiz_accepts_any_payload
  (json_loads : string -> result json)
  (sid answers : string) (st : store) (d : sdict) (v : json) :
  dict_get String.eqb sid st = Some (JObj d) ->
  cached_result (JObj d) = Ret None ->
  sget "questions" d = None \/ sget "questions" d = Some (JArr []) ->
  json_loads answers = Ret v ->
  let r := assessment_to_json (result_of sid (title_of (JObj d)) no_scores) in
  fst (score_quiz json_loads sid answers st) = Ret r /\
  has_cached sid r (snd (score_quiz json_loads sid answers st)).
Proof.
  intros Hst Hf Hqs Hl r.
  assert (S : score_topics json_loads (JObj d) answers = Ret no_scores).
  { unfold score_topics. rewrite Hl. cbn [bind]. unfold py_get.
    destruct Hqs as [E|E]; rewrite E; reflexivity. }
  destruct (score_quiz_first json_loads sid answers st d no_scores Hst Hf S) as [_ E].
  rewrite E. cbn [fst snd]. split; [reflexivity|].
  exists (mark_scored (JObj d) r). split.
  - apply store_get_set_same.
  - now apply cached_after_mark.
Qed.

Lemma empty_quiz_accepts_any_payload_witness :
  dict_get String.eqb "s-0" edge_store = Some (JObj (quiz_dict [])) /\
  cached_result (JObj (quiz_dict [])) = Ret None /\
  (sget "questions" (quiz_dict []) = None
   \/ sget "questions" (quiz_dict []) = Some (JArr [])) /\
  more_loads list_text = Ret list_value /\
  let r := assessment_to_json
             (result_of "s-0" (title_of (JObj (quiz_dict []))) no_scores) in
  fst (score_quiz more_loads "s-0" list_text edge_store) = Ret r /\
  has_cached "s-0" r (snd (score_quiz more_loads "s-0" list_text edge_store)).
Proof.
  do 2 (split; [reflexivity|]). split; [now right|]. split; [reflexivity|].
  apply (empty_quiz_accepts_any_payload more_loads "s-0" list_text edge_store
           (quiz_dict []) list_value); try reflexivity.
  now right.
Defined.

(** X9. When the payload decodes to something that is not a dictionary and
    the quiz has a first question that is a dictionary with a hashable
    topic, the call raises [AttributeError] and the store stays as it
    was: the session can still be scored. *)
Theorem non_dictionary_payload_raises
  (json_loads : string -> result json)
  (sid answers : string) (st : store) (d dq : sdict) (rest : list json) (v : json) :
  dict_get String.eqb sid st = Some (JObj d) ->
  cached_result (JObj d) = Ret None ->
  sget "questions" d = Some (JArr (JObj dq :: rest)) ->
  hashable (topic_of (JObj dq)) = true ->
  json_loads answers = Ret v ->
  is_obj v = false ->
  score_quiz json_loads sid answers st = (Raise AttributeError, st).
Proof.
  intros Hst Hf Hqs Hh Hl Hv.
  assert (S : score_topics json_loads (JObj d) answers = Raise AttributeError).
  { unfold score_topics. rewrite Hl. cbn [bind]. unfold py_get at 1.
    rewrite Hqs. cbn [bind py_iter foldM].
    assert (T : tally_question v [] (JObj dq) = Raise AttributeError).
    { unfold tally_question.
      change (py_get (JObj dq) "topic" (JStr "General")) with (Ret (topic_of (JObj dq))).
      cbn [bind]. rewrite Hh. cbn [negb].
      destruct v; try reflexivity. discriminate. }
    now rewrite T. }
  unfold score_quiz, mbind, pure, mret. now rewrite Hst, Hf, S.
Qed.

Lemma non_dictionary_payload_raises_witness :
  dict_get String.eqb "s-1" sample_store
  = Some (JObj (quiz_dict [question "q1" (Some "A") "A"; question "q2" (Some "A") "B";
                           question "q3" (Some "B") "C"])) /\
  more_loads list_text = Ret list_value /\
  is_obj list_value = false /\
  score_quiz more_loads "s-1" list_text sample_store = (Raise AttributeError, sample_store).
Proof.
  do 3 (split; [reflexivity|]).
  apply (non_dictionary_payload_raises more_loads "s-1" list_text sample_store
           (quiz_dict [question "q1" (Some "A") "A"; question "q2" (Some "A") "B";
                       question "q3" (Some "B") "C"])
           [("id", JStr "q1"); ("topic", JStr "A"); ("question", JStr "Which one?");
            ("options", options_abcd); ("correct", JStr "A")]
           [question "q2" (Some "A") "B"; question "q3" (Some "B") "C"] list_value);
    reflexivity.
Defined.

(* ================================================================= *)
(** * Further properties of the generator *)

Lemma generate_quiz_stores
  (json_loads : string -> result json)
  (ask_quiz : string -> string -> Z -> result string)
  (content content_type : string) (num_questions : Z) (sid : string) (st : store)
  (text : string) (d : sdict) (raw stored : list json) :
  ask_quiz content content_type num_questions = Ret text ->
  json_loads text = Ret (JObj d) ->
  sget "questions" d = Some (JArr raw) ->
  mapM normalize_question raw = Ret stored ->
  generate_quiz json_loads ask_quiz content content_type num_questions sid st
  = (quiz_view sid (JObj (sset "questions" (JArr stored) d)),
     dict_set String.eqb sid (JObj (sset "questions" (JArr stored) d)) st).
Proof.
  intros Hask Hload Hqs Hn.
  unfold generate_quiz. rewrite Hask. cbn [bind]. rewrite Hload. cbn [bind].
  unfold normalize_quiz, py_get. cbn [bind]. rewrite Hqs. cbn [py_iter bind].
  rewrite Hn. cbn [bind]. now rewrite smem_sget, Hqs.
Qed.

Lemma normalize_schema_questions (raw : list json) :
  forallb schema_raw_question raw = true ->
  exists stored, mapM normalize_question raw = Ret stored /\
                 forallb stored_question stored = true /\
                 List.length stored = List.length raw.
Proof.
  induction raw as [|q raw IH]; cbn [forallb]; intros H.
  - exists []. auto.
  - apply andb_prop in H as [Hq Hraw].
    destruct (IH Hraw) as (stored & E & S & L).
    destruct q as [| | | | | |dq]; try discriminate.
    destruct (normalize_question_obj dq) as (d' & En & N1 & N2 & N3).
    exists (JObj d' :: stored). cbn [mapM]. rewrite En. cbn [bind]. rewrite E.
    cbn [bind forallb List.length]. split; [reflexivity|]. split; [|now rewrite L].
    rewrite S, andb_true_r.
    cbn [schema_raw_question] in Hq.
    apply andb_prop in Hq as [Hq Hc]. apply andb_prop in Hq as [Hi Ht].
    unfold field in N1, N3. cbn [stored_question].
    rewrite (N3 "id"), (N3 "topic"), Hi, Ht by discriminate.
    destruct (sget "correct_answer" dq) as [v|]; [|discriminate].
    now rewrite (N1 v eq_refl).
Qed.

(** X10. A quiz generated from a reply that follows the generation schema
    can be scored at once: for every payload that decodes to a dictionary,
    [score_quiz] on the new session returns an assessment, not the error
    dictionary, for that session id, and its totals add up to the number
    of generated questions. *)
Theorem generated_quiz_can_be_scored
  (json_loads : string -> result json)
  (ask_quiz : string -> string -> Z -> result string)
  (content content_type : string) (num_questions : Z) (sid : string) (st : store)
  (text : string) (d : sdict) (raw : list json) (answers : string) (ua : sdict) :
  ask_quiz content content_type num_questions = Ret text ->
  json_loads text = Ret (JObj d) ->
  sget "questions" d = Some (JArr raw) ->
  forallb schema_raw_question raw = true ->
  sget "_scored" d = None ->
  json_loads answers = Ret (JObj ua) ->
  let st' :=
    snd (generate_quiz json_loads ask_quiz content content_type num_questions sid st) in
  exists a,
    fst (score_quiz json_loads sid answers st') = Ret (assessment_to_json a) /\
    session_id a = sid /\
    sumZ (map questions_total (topics_assessed a)) = Z.of_nat (List.length raw).
Proof.
  intros Hask Hload Hqs Hschema Hflag Hans st'.
  destruct (normalize_schema_questions raw Hschema) as (stored & En & Hs & Hlen).
  set (quiz := JObj (sset "questions" (JArr stored) d)).
  assert (Hst : dict_get String.eqb sid st' = Some quiz).
  { unfold st'.
    rewrite (generate_quiz_stores json_loads ask_quiz content content_type
               num_questions sid st text d raw stored Hask Hload Hqs En).
    cbn [snd]. apply store_get_set_same. }
  assert (Hq : stored_quiz quiz = true).
  { unfold quiz. cbn [stored_quiz]. now rewrite sget_sset_same. }
  assert (Hf : cached_result quiz = Ret None).
  { unfold quiz, cached_result, py_get.
    rewrite sget_sset_other by discriminate. now rewrite Hflag. }
  assert (Hqs' : questions_of quiz = stored).
  { unfold quiz, questions_of, field. now rewrite sget_sset_same. }
  exists (assessment_of sid quiz ua).
  split; [exact (fresh_result json_loads sid answers st' quiz ua Hst Hq Hf Hans)|].
  split; [reflexivity|].
  cbn [assessment_of topics_assessed]. rewrite entries_total.
  destruct (fold_step_sums ua (questions_of quiz) [] (fresh_questions quiz Hq)) as [T _].
  unfold sum_total in T. rewrite T, Hqs', Hlen. reflexivity.
Qed.

Lemma generated_quiz_can_be_scored_witness :
  sample_ask_quiz "content" "text" 3 = Ret quiz_reply_text /\
  sample_loads quiz_reply_text
  = Ret (JObj (quiz_dict [raw_question "q1" (Some "A") "A";
                          raw_question "q2" (Some "A") "B";
                          raw_question "q3" (Some "B") "C"])) /\
  sample_loads answers_text = Ret (JObj answers_dict) /\
  let st' :=
    snd (generate_quiz sample_loads sample_ask_quiz "content" "text" 3 "s-new"
           sample_store) in
  exists a,
    fst (score_quiz sample_loads "s-new" answers_text st') = Ret (assessment_to_json a) /\
    session_id a = "s-new" /\
    sumZ (map questions_total (topics_assessed a)) = Z.of_nat 3.
Proof.
  do 3 (split; [reflexivity|]).
  apply (generated_quiz_can_be_scored sample_loads sample_ask_quiz "content" "text" 3
           "s-new" sample_store quiz_reply_text
           (quiz_dict [raw_question "q1" (Some "A") "A";
                       raw_question "q2" (Some "A") "B";
                       raw_question "q3" (Some "B") "C"])
           [raw_question "q1" (Some "A") "A"; raw_question "q2" (Some "A") "B";
            raw_question "q3" (Some "B") "C"] answers_text answers_dict);
    reflexivity.
Defined.

(** X11. A generation writes to the store at most the entry of its own
    session id: every other session stays as it was, a generation that
    returns leaves its session in the store, and when the model call, the
    decoding of the reply or the normalization loop raises, the store is
    not written at all. *)
Theorem generation_writes_one_session
  (json_loads : string -> result json)
  (ask_quiz : string -> string -> Z -> result string)
  (content content_type : string) (num_questions : Z) (sid : string) (st : store) :
  let run := generate_quiz json_loads ask_quiz content content_type num_questions sid st in
  (forall sid', sid' <> sid ->
     dict_get String.eqb sid' (snd run) = dict_get String.eqb sid' st) /\
  (forall v, fst run = Ret v -> dict_mem String.eqb sid (snd run) = true) /\
  (forall e,
     (text <- ask_quiz content content_type num_questions ;;
      reply <- json_loads text ;; normalize_quiz reply) = Raise e ->
     run = (Raise e, st)).
Proof.
  intros run. unfold run, generate_quiz.
  destruct (text <- ask_quiz content content_type num_questions ;;
            reply <- json_loads text ;; normalize_quiz reply) as [quiz|e0].
  - cbn [fst snd]. split; [|split].
    + intros sid' N. now apply store_get_set_other.
    + intros v _. unfold dict_mem. now rewrite store_get_set_same.
    + discriminate.
  - cbn [fst snd]. split; [|split]; auto.
    + discriminate.
    + intros e H. now injection H as <-.
Qed.

Lemma sanitize_not_all_obj (l : list json) :
  forallb is_obj l = false -> mapM sanitize_question l = Raise AttributeError.
Proof.
  induction l as [|q l IH]; cbn [forallb mapM]; [discriminate|].
  destruct q; cbn [is_obj sanitize_question bind andb]; try reflexivity.
  intros H. now rewrite (IH H).
Qed.

Lemma normalize_passing (raw : list json) :
  forallb passes_normalization raw = true ->
  exists stored, mapM normalize_question raw = Ret stored /\
                 forallb is_obj stored = forallb is_obj raw.
Proof.
  induction raw as [|q raw IH]; cbn [forallb]; intros H.
  - exists []. auto.
  - apply andb_prop in H as [Hq Hraw].
    destruct (IH Hraw) as (stored & E & S).
    destruct q as [| | | |s| |dq]; try discriminate.
    + exists (JStr s :: stored). cbn [mapM].
      unfold normalize_question at 1. cbn [py_in bind].
      cbn [passes_normalization] in Hq.
      destruct (contains "correct_answer" s); [discriminate|].
      cbn [bind]. rewrite E. cbn [bind forallb is_obj]. auto.
    + destruct (normalize_question_obj dq) as (d' & En & _).
      exists (JObj d' :: stored). cbn [mapM]. rewrite En. cbn [bind]. rewrite E.
      cbn [bind forallb is_obj]. auto.
Qed.

(** X12. A generation can raise and still leave its session behind: when
    the questions of the reply are objects and plain strings, with at
    least one string, the normalization loop passes, the quiz is stored
    under the new session id, and building the view then raises
    [AttributeError]. *)
Theorem failed_view_leaves_the_session
  (json_loads : string -> result json)
  (ask_quiz : string -> string -> Z -> result string)
  (content content_type : string) (num_questions : Z) (sid : string) (st : store)
  (text : string) (d : sdict) (raw : list json) :
  ask_quiz content content_type num_questions = Ret text ->
  json_loads text = Ret (JObj d) ->
  sget "questions" d = Some (JArr raw) ->
  forallb passes_normalization raw = true ->
  forallb is_obj raw = false ->
  let run := generate_quiz json_loads ask_quiz content content_type num_questions sid st in
  fst run = Raise AttributeError /\
  exists quiz, dict_get String.eqb sid (snd run) = Some quiz /\
               exists stored, field "questions" quiz = Some (JArr stored) /\
                              List.length stored = List.length raw.
Proof.
  intros Hask Hload Hqs Hpass Hobj run.
  destruct (normalize_passing raw Hpass) as (stored & En & S).
  unfold run.
  rewrite (generate_quiz_stores json_loads ask_quiz content content_type
             num_questions sid st text d raw stored Hask Hload Hqs En).
  cbn [fst snd]. split.
  - unfold quiz_view, py_get. rewrite sget_sset_same. cbn [bind py_iter].
    rewrite sanitize_not_all_obj by congruence. reflexivity.
  - eexists. split; [apply store_get_set_same|].
    exists stored. unfold field. rewrite sget_sset_same. split; [reflexivity|].
    apply mapM_ret_Forall2 in En. symmetry. eapply Forall2_length; eauto.
Qed.

Lemma failed_view_leaves_the_session_witness :
  loose_ask_quiz "content" "text" 3 = Ret loose_reply_text /\
  edge_loads loose_reply_text = Ret (JObj loose_reply_dict) /\
  sget "questions" loose_reply_dict = Some (JArr loose_questions) /\
  forallb passes_normalization loose_questions = true /\
  forallb is_obj loose_questions = false /\
  let run := generate_quiz edge_loads loose_ask_quiz "content" "text" 3 "s-new"
               sample_store in
  fst run = Raise AttributeError /\
  exists quiz, dict_get String.eqb "s-new" (snd run) = Some quiz /\
               exists stored, field "questions" quiz = Some (JArr stored) /\
                              List.length stored = List.length loose_questions.
Proof.
  do 5 (split; [reflexivity|]).
  apply (failed_view_leaves_the_session edge_loads loose_ask_quiz "content" "text" 3
           "s-new" sample_store loose_reply_text loose_reply_dict loose_questions);
    reflexivity.
Defined.

(* ================================================================= *)
(** * Further properties of the organizer *)

Lemma organize_content_unfold
  (json_loads : string -> result json) (int_of_str : string -> result Z)
  (ask_organizer :
     string -> string -> string -> string -> option assessment_section -> result string)
  (content content_type url assessment_json existing_subjects : string) :
  organize_content json_loads int_of_str ask_organizer
    content content_type url assessment_json existing_subjects
  = (assessment <- (if String.eqb assessment_json "" then Ret (JObj [])
                    else json_loads assessment_json) ;;
     progress <- progress_of int_of_str assessment ;;
     section <- (if truthy assessment then
                   focus_field <- py_get assessment "focus_areas" (JArr []) ;;
                   focus <- py_join focus_field ;;
                   skip_field <- py_get assessment "skip_areas" (JArr []) ;;
                   skip <- py_join skip_field ;;
                   Ret (Some (mkSection progress focus skip (status_of progress)))
                 else Ret None) ;;
     text <- ask_organizer content content_type url existing_subjects section ;;
     reply <- json_loads text ;;
     override reply progress).
Proof. reflexivity. Qed.

Lemma override_ok (d : sdict) (p : Z) :
  node_ok (sget "content_node" d) = true ->
  exists org, override (JObj d) p = Ret org /\
              field "progressPercent" (node_of org) = Some (JInt p) /\
              field "status" (node_of org) = Some (JStr (status_of p)).
Proof.
  intros Hnode. unfold override, py_in. cbn [bind]. rewrite smem_sget.
  unfold node_ok in Hnode.
  destruct (sget "content_node" d) as [n|] eqn:En.
  - destruct n; try discriminate.
    unfold py_getitem. rewrite En. cbn [bind].
    destruct (set_progress_fields d0 p) as (d' & E & P1 & P2 & _).
    rewrite E. cbn [bind]. eexists. split; [reflexivity|].
    unfold node_of. rewrite sget_sset_same. unfold field. auto.
  - destruct (set_progress_fields d p) as (d' & E & P1 & P2 & P3).
    rewrite E. eexists. split; [reflexivity|].
    unfold node_of. rewrite P3 by discriminate. rewrite En. unfold field. auto.
Qed.

Lemma status_of_cases (p : Z) :
  (status_of p = "completed" <-> 100 <= p) /\
  (status_of p = "not_started" <-> p <= 0).
Proof.
  unfold status_of.
  destruct (100 <=? p)%Z eqn:A; [apply Z.leb_le in A|apply Z.leb_gt in A];
    (destruct (0 <? p)%Z eqn:B; [apply Z.ltb_lt in B|apply Z.ltb_ge in B]);
    (split; split; intros H; try discriminate; try reflexivity; lia).
Qed.

(** X13. Without an assessment (the empty string), the model is asked
    without an assessment section and the organization returned has
    [progressPercent] 0 and [status] not_started, whatever the reply
    proposed for them. *)
Theorem organizer_without_assessment
  (json_loads : string -> result json) (int_of_str : string -> result Z)
  (ask_organizer :
     string -> string -> string -> string -> option assessment_section -> result string)
  (content content_type url existing_subjects : string) (text : string) (d : sdict) :
  ask_organizer content content_type url existing_subjects None = Ret text ->
  json_loads text = Ret (JObj d) ->
  node_ok (sget "content_node" d) = true ->
  exists org,
    organize_content json_loads int_of_str ask_organizer
      content content_type url "" existing_subjects = Ret org /\
    field "progressPercent" (node_of org) = Some (JInt 0) /\
    field "status" (node_of org) = Some (JStr "not_started").
Proof.
  intros Hask Hreply Hnode.
  destruct (override_ok d 0 Hnode) as (org & E & P1 & P2).
  exists org. rewrite organize_content_unfold.
  cbn [String.eqb bind truthy]. unfold progress_of, py_get.
  cbn [bind sget dict_get py_mul100 py_int Z.mul].
  rewrite Hask. cbn [bind]. rewrite Hreply. cbn [bind]. auto.
Qed.

Lemma organizer_without_assessment_witness :
  sample_ask_organizer "content" "text" "" "" None = Ret organizer_reply_text /\
  sample_loads organizer_reply_text = Ret (JObj organizer_reply_dict) /\
  node_ok (sget "content_node" organizer_reply_dict) = true /\
  exists org,
    organize_content sample_loads sample_int_of_str sample_ask_organizer
      "content" "text" "" "" "" = Ret org /\
    field "progressPercent" (node_of org) = Some (JInt 0) /\
    field "status" (node_of org) = Some (JStr "not_started").
Proof.
  do 3 (split; [reflexivity|]).
  apply (organizer_without_assessment sample_loads sample_int_of_str
           sample_ask_organizer "content" "text" "" "" organizer_reply_text
           organizer_reply_dict); reflexivity.
Defined.

Lemma set_progress_ret (j : json) (p : Z) (j' : json) :
  set_progress j p = Ret j' ->
  exists d, j = JObj d /\
            j' = JObj (sset "status" (JStr (status_of p))
                         (sset "progressPercent" (JInt p) d)).
Proof.
  destruct j; cbn [set_progress]; try discriminate.
  intros H. injection H as <-. eauto.
Qed.

Lemma override_ret (reply : json) (p : Z) (org : json) :
  override reply p = Ret org ->
  exists d, reply = JObj d /\
    field "progressPercent" (node_of org) = Some (JInt p) /\
    field "status" (node_of org) = Some (JStr (status_of p)) /\
    (forall k, k <> "progressPercent" -> k <> "status" ->
               field k (node_of org) = field k (node_of reply)) /\
    (forall k, k <> "content_node" -> k <> "progressPercent" -> k <> "status" ->
               field k org = field k reply).
Proof.
  unfold override. intros H.
  destruct (py_in "content_node" reply) as [nested|] eqn:Ein; cbn [bind] in H;
    [|discriminate].
  destruct nested.
  - destruct (py_getitem reply "content_node") as [cn|] eqn:Eg; cbn [bind] in H;
      [|discriminate].
    destruct (set_progress cn p) as [cn'|] eqn:Es; cbn [bind] in H; [|discriminate].
    destruct reply as [| | | | | |d]; try discriminate.
    injection H as <-. exists d. split; [reflexivity|].
    apply set_progress_ret in Es as (n & -> & ->).
    unfold py_getitem in Eg.
    destruct (sget "content_node" d) as [x|] eqn:En; [|discriminate].
    injection Eg as ->.
    unfold node_of. rewrite sget_sset_same, En. unfold field.
    split; [|split; [|split]].
    + rewrite sget_sset_other by discriminate. apply sget_sset_same.
    + apply sget_sset_same.
    + intros k N1 N2. now rewrite !sget_sset_other.
    + intros k N0 N1 N2. now rewrite sget_sset_other.
  - apply set_progress_ret in H as (d & -> & ->). exists d. split; [reflexivity|].
    cbn [py_in] in Ein. injection Ein as Ein. rewrite smem_sget in Ein.
    destruct (sget "content_node" d) eqn:En; [discriminate|].
    unfold node_of. rewrite !sget_sset_other by discriminate. rewrite En.
    unfold field. split; [|split; [|split]].
    + rewrite sget_sset_other by discriminate. apply sget_sset_same.
    + apply sget_sset_same.
    + intros k N1 N2. now rewrite !sget_sset_other.
    + intros k N0 N1 N2. now rewrite !sget_sset_other.
Qed.

(** X14. Every organization that the organizer returns is the model's
    decoded reply, a dictionary, with [progressPercent] and [status] of
    its content node assigned and nothing else changed: every other field
    of the content node, and every other top-level field, is as the model
    sent it. *)
Theorem organizer_changes_two_fields
  (json_loads : string -> result json) (int_of_str : string -> result Z)
  (ask_organizer :
     string -> string -> string -> string -> option assessment_section -> result string)
  (content content_type url assessment_json existing_subjects : string) (org : json) :
  organize_content json_loads int_of_str ask_organizer
    content content_type url assessment_json existing_subjects = Ret org ->
  exists section text d p,
    ask_organizer content content_type url existing_subjects section = Ret text /\
    json_loads text = Ret (JObj d) /\
    field "progressPercent" (node_of org) = Some (JInt p) /\
    field "status" (node_of org) = Some (JStr (status_of p)) /\
    (forall k, k <> "progressPercent" -> k <> "status" ->
               field k (node_of org) = field k (node_of (JObj d))) /\
    (forall k, k <> "content_node" -> k <> "progressPercent" -> k <> "status" ->
               field k org = field k (JObj d)).
Proof.
  rewrite organize_content_unfold. intros H.
  destruct (if String.eqb assessment_json "" then Ret (JObj [])
            else json_loads assessment_json) as [assessment|];
    cbn [bind] in H; [|discriminate].
  destruct (progress_of int_of_str assessment) as [p|]; cbn [bind] in H;
    [|discriminate].
  match type of H with
  | bind ?m _ = _ => destruct m as [section|]; cbn [bind] in H; [|discriminate]
  end.
  destruct (ask_organizer content content_type url existing_subjects section)
    as [text|] eqn:Eask; cbn [bind] in H; [|discriminate].
  destruct (json_loads text) as [reply|] eqn:Eload; cbn [bind] in H; [|discriminate].
  destruct (override_ret reply p org H) as (d & -> & P).
  exists section, text, d, p. auto.
Qed.

Lemma organizer_changes_two_fields_witness :
  organize_content sample_loads sample_int_of_str sample_ask_organizer
    "content" "text" "" assessment_text "" = Ret sample_organization /\
  exists section text d p,
    sample_ask_organizer "content" "text" "" "" section = Ret text /\
    sample_loads text = Ret (JObj d) /\
    field "progressPercent" (node_of sample_organization) = Some (JInt p) /\
    field "status" (node_of sample_organization) = Some (JStr (status_of p)) /\
    (forall k, k <> "progressPercent" -> k <> "status" ->
               field k (node_of sample_organization) = field k (node_of (JObj d))) /\
    (forall k, k <> "content_node" -> k <> "progressPercent" -> k <> "status" ->
               field k sample_organization = field k (JObj d)).
Proof.
  split; [vm_compute; reflexivity|].
  apply (organizer_changes_two_fields sample_loads sample_int_of_str
           sample_ask_organizer "content" "text" "" assessment_text "").
  vm_compute. reflexivity.
Defined.

(** ** The percentage of a score *)

Lemma percent_table_100 : percent_table 100 = true.
Proof. vm_compute. reflexivity. Qed.

Lemma percent_small (c t : Z) :
  0 <= c <= t -> 1 <= t <= 100 ->
  exists p, percent c t = Ret p /\
            100 * c / t - 1 <= p <= 100 * c / t /\
            (p = 100 <-> c = t) /\ (p = 0 <-> c = 0).
Proof.
  intros Hc Ht.
  pose proof percent_table_100 as T. unfold percent_table in T.
  rewrite forallb_forall in T. specialize (T (Z.to_nat t)).
  rewrite forallb_forall in T.
  assert (A : percent_ok (Z.of_nat (Z.to_nat c)) (Z.of_nat (Z.to_nat t)) = true).
  { apply T; apply in_seq; lia. }
  rewrite !Z2Nat.id in A by lia. unfold percent_ok in A.
  destruct (percent c t) as [p|]; [|discriminate].
  exists p. split; [reflexivity|].
  apply andb_prop in A as [A A4]. apply andb_prop in A as [A A3].
  apply andb_prop in A as [A1 A2].
  apply Z.leb_le in A1. apply Z.leb_le in A2.
  apply Bool.eqb_prop in A3. apply Bool.eqb_prop in A4.
  split; [lia|]. split.
  - rewrite <- Z.eqb_eq, A3. apply Z.eqb_eq.
  - rewrite <- Z.eqb_eq, A4. apply Z.eqb_eq.
Qed.

Lemma progress_tracks_percentage_core
  (int_of_str : string -> result Z) (c t : Z) :
  0 <= c <= t -> 1 <= t <= 100 ->
  exists p,
    progress_of int_of_str (JObj [("overall_knowledge", ratio c t)]) = Ret p /\
    100 * c / t - 1 <= p <= 100 * c / t /\
    (status_of p = "completed" <-> c = t) /\
    (status_of p = "not_started" <-> c = 0).
Proof.
  intros Hc Ht.
  destruct (percent_small c t Hc Ht) as (p & E & B & F & Z0).
  exists p.
  assert (R : progress_of int_of_str (JObj [("overall_knowledge", ratio c t)])
              = percent c t).
  { unfold ratio. assert (H : (0 <? t)%Z = true) by (apply Z.ltb_lt; lia).
    rewrite H. reflexivity. }
  split; [rewrite R; exact E|]. split; [exact B|].
  destruct (status_of_cases p) as [S1 S2].
  assert (U : 100 * c / t <= 100) by (apply Z.div_le_upper_bound; lia).
  assert (L : 0 <= 100 * c / t) by (apply Z.div_pos; lia).
  split.
  - rewrite S1, <- F. lia.
  - rewrite S2, <- Z0.
    split; [|lia]. intros Hp.
    assert (p = 0 \/ p = -1) as [H|H] by lia; [exact H|].
    exfalso. subst p.
    assert (c = 0 \/ 0 < c) as [C|C] by lia; [lia|].
    assert (1 <= 100 * c / t) by (apply Z.div_le_lower_bound; lia). lia.
Qed.

(** X15. For [c] correct answers out of [t] questions, [t] from 1 to 100,
    the progress that line 24 computes from the scorer's
    [overall_knowledge] is the exact percentage [100 * c / t] cut to an
    integer, or one less; the status is completed only when every answer
    is right and not_started only when none is.  The one less happens:
    29 right out of 50, which is 58 percent, gives 57. *)
Theorem progress_tracks_percentage
  (int_of_str : string -> result Z) (c t : Z) :
  0 <= c <= t -> 1 <= t <= 100 ->
  exists p,
    progress_of int_of_str (JObj [("overall_knowledge", ratio c t)]) = Ret p /\
    100 * c / t - 1 <= p <= 100 * c / t /\
    (status_of p = "completed" <-> c = t) /\
    (status_of p = "not_started" <-> c = 0) /\
    progress_of int_of_str (JObj [("overall_knowledge", ratio 29 50)]) = Ret 57.
Proof.
  intros Hc Ht.
  destruct (progress_tracks_percentage_core int_of_str c t Hc Ht)
    as (p & E & B & S1 & S2).
  exists p. repeat (split; [assumption|]).
  vm_compute. reflexivity.
Qed.

Lemma progress_tracks_percentage_witness :
  0 <= 7 <= 10 /\ 1 <= 10 <= 100 /\
  exists p,
    progress_of sample_int_of_str (JObj [("overall_knowledge", ratio 7 10)]) = Ret p /\
    100 * 7 / 10 - 1 <= p <= 100 * 7 / 10 /\
    (status_of p = "completed" <-> 7 = 10) /\
    (status_of p = "not_started" <-> 7 = 0) /\
    progress_of sample_int_of_str (JObj [("overall_knowledge", ratio 29 50)]) = Ret 57.
Proof.
  split; [lia|]. split; [lia|].
  apply (progress_tracks_percentage sample_int_of_str 7 10); lia.
Defined.

(** ** Scoring, then organizing *)

Lemma organize_content_given
  (json_loads : string -> result json) (int_of_str : string -> result Z)
  (ask_organizer :
     string -> string -> string -> string -> option assessment_section -> result string)
  (content content_type url assessment_json existing_subjects : string)
  (a : sdict) (p : Z) (text : string) (d : sdict) :
  assessment_json <> "" ->
  json_loads assessment_json = Ret (JObj a) ->
  a <> [] ->
  progress_of int_of_str (JObj a) = Ret p ->
  joinable (sget "focus_areas" a) = true ->
  joinable (sget "skip_areas" a) = true ->
  (forall section, sec_progress section = p ->
     ask_organizer content content_type url existing_subjects (Some section) = Ret text) ->
  json_loads text = Ret (JObj d) ->
  organize_content json_loads int_of_str ask_organizer
    content content_type url assessment_json existing_subjects
  = override (JObj d) p.
Proof.
  intros Hne Hload Ha Hp Hfocus Hskip Hask Hreply.
  destruct (py_join_field a "focus_areas" Hfocus) as [focus Ef].
  destruct (py_join_field a "skip_areas" Hskip) as [skip Es].
  rewrite organize_content_unfold.
  apply String.eqb_neq in Hne. rewrite Hne, Hload. cbn [bind].
  rewrite Hp. cbn [bind].
  assert (T : truthy (JObj a) = true) by (destruct a; [congruence|reflexivity]).
  rewrite T. unfold py_get. cbn [bind]. rewrite Ef. cbn [bind].
  rewrite Es. cbn [bind]. rewrite Hask by reflexivity. cbn [bind].
  rewrite Hreply. reflexivity.
Qed.

Lemma forallb_is_str_keys (quiz : json) (ua : sdict) (p : json * tally -> bool) :
  stored_quiz quiz = true ->
  forallb is_str
    (map fst (filter p (fold_left (step ua) (questions_of quiz) []))) = true.
Proof.
  intros Hq. apply forallb_forall. intros k Hk.
  apply in_map_iff in Hk as (item & <- & Hin). apply filter_In in Hin as [Hin _].
  destruct (fresh_item quiz ua item Hq Hin) as (s & -> & _). reflexivity.
Qed.

(** X16. Scoring, then organizing: when the assessment that a first
    scoring of a quiz of 1 to 100 questions returns is handed to the
    organizer, the progress of the organization is the exact percentage of
    correctly answered questions cut to an integer, or one less; its
    status is completed exactly when every question was answered
    correctly and not_started exactly when none was. *)
Theorem scored_progress_tracks_answers
  (json_loads : string -> result json) (int_of_str : string -> result Z)
  (ask_organizer :
     string -> string -> string -> string -> option assessment_section -> result string)
  (sid answers : string) (st : store) (quiz : json) (ua : sdict)
  (content content_type url assessment_json existing_subjects : string)
  (text : string) (d : sdict) :
  dict_get String.eqb sid st = Some quiz ->
  stored_quiz quiz = true ->
  cached_result quiz = Ret None ->
  json_loads answers = Ret (JObj ua) ->
  (1 <= List.length (questions_of quiz) <= 100)%nat ->
  assessment_json <> "" ->
  (forall r, fst (score_quiz json_loads sid answers st) = Ret r ->
             json_loads assessment_json = Ret r) ->
  (forall section,
     ask_organizer content content_type url existing_subjects (Some section) = Ret text) ->
  json_loads text = Ret (JObj d) ->
  node_ok (sget "content_node" d) = true ->
  let c := count_where (answered_correctly ua) (questions_of quiz) in
  let n := Z.of_nat (List.length (questions_of quiz)) in
  exists org p,
    organize_content json_loads int_of_str ask_organizer
      content content_type url assessment_json existing_subjects = Ret org /\
    field "progressPercent" (node_of org) = Some (JInt p) /\
    100 * c / n - 1 <= p <= 100 * c / n /\
    (field "status" (node_of org) = Some (JStr "completed") <-> c = n) /\
    (field "status" (node_of org) = Some (JStr "not_started") <-> c = 0).
Proof.
  intros Hst Hq Hf Hans Hn Hne Hser Hask Hreply Hnode c n.
  pose proof (fresh_result json_loads sid answers st quiz ua Hst Hq Hf Hans) as Hr.
  apply Hser in Hr.
  destruct (fold_step_sums ua (questions_of quiz) [] (fresh_questions quiz Hq))
    as [T C].
  assert (T0 : sum_total [] = 0) by reflexivity.
  assert (C0 : sum_correct [] = 0) by reflexivity.
  rewrite T0 in T. rewrite C0 in C. rewrite Z.add_0_l in T, C.
  assert (Hc : 0 <= c <= n).
  { unfold c, n. split; [apply count_where_nonneg|apply count_where_le_length]. }
  destruct (progress_tracks_percentage_core int_of_str c n) as (p & E & B & S1 & S2);
    [exact Hc|unfold n; lia|].
  destruct (override_ok d p Hnode) as (org & Eo & P1 & P2).
  exists org, p.
  assert (Run : organize_content json_loads int_of_str ask_organizer
                  content content_type url assessment_json existing_subjects
                = override (JObj d) p).
  { eapply organize_content_given; eauto.
    - discriminate.
    - change (progress_of int_of_str
                (JObj [("overall_knowledge",
                        overall_knowledge (assessment_of sid quiz ua))]) = Ret p).
      unfold assessment_of. cbn [overall_knowledge].
      rewrite T, C. exact E.
    - cbn [assessment_to_json assessment_of focus_areas].
      cbn [sget dict_get String.eqb Ascii.eqb Bool.eqb joinable].
      now apply forallb_is_str_keys.
    - cbn [assessment_to_json assessment_of skip_areas].
      cbn [sget dict_get String.eqb Ascii.eqb Bool.eqb joinable].
      now apply forallb_is_str_keys. }
  rewrite Run. split; [exact Eo|]. split; [exact P1|]. split; [exact B|].
  rewrite P2. split.
  - rewrite <- S1. split; [intros H; now injection H|intros ->; reflexivity].
  - rewrite <- S2. split; [intros H; now injection H|intros ->; reflexivity].
Qed.

Lemma scored_progress_tracks_answers_witness :
  dict_get String.eqb "s-1" sample_store = Some sample_quiz /\
  stored_quiz sample_quiz = true /\
  cached_result sample_quiz = Ret None /\
  sample_loads answers_text = Ret (JObj answers_dict) /\
  (1 <= List.length (questions_of sample_quiz) <= 100)%nat /\
  sample_loads assessment_text
  = fst (score_quiz sample_loads "s-1" answers_text sample_store) /\
  sample_loads organizer_reply_text = Ret (JObj organizer_reply_dict) /\
  let c := count_where (answered_correctly answers_dict) (questions_of sample_quiz) in
  let n := Z.of_nat (List.length (questions_of sample_quiz)) in
  exists org p,
    organize_content sample_loads sample_int_of_str sample_ask_organizer
      "content" "text" "" assessment_text "" = Ret org /\
    field "progressPercent" (node_of org) = Some (JInt p) /\
    100 * c / n - 1 <= p <= 100 * c / n /\
    (field "status" (node_of org) = Some (JStr "completed") <-> c = n) /\
    (field "status" (node_of org) = Some (JStr "not_started") <-> c = 0).
Proof.
  do 4 (split; [reflexivity|]). split; [cbn; lia|].
  split; [vm_compute; reflexivity|]. split; [reflexivity|].
  apply (scored_progress_tracks_answers sample_loads sample_int_of_str
           sample_ask_organizer "s-1" answers_text sample_store sample_quiz
           answers_dict "content" "text" "" assessment_text ""
           organizer_reply_text organizer_reply_dict); try reflexivity.
  - cbn. lia.
  - discriminate.
  - intros r H. vm_compute in H. injection H as <-. reflexivity.
Defined.

(** X17. An assessment whose [overall_knowledge] is NaN or infinite makes
    the organizer raise, [ValueError] for NaN and [OverflowError] for an
    infinity, before the model is asked: the outcome is the same for
    every model. *)
Theorem non_finite_knowledge_raises
  (json_loads : string -> result json) (int_of_str : string -> result Z)
  (ask_organizer :
     string -> string -> string -> string -> option assessment_section -> result string)
  (content content_type url assessment_json existing_subjects : string)
  (a : sdict) (f : spec_float) :
  assessment_json <> "" ->
  json_loads assessment_json = Ret (JObj a) ->
  sget "overall_knowledge" a = Some (JFloat f) ->
  is_finite f = false ->
  organize_content json_loads int_of_str ask_organizer
    content content_type url assessment_json existing_subjects
  = Raise (if is_nan f then ValueError else OverflowError).
Proof.
  intros Hne Hload Hok Hf.
  rewrite organize_content_unfold.
  apply String.eqb_neq in Hne. rewrite Hne, Hload. cbn [bind].
  assert (P : progress_of int_of_str (JObj a)
              = Raise (if is_nan f then ValueError else OverflowError)).
  { unfold progress_of, py_get. rewrite Hok. cbn [bind py_mul100 py_int].
    destruct f as [|s| |]; try discriminate; [destruct s|]; reflexivity. }
  now rewrite P.
Qed.

Lemma non_finite_knowledge_raises_witness :
  nan_assessment_text <> "" /\
  organizer_loads nan_assessment_text = Ret (JObj nan_assessment_dict) /\
  sget "overall_knowledge" nan_assessment_dict = Some (JFloat S754_nan) /\
  is_finite S754_nan = false /\
  organize_content organizer_loads sample_int_of_str sample_ask_organizer
    "content" "text" "" nan_assessment_text ""
  = Raise (if is_nan S754_nan then ValueError else OverflowError).
Proof.
  split; [discriminate|]. do 3 (split; [reflexivity|]).
  apply (non_finite_knowledge_raises organizer_loads sample_int_of_str
           sample_ask_organizer "content" "text" "" nan_assessment_text ""
           nan_assessment_dict S754_nan); try reflexivity.
  discriminate.
Defined.

(* ================================================================= *)
(** * Further properties of the HTTP boundary *)

(** X18. [POST /assess/answers] never answers with status 400: without
    configuration it answers 503, an exception of [run_triage] that is a
    [ValueError] becomes 404 and any other one 500, and the 400 raised
    inside the [try] block is among those others. *)
Theorem answers_endpoint_never_answers_400
  {TriageResponse : Type} (build_response : json -> json -> result TriageResponse)
  (configured : bool) (triaged : result json) :
  submit_assessment_answers build_response configured triaged <> HTTPException 400 /\
  (configured = false ->
   submit_assessment_answers build_response configured triaged = HTTPException 503) /\
  (configured = true -> forall e, triaged = Raise e ->
   submit_assessment_answers build_response configured triaged
   = HTTPException (if is_value_error (Exc e) then 404 else 500)) /\
  (configured = true ->
   triage_body build_response triaged = Thrown (HTTPExc 400) ->
   submit_assessment_answers build_response configured triaged = HTTPException 500).
Proof.
  unfold submit_assessment_answers. split; [|split; [|split]].
  - destruct configured; cbn [negb]; [|discriminate].
    destruct (triage_body build_response triaged) as [r|t]; [discriminate|].
    destruct (is_value_error t); discriminate.
  - intros ->. reflexivity.
  - intros -> e ->. cbn [negb triage_body bind].
    now destruct (is_value_error (Exc e)).
  - intros -> E. cbn [negb]. rewrite E. reflexivity.
Qed.

Lemma mapM_raises {A B : Type} (f : A -> result B) (l : list A) (x : A) (e : exn) :
  In x l -> f x = Raise e -> exists e', mapM f l = Raise e'.
Proof.
  induction l as [|y l IH]; cbn [In mapM]; [tauto|].
  intros [->|Hin] Hx.
  - rewrite Hx. cbn [bind]. eauto.
  - destruct (f y); cbn [bind]; [|eauto].
    destruct (IH Hin Hx) as [e' E]. rewrite E. cbn [bind]. eauto.
Qed.

(** X19. When the result of [run_assess] is a dictionary whose questions
    are a list that holds a question without an [id], [POST /assess]
    answers 500, however well-formed the rest is; and whatever
    [run_assess] gives, a configured [/assess] answers with a quiz or
    with 500, never with another status. *)
Theorem assess_answers_500_without_id
  (d : sdict) (vs : list json) (dv : sdict) (assessed : result json) :
  sget "questions" d = Some (JArr vs) ->
  In (JObj dv) vs ->
  sget "id" dv = None ->
  assess_content true (Ret (JObj d)) = HTTPException 500 /\
  ((exists resp, assess_content true assessed = Respond resp)
   \/ assess_content true assessed = HTTPException 500).
Proof.
  intros Hqs Hin Hid. split.
  - assert (Q : quiz_question (JObj dv) = Raise KeyError).
    { unfold quiz_question, py_getitem. now rewrite Hid. }
    destruct (mapM_raises quiz_question vs (JObj dv) KeyError Hin Q) as [e' E].
    unfold assess_content. cbn [negb bind].
    unfold quiz_response, py_get. cbn [bind]. rewrite Hqs. cbn [py_iter bind].
    rewrite E. reflexivity.
  - unfold assess_content. cbn [negb].
    destruct (res <- assessed ;; quiz_response res); eauto.
Qed.

Lemma assess_answers_500_without_id_witness :
  sget "questions" idless_dict = Some (JArr idless_questions) /\
  In (JObj [("question", JStr "Which one?"); ("options", options_abcd)]) idless_questions /\
  assess_content true (Ret (JObj idless_dict)) = HTTPException 500 /\
  ((exists resp, assess_content true (Raise UpstreamError) = Respond resp)
   \/ assess_content true (Raise UpstreamError) = HTTPException 500).
Proof.
  split; [reflexivity|]. split; [right; left; reflexivity|].
  apply (assess_answers_500_without_id idless_dict idless_questions
           [("question", JStr "Which one?"); ("options", options_abcd)]
           (Raise UpstreamError)).
  - reflexivity.
  - right; left; reflexivity.
  - reflexivity.
Defined.

(** ** Generating, then showing the quiz *)

Lemma quiz_question_fields (dv : sdict) (i qn : string) :
  sget "id" dv = Some (JStr i) ->
  sget "question" dv = Some (JStr qn) ->
  opt_str (sget "topic" dv) = true ->
  options_ok (sget "options" dv) = true ->
  exists o, quiz_question (JObj dv)
            = Ret (mkQuizQuestion i (reported_topic (JObj dv)) qn o).
Proof.
  intros Hi Hq Ht Ho.
  unfold quiz_question, py_getitem, py_get, reported_topic, field.
  rewrite Hi, Hq. cbn [bind].
  assert (O : exists o, validate_options
                (match sget "options" dv with Some x => x | None => JObj [] end) = Ret o).
  { unfold options_ok in Ho.
    destruct (sget "options" dv) as [[| | | | | |od]|]; try discriminate.
    - now apply validate_options_ok.
    - exists []. reflexivity. }
  destruct O as [o Eo]. exists o.
  destruct (sget "topic" dv) as [[| | | |t| |]|]; try discriminate;
    cbn [validate_str bind]; rewrite Eo; reflexivity.
Qed.

Lemma question_pipeline (dq : sdict) :
  schema_view_question (JObj dq) = true ->
  exists q1 v qq,
    normalize_question (JObj dq) = Ret q1 /\ sanitize_question q1 = Ret v /\
    quiz_question v = Ret qq /\ shown_as (JObj dq) qq.
Proof.
  cbn [schema_view_question]. intros H.
  apply andb_prop in H as [H Ho]. apply andb_prop in H as [H Hq].
  apply andb_prop in H as [Hi Ht].
  destruct (normalize_question_obj dq) as (d1 & En & _ & _ & N).
  destruct (sanitize_question_obj d1) as (d2 & Es & _ & S).
  unfold field in N, S.
  assert (F : forall k, k <> "correct" -> k <> "correct_answer" -> sget k d2 = sget k dq).
  { intros k N1 N2. rewrite S by exact N1. now apply N. }
  destruct (sget "id" dq) as [[| | | |i| |]|] eqn:Ei; try discriminate.
  destruct (sget "question" dq) as [[| | | |qn| |]|] eqn:Eq; try discriminate.
  destruct (quiz_question_fields d2 i qn) as [o Eqq].
  - rewrite F by discriminate. exact Ei.
  - rewrite F by discriminate. exact Eq.
  - rewrite F by discriminate. exact Ht.
  - rewrite F by discriminate. exact Ho.
  - exists (JObj d1), (JObj d2). eexists.
    split; [exact En|]. split; [exact Es|]. split; [exact Eqq|].
    unfold shown_as. cbn [qq_id qq_question qq_topic].
    unfold reported_topic, field.
    split; [exact Ei|]. split; [exact Eq|].
    now rewrite F by discriminate.
Qed.

Lemma questions_pipeline (raw : list json) :
  forallb schema_view_question raw = true ->
  exists stored view qqs,
    mapM normalize_question raw = Ret stored /\
    mapM sanitize_question stored = Ret view /\
    mapM quiz_question view = Ret qqs /\
    Forall2 shown_as raw qqs.
Proof.
  induction raw as [|q raw IH]; cbn [forallb]; intros H.
  - exists [], [], []. repeat split; constructor.
  - apply andb_prop in H as [Hq Hraw].
    destruct (IH Hraw) as (stored & view & qqs & E1 & E2 & E3 & HF).
    destruct q as [| | | | | |dq]; try discriminate.
    destruct (question_pipeline dq Hq) as (q1 & v & qq & N & S & Q & R).
    exists (q1 :: stored), (v :: view), (qq :: qqs). cbn [mapM].
    rewrite N, E1, S, E2, Q, E3. cbn [bind]. repeat split; auto.
Qed.

(** X20. Generating, then showing: when the reply follows the generation
    schema, [POST /assess] on the value that [generate_quiz] returns
    answers with the new session id, the status awaiting_answers, and one
    question per question of the reply, in the same order, each with the
    id, the text and the topic of the reply (General when it has none). *)
Theorem generated_quiz_is_shown
  (json_loads : string -> result json)
  (ask_quiz : string -> string -> Z -> result string)
  (content content_type : string) (num_questions : Z) (sid : string) (st : store)
  (text : string) (d : sdict) (raw : list json) :
  ask_quiz content content_type num_questions = Ret text ->
  json_loads text = Ret (JObj d) ->
  sget "questions" d = Some (JArr raw) ->
  forallb schema_view_question raw = true ->
  opt_str (sget "title" d) = true ->
  joinable (sget "topics" d) = true ->
  exists resp,
    assess_content true
      (fst (generate_quiz json_loads ask_quiz content content_type num_questions sid st))
    = Respond resp /\
    qr_session_id resp = sid /\
    qr_status resp = "awaiting_answers" /\
    Forall2 shown_as raw (qr_questions resp).
Proof.
  intros Hask Hload Hqs Hschema Htitle Htopics.
  destruct (questions_pipeline raw Hschema) as (stored & view & qqs & E1 & E2 & E3 & HF).
  destruct (validate_str_opt (sget "title" d) "Quiz" Htitle) as [t Et].
  destruct (validate_strs_ok (sget "topics" d) [] Htopics eq_refl) as [tp Etp].
  exists (mkQuizResponse sid "awaiting_answers" t tp qqs).
  rewrite (generate_quiz_stores json_loads ask_quiz content content_type
             num_questions sid st text d raw stored Hask Hload Hqs E1).
  cbn [fst]. split; [|auto].
  unfold quiz_view, py_get. rewrite sget_sset_same. cbn [bind py_iter].
  rewrite E2. cbn [bind]. rewrite !sget_sset_other by discriminate.
  unfold assess_content. cbn [negb bind].
  set (T := match sget "title" d with Some v => v | None => JStr "Quiz" end) in *.
  set (TP := match sget "topics" d with Some v => v | None => JArr [] end) in *.
  unfold quiz_response, py_get.
  change (sget "session_id" [("session_id", JStr sid); ("title", T); ("topics", TP);
                             ("questions", JArr view)]) with (Some (JStr sid)).
  change (sget "title" [("session_id", JStr sid); ("title", T); ("topics", TP);
                        ("questions", JArr view)]) with (Some T).
  change (sget "topics" [("session_id", JStr sid); ("title", T); ("topics", TP);
                         ("questions", JArr view)]) with (Some TP).
  change (sget "questions" [("session_id", JStr sid); ("title", T); ("topics", TP);
                            ("questions", JArr view)]) with (Some (JArr view)).
  cbn [bind py_iter]. rewrite E3. cbn [bind validate_str]. rewrite Et. cbn [bind].
  rewrite Etp. reflexivity.
Qed.

Lemma generated_quiz_is_shown_witness :
  sample_ask_quiz "content" "text" 3 = Ret quiz_reply_text /\
  sample_loads quiz_reply_text
  = Ret (JObj (quiz_dict [raw_question "q1" (Some "A") "A";
                          raw_question "q2" (Some "A") "B";
                          raw_question "q3" (Some "B") "C"])) /\
  exists resp,
    assess_content true
      (fst (generate_quiz sample_loads sample_ask_quiz "content" "text" 3 "s-new"
              sample_store))
    = Respond resp /\
    qr_session_id resp = "s-new" /\
    qr_status resp = "awaiting_answers" /\
    Forall2 shown_as
      [raw_question "q1" (Some "A") "A"; raw_question "q2" (Some "A") "B";
       raw_question "q3" (Some "B") "C"] (qr_questions resp).
Proof.
  do 2 (split; [reflexivity|]).
  apply (generated_quiz_is_shown sample_loads sample_ask_quiz "content" "text" 3
           "s-new" sample_store quiz_reply_text
           (quiz_dict [raw_question "q1" (Some "A") "A";
                       raw_question "q2" (Some "A") "B";
                       raw_question "q3" (Some "B") "C"])
           [raw_question "q1" (Some "A") "A"; raw_question "q2" (Some "A") "B";
            raw_question "q3" (Some "B") "C"]);
    reflexivity.
Defined.
